(** * Snowfall alert system: decision engine and weather-source clients

    A shallow embedding of [src/core/processor.py] and
    [src/weather/client.py], with the properties the specification
    states about them.

    Conventions of the embedding.
    - Python numbers ([int] and [float]) are exact rationals [Q]: every
      finite float denotes a rational and the comparisons the code makes
      ([>=], [<], [<=]) are exact on them.  NaN and the infinities are
      outside the model.  A quotient and a difference are floats: their
      operands are converted to floats, which fails for an int too large,
      and the result is rounded to the nearest double, ties to even, as
      the hardware does ([round_double]).  A sum is taken exactly, as it is
      for ints and whenever one summand is zero; the rounding of other
      sums of floats is not modelled.
    - Wall-clock time ([datetime.now()]) is a rational number of seconds
      since 1970-01-01T00:00:00 on the local clock; [timedelta(hours=h)]
      is [3600 * h] seconds.  A [datetime] reaches from year 1 to year
      9999; adding a [timedelta] that leads out of this range raises
      [OverflowError], and so does [time.sleep] for a delay that does not
      fit its 64-bit count of nanoseconds.
    - JSON payloads and Python dictionaries are values of [pyval]; an
      exception is a value of [exn]; a computation that may raise returns
      [result]; a computation that also touches the clock, the network or
      an object's fields is a state transformer [M]. *)

From Stdlib Require Import QArith Qabs Lqa.
From stdpp Require Import gmap strings list.

(** ** Python values *)

#[local] Set Warnings "-register-all".

Inductive pyval :=
| PyNone
| PyBool (b : bool)
| PyNum (q : Q)
| PyStr (s : string)
| PyList (l : list pyval)
| PyDict (kvs : list (string * pyval)).

(** Exceptions, by class.  [RequestException] stands for
    [requests.exceptions.RequestException] and its subclasses;
    [Exception] for a plain [Exception(msg)]. *)
Inductive exn :=
| RequestException (msg : string)
| AttributeError (msg : string)
| KeyError (msg : string)
| IndexError (msg : string)
| TypeError (msg : string)
| ZeroDivisionError (msg : string)
| ValueError (msg : string)
| OverflowError (msg : string)
| Exception (msg : string).


(** [str(e)] *)
Definition str_exn (e : exn) : string :=
  match e with
  | RequestException m | AttributeError m | KeyError m | IndexError m
  | TypeError m | ZeroDivisionError m | ValueError m | OverflowError m
  | Exception m => m
  end.

(** [isinstance(e, requests.exceptions.RequestException)] *)
Definition is_RequestException (e : exn) : bool :=
  match e with RequestException _ => true | _ => false end.

Inductive result (A : Type) :=
| Ok (a : A)
| Raise (e : exn).
Arguments Ok {A} a.
Arguments Raise {A} e.

#[global] Instance result_ret : MRet result := fun A a => Ok a.
#[global] Instance result_bind : MBind result :=
  fun A B f m => match m with Ok a => f a | Raise e => Raise e end.

(** Dictionaries keep their items in insertion order; keys are unique. *)
Fixpoint dict_lookup (k : string) (kvs : list (string * pyval)) : option pyval :=
  match kvs with
  | [] => None
  | (k', v) :: rest => if String.eqb k k' then Some v else dict_lookup k rest
  end.

(** [d[k] = v] on the items of a dictionary *)
Fixpoint dict_store (k : string) (v : pyval) (kvs : list (string * pyval))
  : list (string * pyval) :=
  match kvs with
  | [] => [(k, v)]
  | (k', v') :: rest =>
      if String.eqb k k' then (k, v) :: rest else (k', v') :: dict_store k v rest
  end.

(** [v.get(k, dflt)]: only dictionaries have the method *)
Definition py_get (v : pyval) (k : string) (dflt : pyval) : result pyval :=
  match v with
  | PyDict kvs => Ok (default dflt (dict_lookup k kvs))
  | _ => Raise (AttributeError "object has no attribute 'get'")
  end.

(** [v[k]] with a string key *)
Definition py_getitem (v : pyval) (k : string) : result pyval :=
  match v with
  | PyDict kvs =>
      match dict_lookup k kvs with
      | Some x => Ok x
      | None => Raise (KeyError k)
      end
  | PyList _ | PyStr _ => Raise (TypeError "indices must be integers")
  | _ => Raise (TypeError "object is not subscriptable")
  end.

(** [v[k] = x] with a string key *)
Definition py_setitem (v : pyval) (k : string) (x : pyval) : result pyval :=
  match v with
  | PyDict kvs => Ok (PyDict (dict_store k x kvs))
  | _ => Raise (TypeError "object does not support item assignment")
  end.

(** [v[0]] *)
Definition py_index0 (v : pyval) : result pyval :=
  match v with
  | PyList (x :: _) => Ok x
  | PyList [] => Raise (IndexError "list index out of range")
  | PyStr (String c _) => Ok (PyStr (String c EmptyString))
  | PyStr EmptyString => Raise (IndexError "string index out of range")
  | PyDict _ => Raise (KeyError "0")
  | _ => Raise (TypeError "object is not subscriptable")
  end.

Fixpoint chars (s : string) : list pyval :=
  match s with
  | EmptyString => []
  | String c rest => PyStr (String c EmptyString) :: chars rest
  end.

(** The items iterated by [for x in v[:8]].  Slicing a dictionary raises
    ([TypeError] before Python 3.12, [KeyError] since). *)
Definition py_slice8 (v : pyval) : result (list pyval) :=
  match v with
  | PyList l => Ok (take 8 l)
  | PyStr s => Ok (take 8 (chars s))
  | _ => Raise (TypeError "object is not subscriptable")
  end.

(** Truth value: [bool(v)] *)
Definition py_truthy (v : pyval) : bool :=
  match v with
  | PyNone => false
  | PyBool b => b
  | PyNum q => negb (Qeq_bool q 0)
  | PyStr s => negb (String.eqb s "")
  | PyList l => match l with [] => false | _ => true end
  | PyDict kvs => match kvs with [] => false | _ => true end
  end.

(** [isinstance(v, (int, float))]; [bool] is a subclass of [int] *)
Definition py_is_number (v : pyval) : bool :=
  match v with
  | PyNum _ | PyBool _ => true
  | _ => false
  end.

(** The number an arithmetic operator or an ordering comparison with a
    number sees; anything else than a number is a [TypeError]. *)
Definition py_float (v : pyval) : result Q :=
  match v with
  | PyNum q => Ok q
  | PyBool b => Ok (if b then 1 else 0)%Q
  | _ => Raise (TypeError "unsupported operand type(s)")
  end.

(** *** Floats

    A float is an IEEE 754 double: a number [m * 2 ^ u] with
    [|m| < 2 ^ 53] and [u >= -1074]. *)

(** The nearest integer to [n / d], for [d > 0]; a tie goes to the even
    one. *)
Definition round_half_even (n d : Z) : Z :=
  let q := (n / d)%Z in
  match (2 * (n mod d) ?= d)%Z with
  | Lt => q
  | Gt => (q + 1)%Z
  | Eq => if Z.even q then q else (q + 1)%Z
  end.

(** [n / d] divided by [2 ^ e], as a numerator and a denominator *)
Definition scaled (n d e : Z) : Z * Z :=
  if (0 <=? e)%Z then (n, d * 2 ^ e)%Z else (n * 2 ^ (- e), d)%Z.

(** The exponent [e] with [2 ^ e <= n / d < 2 ^ (e + 1)], for [n, d > 0] *)
Definition log2_floor (n d : Z) : Z :=
  let e := (Z.log2 n - Z.log2 d)%Z in
  let '(n', d') := scaled n d e in
  if (d' <=? n')%Z then e else (e - 1)%Z.

(** The double nearest to [x]: the float a literal [x] denotes, the float
    an int [x] is converted to, and the result of an operation whose
    exact value is [x].  A value beyond the largest double stays a
    rational where the code has an infinity. *)
Definition round_double (x : Q) : Q :=
  let n := Qnum x in
  let d := Z.pos (Qden x) in
  if (n =? 0)%Z then 0%Q
  else
    let e := log2_floor (Z.abs n) d in
    let u := Z.max (e - 52) (-1074) in
    let '(n', d') := scaled n d u in
    let m := round_half_even n' d' in
    Qred (if (0 <=? u)%Z then inject_Z (m * 2 ^ u)
          else Qmake m (Z.to_pos (2 ^ (- u)))).

(** The largest double *)
Definition float_max : Q := inject_Z (2 ^ 1024 - 2 ^ 971).

(** A number converts to a float unless it rounds beyond the largest
    double; this can only happen to an int. *)
Definition float_overflows (x : Q) : bool :=
  Qle_bool (inject_Z (2 ^ 1024 - 2 ^ 970)) (Qabs x).

(** [x / y] and [x - y] on floats *)
Definition float_div (x y : Q) : Q :=
  round_double (round_double x / round_double y).

Definition float_sub (x y : Q) : Q :=
  round_double (round_double x - round_double y).

(** [a + b].  Numbers are added exactly, as ints are; the rounding of a
    sum of two floats is not modelled.  What is stated of a sum below
    holds with it: that a sum with zero is the other summand, and which
    amounts are summed. *)
Definition py_add (a b : pyval) : result pyval :=
  match a, b with
  | PyStr s, PyStr t => Ok (PyStr (s +:+ t))
  | PyList l, PyList m => Ok (PyList (l ++ m))
  | _, _ => x ← py_float a; y ← py_float b; Ok (PyNum (x + y))
  end.

(** [a / d] for a float constant [d] *)
Definition py_truediv (a : pyval) (d : Q) : result pyval :=
  x ← py_float a;
  if float_overflows x then
    Raise (OverflowError "int too large to convert to float")
  else if Qeq_bool (round_double d) 0 then
    Raise (ZeroDivisionError "float division by zero")
  else Ok (PyNum (float_div x d)).

(** [a - b] for a float [b], and [abs(a)] *)
Definition py_sub (a b : pyval) : result pyval :=
  x ← py_float a; y ← py_float b;
  if float_overflows x then
    Raise (OverflowError "int too large to convert to float")
  else Ok (PyNum (float_sub x y)).

Definition py_abs (a : pyval) : result pyval :=
  x ← py_float a; Ok (PyNum (Qabs x)).

(** [a >= t] and [a <= t] for a float constant [t] *)
Definition py_ge (a : pyval) (t : Q) : result bool :=
  x ← py_float a; Ok (Qle_bool t x).

Definition py_le (a : pyval) (t : Q) : result bool :=
  x ← py_float a; Ok (Qle_bool x t).

(** [now < t] on the clock *)
Definition Qlt_bool (x y : Q) : bool := negb (Qle_bool y x).

(** ** Configuration ([src/config/settings.py], [CACHE_TTL] of the client) *)

Record settings := {
  OPENWEATHER_API_KEY : string;
  WEATHERAPI_KEY : string;
  VERIFICATION_THRESHOLD : Q;
  ALERT_COOLDOWN_HOURS : Z;
  THRESHOLD_LIGHT : Q;
  THRESHOLD_MODERATE : Q;
  THRESHOLD_HEAVY : Q;
  CACHE_TTL : Z
}.

(** The values taken when no environment variable is set. *)
Definition default_settings : settings := {|
  OPENWEATHER_API_KEY := "";
  WEATHERAPI_KEY := "";
  VERIFICATION_THRESHOLD := 2.0;
  ALERT_COOLDOWN_HOURS := 12;
  THRESHOLD_LIGHT := 2;
  THRESHOLD_MODERATE := 6;
  THRESHOLD_HEAVY := 12;
  CACHE_TTL := 300
|}.

(** [timedelta(hours=h)] and [timedelta(seconds=s)], in seconds *)
Definition timedelta_hours (h : Z) : Q := inject_Z (3600 * h).
Definition timedelta_seconds (s : Z) : Q := inject_Z s.

(** The range of [datetime]: from 0001-01-01T00:00:00 on, and before
    10000-01-01T00:00:00. *)
Definition datetime_min : Q := -62135596800.
Definition datetime_end : Q := 253402300800.

Definition is_datetime (t : Q) : bool :=
  Qle_bool datetime_min t && Qlt_bool t datetime_end.

(** [t + delta] for a [datetime] and a [timedelta].  A [timedelta] too
    long to be built, longer than 999999999 days, leads out of the range
    from any [datetime] and raises the same class. *)
Definition datetime_add (t delta : Q) : result Q :=
  if is_datetime (t + delta) then Ok (t + delta)%Q
  else Raise (OverflowError "date value out of range").

(** ** The decision engine ([SnowfallProcessor]) *)

Section Processor.
Variable cfg : settings.

(** [self.last_alerts]: resort name -> category -> last alert time *)
Definition _load_last_alerts : gmap string (gmap string Q) := ∅.

(** The time stored for a pair, if any: [last_alerts[resort_name][category]] *)
Definition last_alert_time (last_alerts : gmap string (gmap string Q))
    (resort_name category : string) : option Q :=
  per_resort ← last_alerts !! resort_name; per_resort !! category.

Definition is_in_cooldown (last_alerts : gmap string (gmap string Q)) (now : Q)
    (resort_name category : string) : result bool :=
  match last_alerts !! resort_name with
  | None => Ok false
  | Some per_resort =>
      match per_resort !! category with
      | None => Ok false
      | Some last_time =>
          let cooldown_period := timedelta_hours (ALERT_COOLDOWN_HOURS cfg) in
          cooldown_end ← datetime_add last_time cooldown_period;
          Ok (Qlt_bool now cooldown_end)
      end
  end.

Definition update_last_alert_time (last_alerts : gmap string (gmap string Q))
    (now : Q) (resort_name category : string) : gmap string (gmap string Q) :=
  let last_alerts1 :=
    match last_alerts !! resort_name with
    | None => <[resort_name := ∅]> last_alerts
    | Some _ => last_alerts
    end in
  <[resort_name := <[category := now]> (default ∅ (last_alerts1 !! resort_name))]>
    last_alerts1.

Definition determine_alert_category (snow_amount : Q) : string :=
  if Qle_bool (THRESHOLD_HEAVY cfg) snow_amount then "heavy"
  else if Qle_bool (THRESHOLD_MODERATE cfg) snow_amount then "moderate"
  else if Qle_bool (THRESHOLD_LIGHT cfg) snow_amount then "light"
  else "none".

Definition calculate_time_window_data (current_data : pyval)
    (historical_data : option (list pyval)) : result pyval :=
  current_24h ← py_get current_data "current_snow" (PyNum 0);
  forecast_24h ← py_get current_data "forecast_snow" (PyNum 0);
  total_48h ← py_add current_24h forecast_24h;
  Ok (PyDict [("current_24h", current_24h);
              ("forecast_24h", forecast_24h);
              ("total_48h", total_48h)]).

Definition should_trigger_alert (last_alerts : gmap string (gmap string Q))
    (now : Q) (resort_name : string) (snow_data : pyval) (is_verified : bool)
    : result (bool * option string) :=
  current_24h ← py_getitem snow_data "current_24h";
  significant ← py_ge current_24h (THRESHOLD_LIGHT cfg);
  if significant && negb is_verified then Ok (false, None)
  else
    amount ← py_float current_24h;
    let category := determine_alert_category amount in
    if String.eqb category "none" then Ok (false, None)
    else
      in_cooldown ← is_in_cooldown last_alerts now resort_name category;
      if in_cooldown : bool then Ok (false, None)
      else Ok (true, Some category).

End Processor.

(** The order of severity of the four categories. *)
Definition category_rank (category : string) : nat :=
  if String.eqb category "heavy" then 3
  else if String.eqb category "moderate" then 2
  else if String.eqb category "light" then 1
  else 0.

(** The classification rule as the specification words it: thresholds
    tried from the highest to the lowest, each with [>=]. *)
Definition classify_spec (heavy_threshold moderate_threshold light_threshold a : Q)
  : string :=
  match Qlt_le_dec a heavy_threshold with
  | right _ => "heavy"
  | left _ =>
      match Qlt_le_dec a moderate_threshold with
      | right _ => "moderate"
      | left _ =>
          match Qlt_le_dec a light_threshold with
          | right _ => "light"
          | left _ => "none"
          end
      end
  end.

(** ** The outside world: clock, sleeps and HTTP *)

(** What a run does to the outside: the GET requests it sends and the
    sleeps it takes, in order. *)
Inductive event :=
| EvGet (url : string) (params : pyval)
| EvSleep (seconds : Q).

Record world := {
  w_now : Q;
  w_trace : list event
}.

(** A computation over a state [S] that returns or raises.  The state
    reached is kept when it raises. *)
Definition M (S A : Type) : Type := S → result A * S.

#[global] Instance M_ret S : MRet (M S) := fun A a s => (Ok a, s).
#[global] Instance M_bind S : MBind (M S) :=
  fun A B f m s =>
    match m s with
    | (Ok a, s') => f a s'
    | (Raise e, s') => (Raise e, s')
    end.

Definition raise {S A} (e : exn) : M S A := fun s => (Raise e, s).

(** A step that neither reads nor writes the state *)
Definition pure {S A} (r : result A) : M S A := fun s => (r, s).

(** [try: m  except <class> as e: h e], for the classes [catches] accepts *)
Definition try_except {S A} (catches : exn → bool) (m : M S A) (h : exn → M S A)
  : M S A :=
  fun s =>
    match m s with
    | (Ok a, s') => (Ok a, s')
    | (Raise e, s') => if catches e then h e s' else (Raise e, s')
    end.

(** [except Exception] *)
Definition any_Exception (e : exn) : bool := true.

(** [datetime.now()] *)
Definition datetime_now : M world Q := fun w => (Ok (w_now w), w).

(** [time.sleep] keeps the delay as a signed 64-bit count of
    nanoseconds. *)
Definition sleep_overflows (seconds : Q) : bool :=
  negb (Qle_bool (- inject_Z (2 ^ 63)) (seconds * 1000000000)
        && Qlt_bool (seconds * 1000000000) (inject_Z (2 ^ 63))).

(** A delay that is accepted with room to spare: 285 years. *)
Definition sleep_limit : Q := 9000000000.

(** [time.sleep(seconds)] *)
Definition time_sleep (seconds : Q) : M world unit :=
  fun w =>
    if sleep_overflows seconds then
      (Raise (OverflowError "timestamp too large to convert to C _PyTime_t"), w)
    else if Qlt_bool seconds 0 then
      (Raise (ValueError "sleep length must be non-negative"), w)
    else
      (Ok tt, {| w_now := w_now w + seconds;
                 w_trace := w_trace w ++ [EvSleep seconds] |}).

(** ** The weather clients ([src/weather/client.py]) *)

(** The fields of a [WeatherAPIClient] object. *)
Record client := {
  api_key : string;
  base_url : string;
  cache_enabled : bool;
  cache : gmap string pyval;
  cache_expiry : gmap string Q
}.

(** A method runs on its object and the world. *)
Definition self : M (client * world) client := fun s => (Ok (fst s), s).

Definition lift_world {A} (m : M world A) : M (client * world) A :=
  fun s => let '(r, w') := m (snd s) in (r, (fst s, w')).

(** A call on an object created for it: the object is not reachable
    once the call is over. *)
Definition on_new_object {A} (c : client) (m : M (client * world) A) : M world A :=
  fun w => let '(r, s') := m (c, w) in (r, snd s').

(** [params or {}] *)
Definition params_or_empty (params : pyval) : pyval :=
  if py_truthy params then params else PyDict [].

Section Clients.
Variable cfg : settings.

(** The network: what [session.get(url, params=params, timeout=10)],
    [raise_for_status()] and [response.json()] give together, and the
    seconds they take, after the events so far. *)
Variable http_get : list event → string → pyval → Q * result pyval.

(** [hashlib.md5(s.encode()).hexdigest()] and
    [json.dumps(params, sort_keys=True)] *)
Variable md5_hexdigest : string → string.
Variable json_dumps_sorted : pyval → string.

(** [datetime.isoformat()] and how an f-string renders a value *)
Variable isoformat : Q → string.
Variable py_format : pyval → string.

Definition session_get (url : string) (params : pyval) : M world pyval :=
  fun w =>
    let '(elapsed, r) := http_get (w_trace w) url params in
    (r, {| w_now := w_now w + elapsed;
           w_trace := w_trace w ++ [EvGet url params] |}).

Definition WeatherAPIClient__init__ (api_key base_url : string)
    (cache_enabled : bool) : client :=
  {| api_key := api_key; base_url := base_url; cache_enabled := cache_enabled;
     cache := ∅; cache_expiry := ∅ |}.

Definition _get_cache_key (endpoint : string) (params : pyval) : string :=
  let params_str := json_dumps_sorted params in
  md5_hexdigest (endpoint +:+ ":" +:+ params_str).

Definition _is_cache_valid (cache_key : string) : M (client * world) bool :=
  c ← self;
  match cache c !! cache_key, cache_expiry c !! cache_key with
  | Some _, Some expiry =>
      now ← lift_world datetime_now;
      mret (Qlt_bool now expiry)
  | _, _ => mret false
  end.

(** The two assignments of [_cache_response], made at time [now] *)
Definition store_response (c : client) (cache_key : string) (response : pyval)
    (now : Q) : client :=
  {| api_key := api_key c; base_url := base_url c;
     cache_enabled := cache_enabled c;
     cache := <[cache_key := response]> (cache c);
     cache_expiry :=
       <[cache_key := (now + timedelta_seconds (CACHE_TTL cfg))%Q]>
         (cache_expiry c) |}.

(** The first assignment alone *)
Definition store_payload (c : client) (cache_key : string) (response : pyval)
  : client :=
  {| api_key := api_key c; base_url := base_url c;
     cache_enabled := cache_enabled c;
     cache := <[cache_key := response]> (cache c);
     cache_expiry := cache_expiry c |}.

(** The payload is stored first; the expiry is then computed, which
    raises when [now + CACHE_TTL] is not a [datetime]. *)
Definition _cache_response (cache_key : string) (response : pyval)
  : M (client * world) unit :=
  fun s =>
    let now := w_now (snd s) in
    match datetime_add now (timedelta_seconds (CACHE_TTL cfg)) with
    | Ok _ => (Ok tt, (store_response (fst s) cache_key response now, snd s))
    | Raise e => (Raise e, (store_payload (fst s) cache_key response, snd s))
    end.

(** [retry_delay * (2 ** n)] for the float [retry_delay]: the power, an
    int, is converted to a float, which fails from [2 ** 1024] on; the
    product with a power of two is exact. *)
Definition py_mul_pow2 (retry_delay : Q) (n : Z) : result Q :=
  if (1024 <=? n)%Z then Raise (OverflowError "int too large to convert to float")
  else Ok (retry_delay * inject_Z (2 ^ n))%Q.

(** The [while retries < max_retries] loop of [_make_request].
    [attempts_left] is [max_retries - retries], so the loop test holds
    exactly when it is not zero. *)
Fixpoint request_loop (url endpoint : string) (params : pyval)
    (max_retries : Z) (retry_delay : Q)
    (attempts_left : nat) (retries : Z) (last_exception : option exn)
  : M (client * world) pyval :=
  match attempts_left with
  | O =>
      raise (default
               (Exception ("Request to " +:+ url +:+ " failed for unknown reason"))
               last_exception)
  | S attempts_left' =>
      try_except is_RequestException
        (data ← lift_world (session_get url params);
         c ← self;
         _ ← (if cache_enabled c then
                let cache_key := _get_cache_key endpoint params in
                _cache_response cache_key data
              else mret tt);
         mret data)
        (fun e =>
           let retries := (retries + 1)%Z in
           _ ← (if (retries <? max_retries)%Z then
                  sleep_time ← pure (py_mul_pow2 retry_delay (retries - 1));
                  lift_world (time_sleep sleep_time)
                else mret tt);
           request_loop url endpoint params max_retries retry_delay
             attempts_left' retries (Some e))
  end.

Definition _make_request (endpoint : string) (params : pyval)
    (max_retries : Z) (retry_delay : Q) : M (client * world) pyval :=
  let params := params_or_empty params in
  c ← self;
  let url := base_url c +:+ "/" +:+ endpoint in
  cache_hit ← (if cache_enabled c then
                 _is_cache_valid (_get_cache_key endpoint params)
               else mret false);
  if cache_hit : bool then
    pure (S := client * world)
      (match cache c !! _get_cache_key endpoint params with
       | Some cached => Ok cached
       | None => Raise (KeyError (_get_cache_key endpoint params))
       end)
  else
    request_loop url endpoint params max_retries retry_delay
      (Z.to_nat max_retries) 0 None.

(** The defaults of [_make_request] *)
Definition max_retries_default : Z := 3.
Definition retry_delay_default : Q := 1.0.

(** *** OpenWeatherMap *)

(** [api_key or KEY] *)
Definition key_or (api_key : option string) (KEY : string) : string :=
  match api_key with
  | Some k => if String.eqb k "" then KEY else k
  | None => KEY
  end.

Definition OpenWeatherMapClient__init__ (api_key : option string)
    (cache_enabled : bool) : client :=
  WeatherAPIClient__init__ (key_or api_key (OPENWEATHER_API_KEY cfg))
    "https://api.openweathermap.org/data/2.5" cache_enabled.

Definition OpenWeatherMapClient_get_current_weather (lat lon : pyval)
  : M (client * world) pyval :=
  c ← self;
  let params := PyDict [("lat", lat); ("lon", lon);
                        ("units", PyStr "imperial");
                        ("appid", PyStr (api_key c))] in
  _make_request "weather" params max_retries_default retry_delay_default.

Definition OpenWeatherMapClient_get_forecast (lat lon : pyval)
  : M (client * world) pyval :=
  c ← self;
  let params := PyDict [("lat", lat); ("lon", lon);
                        ("units", PyStr "imperial");
                        ("appid", PyStr (api_key c))] in
  _make_request "forecast" params max_retries_default retry_delay_default.

(** The current snowfall read off the "weather" payload
    ([get_snow_data], the lines under "Extract current snow"). *)
Definition current_snow_of (current_data : pyval) : result pyval :=
  snow ← py_get current_data "snow" (PyDict []);
  current_snow ← py_get snow "1h" (PyNum 0);
  if negb (py_truthy current_snow) then
    py_get current_data "snow" (PyNum 0)
  else Ok current_snow.

(** One turn of the loop over the forecast periods: the value of
    [period_snow] when it is added to [forecast_snow]. *)
Definition period_snow_of (period : pyval) : result pyval :=
  snow ← py_get period "snow" (PyDict []);
  period_snow ← py_get snow "3h" (PyNum 0);
  if negb (py_truthy period_snow) then
    snow' ← py_get period "snow" PyNone;
    if py_is_number snow' then py_get period "snow" (PyNum 0)
    else Ok period_snow
  else Ok period_snow.

Fixpoint sum_periods (forecast_snow : pyval) (periods : list pyval)
  : result pyval :=
  match periods with
  | [] => Ok forecast_snow
  | period :: rest =>
      period_snow ← period_snow_of period;
      forecast_snow ← py_add forecast_snow period_snow;
      sum_periods forecast_snow rest
  end.

(** The forecast snowfall read off the "forecast" payload: the first
    eight three-hour periods. *)
Definition forecast_snow_of (forecast_data : pyval) : result pyval :=
  periods ← py_get forecast_data "list" (PyList []);
  periods ← py_slice8 periods;
  sum_periods (PyNum 0) periods.

(** *** WeatherAPI.com *)

Definition WeatherApiClient__init__ (api_key : option string)
    (cache_enabled : bool) : client :=
  WeatherAPIClient__init__ (key_or api_key (WEATHERAPI_KEY cfg))
    "https://api.weatherapi.com/v1" cache_enabled.

Definition WeatherApiClient_get_forecast (lat lon : pyval) (days : Z)
  : M (client * world) pyval :=
  c ← self;
  let params := PyDict [("q", PyStr (py_format lat +:+ "," +:+ py_format lon));
                        ("days", PyNum (inject_Z days));
                        ("key", PyStr (api_key c))] in
  _make_request "forecast.json" params max_retries_default retry_delay_default.

Definition WeatherApiClient_get_snow_data (lat lon : pyval)
  : M (client * world) pyval :=
  data ← WeatherApiClient_get_forecast lat lon 1;
  snow_cm ← pure (forecast ← py_get data "forecast" (PyDict []);
                  forecastday ← py_get forecast "forecastday" (PyList [PyDict []]);
                  first ← py_index0 forecastday;
                  day ← py_get first "day" (PyDict []);
                  py_get day "totalsnow_cm" (PyNum 0));
  snow_inches ← pure (py_truediv snow_cm 2.54);
  current_temp_f ← pure (current ← py_get data "current" (PyDict []);
                         py_get current "temp_f" (PyNum 0));
  conditions ← pure (current ← py_get data "current" (PyDict []);
                     condition ← py_get current "condition" (PyDict []);
                     py_get condition "text" (PyStr ""));
  now ← lift_world datetime_now;
  mret (PyDict [("snow_cm", snow_cm);
                ("snow_inches", snow_inches);
                ("current_temp", current_temp_f);
                ("conditions", conditions);
                ("timestamp", PyStr (isoformat now));
                ("source", PyStr "WeatherAPI.com")]).

(** *** [OpenWeatherMapClient.get_snow_data] and its fallbacks *)

(** The [try] block: the free "weather" and "forecast" endpoints. *)
Definition get_snow_data_free_endpoints (lat lon : pyval)
  : M (client * world) pyval :=
  current_data ← OpenWeatherMapClient_get_current_weather lat lon;
  forecast_data ← OpenWeatherMapClient_get_forecast lat lon;
  current_snow ← pure (current_snow_of current_data);
  forecast_snow ← pure (forecast_snow_of forecast_data);
  current_temp ← pure (main ← py_get current_data "main" (PyDict []);
                       py_get main "temp" (PyNum 0));
  conditions ← pure (weather ← py_get current_data "weather" (PyList [PyDict []]);
                     first ← py_index0 weather;
                     py_get first "description" (PyStr ""));
  now ← lift_world datetime_now;
  mret (PyDict [("current_snow", current_snow);
                ("forecast_snow", forecast_snow);
                ("current_temp", current_temp);
                ("conditions", conditions);
                ("timestamp", PyStr (isoformat now));
                ("source", PyStr "OpenWeatherMap (Free API)")]).

(** The fetch of the first handler: WeatherAPI.com through a client of
    its own. *)
Definition fallback_fetch (lat lon : pyval) : M world pyval :=
  on_new_object (WeatherApiClient__init__ None true)
    (WeatherApiClient_get_snow_data lat lon).

(** The first [except] block *)
Definition get_snow_data_fallback (lat lon : pyval) : M (client * world) pyval :=
  secondary_data ← lift_world (fallback_fetch lat lon);
  current_snow ← pure (py_get secondary_data "snow_inches" (PyNum 0));
  current_temp ← pure (py_get secondary_data "current_temp" (PyNum 0));
  conditions ← pure (py_get secondary_data "conditions" (PyStr ""));
  now ← lift_world datetime_now;
  mret (PyDict [("current_snow", current_snow);
                ("forecast_snow", PyNum 0);
                ("current_temp", current_temp);
                ("conditions", conditions);
                ("timestamp", PyStr (isoformat now));
                ("source", PyStr "Fallback: WeatherAPI.com")]).

(** The inner [except] block *)
Definition get_snow_data_default : M (client * world) pyval :=
  now ← lift_world datetime_now;
  mret (PyDict [("current_snow", PyNum 0);
                ("forecast_snow", PyNum 0);
                ("current_temp", PyNum 0);
                ("conditions", PyStr "Error fetching data");
                ("timestamp", PyStr (isoformat now));
                ("source", PyStr "Default values (API errors)")]).

Definition OpenWeatherMapClient_get_snow_data (lat lon : pyval)
  : M (client * world) pyval :=
  try_except any_Exception
    (get_snow_data_free_endpoints lat lon)
    (fun e =>
       try_except any_Exception
         (get_snow_data_fallback lat lon)
         (fun fallback_error => get_snow_data_default)).

(** *** The module-level entry points *)

Definition get_resort_snow_data (resort_name : string) (lat lon : pyval)
  : M world pyval :=
  try_except any_Exception
    (snow_data ← on_new_object (OpenWeatherMapClient__init__ None true)
                   (OpenWeatherMapClient_get_snow_data lat lon);
     snow_data ← pure (py_setitem snow_data "resort" (PyStr resort_name));
     _ ← pure (py_getitem snow_data "current_snow");
     _ ← pure (py_getitem snow_data "forecast_snow");
     mret snow_data)
    (fun e =>
       raise (Exception ("Failed to retrieve weather data: " +:+ str_exn e))).

(** The secondary fetch: WeatherAPI.com through a client of its own. *)
Definition secondary_fetch (lat lon : pyval) : M world pyval :=
  on_new_object (WeatherApiClient__init__ None true)
    (WeatherApiClient_get_snow_data lat lon).

(** The [try] block of [verify_with_secondary_source] *)
Definition verify_try_block (resort_name : string)
    (lat lon : pyval) (primary_snow_amount : pyval)
  : M world (bool * option pyval) :=
  _ ← time_sleep 1;
  secondary_data ← secondary_fetch lat lon;
  secondary_data ← pure (py_setitem secondary_data "resort" (PyStr resort_name));
  snow_inches ← pure (py_getitem secondary_data "snow_inches");
  difference ← pure (d ← py_sub primary_snow_amount snow_inches; py_abs d);
  within ← pure (py_le difference (VERIFICATION_THRESHOLD cfg));
  if within : bool then mret (true, Some secondary_data)
  else mret (false, Some secondary_data).

Definition verify_with_secondary_source (resort_name : string)
    (lat lon : pyval) (primary_snow_amount : pyval)
  : M world (bool * option pyval) :=
  try_except any_Exception
    (verify_try_block resort_name lat lon primary_snow_amount)
    (fun e => mret (false, None)).

End Clients.

(** ** Traces *)

(** The events of a state, for both kinds of state. *)
Class Traced (S : Type) := trace_of : S → list event.
#[global] Instance world_traced : Traced world := w_trace.
#[global] Instance object_traced : Traced (client * world) := fun s => w_trace (snd s).

(** A computation only adds events to the trace... *)
Definition extends {S A} `{Traced S} (m : M S A) : Prop :=
  ∀ s r s', m s = (r, s') → ∃ evs, trace_of s' = trace_of s ++ evs.

(** ... and, run from the state [s], these start with the events [pre]. *)
Definition starts_with {S A} `{Traced S} (pre : list event) (m : M S A) (s : S)
  : Prop :=
  ∀ r s', m s = (r, s') → ∃ evs, trace_of s' = trace_of s ++ pre ++ evs.

Definition is_get (ev : event) : bool :=
  match ev with EvGet _ _ => true | EvSleep _ => false end.

(** The number of requests sent in a list of events *)
Definition count_gets (evs : list event) : nat := length (filter is_get evs).

(** The retry policy as the specification words it: the delay before
    attempt [k], for [k >= 2], is [base_delay * 2^(k-2)]. *)
Definition backoff_delay (base_delay : Q) (k : nat) : Q :=
  (base_delay * inject_Z (2 ^ (Z.of_nat k - 2)))%Q.

Definition attempt_events (url : string) (params : pyval) (base_delay : Q)
    (k : nat) : list event :=
  (if (2 <=? k)%nat then [EvSleep (backoff_delay base_delay k)] else [])
  ++ [EvGet url params].

(** Attempts [1] to [n], each after its delay. *)
Definition retry_schedule (url : string) (params : pyval) (base_delay : Q)
    (n : nat) : list event :=
  flat_map (attempt_events url params base_delay) (seq 1 n).

(** Every attempt fails with a transport or HTTP error. *)
Definition network_down (http_get : list event → string → pyval → Q * result pyval)
  : Prop :=
  ∀ history url params,
    ∃ msg, snd (http_get history url params) = Raise (RequestException msg).

(** An entry exists for the key and the time is strictly before its
    expiry. *)
Definition cache_fresh (c : client) (now : Q) (cache_key : string) : bool :=
  match cache c !! cache_key, cache_expiry c !! cache_key with
  | Some _, Some expiry => Qlt_bool now expiry
  | _, _ => false
  end.

(** ** Test doubles *)

(** A network whose every answer is an HTTP 500, as in the tests. *)
Definition http_500 : list event → string → pyval → Q * result pyval :=
  fun _ _ _ => (0%Q, Raise (RequestException "500 Server Error")).

(** Stand-ins for the hash, the serialiser and the formatters. *)
Definition stub_md5 (s : string) : string := s.
Definition stub_json_dumps (params : pyval) : string := "{...}".
Definition stub_isoformat (t : Q) : string := "2025-03-21T12:34:56".
Definition stub_format (v : pyval) : string := "0.0".

Definition test_client : client :=
  WeatherAPIClient__init__ "test_key" "https://api.example.com" true.

Definition test_params : pyval := PyDict [("test", PyStr "param")].

Definition noon : world := {| w_now := 43200; w_trace := [] |}.

(** Payloads of the provider in the shapes the adapter has to read:
    snowfall as a plain number, and nested under another hour key. *)
Definition weather_scalar_snow : pyval :=
  PyDict [("main", PyDict [("temp", PyNum 30)]);
          ("weather", PyList [PyDict [("description", PyStr "light snow")]]);
          ("snow", PyNum 2.5)].

Definition weather_three_hour_snow : pyval :=
  PyDict [("main", PyDict [("temp", PyNum 30)]);
          ("weather", PyList [PyDict [("description", PyStr "light snow")]]);
          ("snow", PyDict [("3h", PyNum 1.2)])].

Definition weather_nested_snow : pyval :=
  PyDict [("main", PyDict [("temp", PyNum 30)]);
          ("weather", PyList [PyDict [("description", PyStr "light snow")]]);
          ("snow", PyDict [("1h", PyNum 2)])].

Definition forecast_scalar_snow : pyval :=
  PyDict [("list", PyList [PyDict [("dt", PyNum 1679432400); ("snow", PyNum 1.5)]])].

Definition forecast_nested_snow : pyval :=
  PyDict [("list",
           PyList [PyDict [("dt", PyNum 1679432400);
                           ("snow", PyDict [("3h", PyNum 1.5)])];
                   PyDict [("dt", PyNum 1679443200);
                           ("snow", PyDict [("3h", PyNum 1)])];
                   PyDict [("dt", PyNum 1679454000)]])].

Definition weatherapi_forecast : pyval :=
  PyDict [("forecast",
           PyDict [("forecastday",
                    PyList [PyDict [("day", PyDict [("totalsnow_cm", PyNum 12.7)])]])]);
          ("current",
           PyDict [("temp_f", PyNum 30);
                   ("condition", PyDict [("text", PyStr "Light snow")])])].

(** OpenWeatherMap answers with snowfall as a plain number;
    WeatherAPI.com is down. *)
Definition http_scalar_snow : list event → string → pyval → Q * result pyval :=
  fun _ url _ =>
    if String.eqb url "https://api.openweathermap.org/data/2.5/weather" then
      (0.2%Q, Ok weather_scalar_snow)
    else if String.eqb url "https://api.openweathermap.org/data/2.5/forecast" then
      (0.2%Q, Ok forecast_nested_snow)
    else (0.2%Q, Raise (RequestException "500 Server Error")).

(** OpenWeatherMap is down; WeatherAPI.com answers. *)
Definition http_fallback_only : list event → string → pyval → Q * result pyval :=
  fun _ url _ =>
    if String.eqb url "https://api.weatherapi.com/v1/forecast.json" then
      (0.3%Q, Ok weatherapi_forecast)
    else (0.1%Q, Raise (RequestException "503 Service Unavailable")).

(** A client whose cache holds an answer for the test request until
    [expiry]. *)
Definition warm_client (expiry : Q) : client :=
  {| api_key := "test_key"; base_url := "https://api.example.com";
     cache_enabled := true;
     cache := {[ stub_md5 ("test" +:+ ":" +:+ stub_json_dumps test_params)
                 := PyDict [("result", PyStr "cached")] ]};
     cache_expiry := {[ stub_md5 ("test" +:+ ":" +:+ stub_json_dumps test_params)
                        := expiry ]} |}.

(** The snow data of the processor tests *)
Definition snow_data_5 : pyval :=
  PyDict [("current_24h", PyNum 5); ("forecast_24h", PyNum 3); ("total_48h", PyNum 8)].

(** ** The rest of the clients *)

Section OtherRequests.
Variable cfg : settings.
Variable http_get : list event → string → pyval → Q * result pyval.
Variable md5_hexdigest : string → string.
Variable json_dumps_sorted : pyval → string.
Variable py_format : pyval → string.

Definition OpenWeatherMapClient_get_one_call_data (lat lon : pyval)
    (exclude : string) : M (client * world) pyval :=
  c ← self;
  let params := PyDict [("lat", lat); ("lon", lon);
                        ("units", PyStr "imperial");
                        ("exclude", PyStr exclude);
                        ("appid", PyStr (api_key c))] in
  _make_request cfg http_get md5_hexdigest json_dumps_sorted
    "onecall" params max_retries_default retry_delay_default.

(** The default of [exclude] *)
Definition exclude_default : string := "minutely,hourly".

Definition WeatherApiClient_get_current_weather (lat lon : pyval)
  : M (client * world) pyval :=
  c ← self;
  let params := PyDict [("q", PyStr (py_format lat +:+ "," +:+ py_format lon));
                        ("key", PyStr (api_key c))] in
  _make_request cfg http_get md5_hexdigest json_dumps_sorted
    "current.json" params max_retries_default retry_delay_default.

End OtherRequests.

(** ** Resort configuration ([src/config/resort_config.py]) *)

(** Tuples are lists of the embedding: a pair of coordinates is a list
    of two numbers. *)

(** [ENABLED_RESORTS] is [None] or the list of the names given. *)
Section ResortConfig.
Variable RESORTS : list (string * pyval).
Variable ENABLED_RESORTS : option (list string).

(** [name in d] for the items of a dictionary *)
Definition dict_has (k : string) (kvs : list (string * pyval)) : bool :=
  match dict_lookup k kvs with Some _ => true | None => false end.

(** The loop of [get_enabled_resorts] *)
Fixpoint enable_each (names : list string) (enabled : list (string * pyval))
  : list (string * pyval) :=
  match names with
  | [] => enabled
  | resort_name :: rest =>
      match dict_lookup resort_name RESORTS with
      | Some data => enable_each rest (dict_store resort_name data enabled)
      | None => enable_each rest enabled
      end
  end.

Definition get_enabled_resorts : list (string * pyval) :=
  match ENABLED_RESORTS with
  | None | Some [] => RESORTS
  | Some names => enable_each names []
  end.

Definition get_resort_coordinates (resort_name : string) : result pyval :=
  match dict_lookup resort_name RESORTS with
  | None =>
      Raise (KeyError ("Resort '" +:+ resort_name +:+ "' not found in configuration"))
  | Some data => py_getitem data "coordinates"
  end.

End ResortConfig.

(** ** Processing the resorts ([SnowfallProcessor], continued) *)

(** [needle in hay] for strings *)
Fixpoint is_substring (needle hay : string) : bool :=
  if String.prefix needle hay then true
  else match hay with
       | EmptyString => false
       | String _ rest => is_substring needle rest
       end.

(** [k in v] for a string [k] *)
Definition py_contains (k : string) (v : pyval) : result bool :=
  match v with
  | PyDict kvs => Ok (dict_has k kvs)
  | PyList l =>
      Ok (existsb (fun x => match x with PyStr s => String.eqb s k | _ => false end) l)
  | PyStr s => Ok (is_substring k s)
  | _ => Raise (TypeError "argument is not iterable")
  end.

(** [a, b = v] *)
Definition py_unpack2 (v : pyval) : result (pyval * pyval) :=
  let two (l : list pyval) :=
    match l with
    | [a; b] => Ok (a, b)
    | _ => Raise (ValueError "wrong number of values to unpack")
    end in
  match v with
  | PyList l => two l
  | PyStr s => two (chars s)
  | PyDict kvs => two (map (fun kv => PyStr (fst kv)) kvs)
  | _ => Raise (TypeError "cannot unpack non-iterable object")
  end.

(** The fields of a [SnowfallProcessor] object. *)
Record processor := {
  resorts : list (string * pyval);
  last_alerts : gmap string (gmap string Q)
}.

(** A method of the processor runs on its object and the world; inside
    [process_resort] the dictionary [result] is one more piece of state,
    so that what was written to it is kept when the [try] block raises. *)
Definition in_world {X A} (m : M world A) : M (X * world) A :=
  fun s => let '(r, w') := m (snd s) in (r, (fst s, w')).

Definition in_object {L S A} (m : M S A) : M (L * S) A :=
  fun s => let '(r, s') := m (snd s) in (r, (fst s, s')).

(** [result[k] = v] *)
Definition result_set {S} (k : string) (v : pyval)
  : M (list (string * pyval) * S) unit :=
  fun s => (Ok tt, (dict_store k v (fst s), snd s)).

Section Pipeline.
Variable cfg : settings.
Variable http_get : list event → string → pyval → Q * result pyval.
Variable md5_hexdigest : string → string.
Variable json_dumps_sorted : pyval → string.
Variable isoformat : Q → string.
Variable py_format : pyval → string.

Definition SnowfallProcessor__init__ (resorts : option (list (string * pyval)))
    (RESORTS : list (string * pyval)) (ENABLED_RESORTS : option (list string))
  : processor :=
  {| resorts := match resorts with
                | Some r => r
                | None => get_enabled_resorts RESORTS ENABLED_RESORTS
                end;
     last_alerts := _load_last_alerts |}.

(** [self.update_last_alert_time(resort_name, category)] on the object *)
Definition record_alert (resort_name category : string)
  : M (processor * world) unit :=
  fun s =>
    (Ok tt,
     ({| resorts := resorts (fst s);
         last_alerts :=
           update_last_alert_time (last_alerts (fst s)) (w_now (snd s))
             resort_name category |},
      snd s)).

(** [self.should_trigger_alert(resort_name, snow_data, is_verified)] on
    the object *)
Definition decide_alert (resort_name : string) (snow_data : pyval)
    (is_verified : bool) : M (processor * world) (bool * option string) :=
  fun s =>
    (should_trigger_alert cfg (last_alerts (fst s)) (w_now (snd s))
       resort_name snow_data is_verified, s).

(** The [try] block of [process_resort], in three parts.  First, from the
    coordinates to the time windows; the whole observation is the same
    object as [result["primary_data"]], which therefore shows the
    elevation and the region stored in it afterwards. *)
Definition observe_resort (resort_name : string) (resort_data : pyval)
  : M (list (string * pyval) * (processor * world)) (pyval * pyval * pyval) :=
  coordinates ← pure (py_getitem resort_data "coordinates");
  _ ← result_set "coordinates" coordinates;
  lat_lon ← pure (py_unpack2 coordinates);
  let '(lat, lon) := lat_lon in
  primary_data ← in_object (in_world
    (get_resort_snow_data cfg http_get md5_hexdigest json_dumps_sorted
       isoformat py_format resort_name lat lon));
  _ ← result_set "primary_data" primary_data;
  elevation ← pure (py_get resort_data "elevation" PyNone);
  primary_data ← pure (py_setitem primary_data "elevation" elevation);
  _ ← result_set "primary_data" primary_data;
  region ← pure (py_get resort_data "region" PyNone);
  primary_data ← pure (py_setitem primary_data "region" region);
  _ ← result_set "primary_data" primary_data;
  time_window_data ← pure (calculate_time_window_data primary_data None);
  _ ← result_set "time_window_data" time_window_data;
  mret (lat, lon, time_window_data).

(** Second, the verification, asked for when the current amount reaches
    the light threshold. *)
Definition verify_if_significant (resort_name : string)
    (lat lon time_window_data : pyval)
  : M (list (string * pyval) * (processor * world)) bool :=
  current_24h ← pure (py_getitem time_window_data "current_24h");
  significant ← pure (py_ge current_24h (THRESHOLD_LIGHT cfg));
  if significant : bool then
    verification ← in_object (in_world
      (verify_with_secondary_source cfg http_get md5_hexdigest
         json_dumps_sorted isoformat py_format
         resort_name lat lon current_24h));
    let '(is_verified, secondary_data) := verification in
    _ ← result_set "verified" (PyBool is_verified);
    _ ← match secondary_data with
        | Some d => if py_truthy d then result_set "secondary_data" d
                    else mret tt
        | None => mret tt
        end;
    mret is_verified
  else mret false.

(** Third, the decision and its record.  When [should_alert] is true the
    category is a string ([should_trigger_alert] gives no other). *)
Definition alert_if_due (resort_name : string) (time_window_data : pyval)
    (is_verified : bool)
  : M (list (string * pyval) * (processor * world)) unit :=
  decision ← in_object (decide_alert resort_name time_window_data is_verified);
  let '(should_alert, category) := decision in
  if should_alert : bool then
    _ ← result_set "alert_triggered" (PyBool true);
    match category with
    | Some category =>
        _ ← result_set "alert_category" (PyStr category);
        in_object (record_alert resort_name category)
    | None => result_set "alert_category" PyNone
    end
  else mret tt.

Definition process_resort_try (resort_name : string) (resort_data : pyval)
  : M (list (string * pyval) * (processor * world)) unit :=
  has_coordinates ← pure (py_contains "coordinates" resort_data);
  if negb has_coordinates then
    result_set "error" (PyStr "Missing coordinates")
  else
    observed ← observe_resort resort_name resort_data;
    let '(lat, lon, time_window_data) := observed in
    is_verified ← verify_if_significant resort_name lat lon time_window_data;
    alert_if_due resort_name time_window_data is_verified.

Definition process_resort (resort_name : string) (resort_data : pyval)
  : M (processor * world) pyval :=
  fun s =>
    let result :=
      [("resort", PyStr resort_name);
       ("resort_data", resort_data);
       ("timestamp", PyStr (isoformat (w_now (snd s))));
       ("alert_triggered", PyBool false);
       ("alert_category", PyNone);
       ("verified", PyBool false);
       ("error", PyNone)] in
    match process_resort_try resort_name resort_data (result, s) with
    | (Ok _, (result, s')) => (Ok (PyDict result), s')
    | (Raise e, (result, s')) =>
        (Ok (PyDict (dict_store "error" (PyStr (str_exn e)) result)), s')
    end.

(** The loop of [process_all_resorts] over [self.resorts.items()] *)
Fixpoint process_each (items : list (string * pyval))
    (results : list (string * pyval))
    (resorts_processed alerts_triggered errors : Z)
  : M (processor * world) (list (string * pyval) * Z * Z * Z) :=
  match items with
  | [] => mret (results, resorts_processed, alerts_triggered, errors)
  | (resort_name, resort_data) :: rest =>
      resort_result ← process_resort resort_name resort_data;
      let results := dict_store resort_name resort_result results in
      let resorts_processed := (resorts_processed + 1)%Z in
      triggered ← pure (py_get resort_result "alert_triggered" (PyBool false));
      let alerts_triggered :=
        if py_truthy triggered then (alerts_triggered + 1)%Z
        else alerts_triggered in
      error ← pure (py_get resort_result "error" PyNone);
      let errors := if py_truthy error then (errors + 1)%Z else errors in
      process_each rest results resorts_processed alerts_triggered errors
  end.

Definition process_all_resorts : M (processor * world) pyval :=
  now ← in_world datetime_now;
  p ← (fun s => (Ok (fst s), s));
  counts ← process_each (resorts p) [] 0 0 0;
  let '(results, resorts_processed, alerts_triggered, errors) := counts in
  mret (PyDict [("timestamp", PyStr (isoformat now));
                ("resorts_processed", PyNum (inject_Z resorts_processed));
                ("alerts_triggered", PyNum (inject_Z alerts_triggered));
                ("errors", PyNum (inject_Z errors));
                ("results", PyDict results)]).

End Pipeline.

(** ** Measures and frames *)

(** The number of sleeps in a list of events *)
Definition count_sleeps (evs : list event) : nat :=
  length (filter (fun ev => negb (is_get ev)) evs).

(** A computation adds events to the trace, at most [n] requests among
    them. *)
Definition sends_at_most {S A} `{Traced S} (n : nat) (m : M S A) : Prop :=
  ∀ s r s', m s = (r, s') →
    ∃ evs, trace_of s' = trace_of s ++ evs ∧ count_gets evs ≤ n.

(** Every run of a computation relates the state it starts from to the
    state it ends in. *)
Definition respects {S A} (R : relation S) (m : M S A) : Prop :=
  ∀ s r s', m s = (r, s') → R s s'.

#[global] Instance processor_traced : Traced (processor * world) :=
  fun s => w_trace (snd s).
#[global] Instance resort_traced
  : Traced (list (string * pyval) * (processor * world)) :=
  fun s => w_trace (snd (snd s)).

(** A part of [process_resort] that leaves the processor alone, and the
    fields [keys] of [result]. *)
Definition keeps (keys : list string)
  : relation (list (string * pyval) * (processor * world)) :=
  fun s s' =>
    fst (snd s') = fst (snd s)
    ∧ ∀ k, In k keys → dict_lookup k (fst s') = dict_lookup k (fst s).

(** The fields of [result] that report an alert, and with them the one
    that reports the verification. *)
Definition alert_fields : list string :=
  ["alert_triggered"; "alert_category"; "error"].

Definition initial_fields : list string :=
  ["alert_triggered"; "alert_category"; "error"; "verified"].

(** The events of a call of [_make_request] before it sends attempt [k]:
    the attempts before it and the sleep that precedes it. *)
Definition before_attempt (url : string) (params : pyval) (base_delay : Q)
    (k : nat) : list event :=
  retry_schedule url params base_delay (pred k)
  ++ (if (2 <=? k)%nat then [EvSleep (backoff_delay base_delay k)] else []).

(** The three categories an alert can have *)
Definition alert_categories : list string := ["light"; "moderate"; "heavy"].

(** The three labels of an observation of the primary source *)
Definition source_labels : list string :=
  ["OpenWeatherMap (Free API)"; "Fallback: WeatherAPI.com";
   "Default values (API errors)"].

(** [name in names] *)
Definition name_in (name : string) (names : list string) : bool :=
  existsb (String.eqb name) names.

(** The payload of WeatherAPI.com for a snow depth of [x] centimetres *)
Definition weatherapi_day (x : pyval) : pyval :=
  PyDict [("forecast",
           PyDict [("forecastday",
                    PyList [PyDict [("day", PyDict [("totalsnow_cm", x)])]])])].



(** A network that answers with a forecast of no days. *)
Definition http_no_days : list event → string → pyval → Q * result pyval :=
  fun _ _ _ =>
    (0.3%Q, Ok (PyDict [("forecast", PyDict [("forecastday", PyList [])])])).

(** A network whose every request fails with an error that is not a
    [RequestException]. *)
Definition http_other_error : list event → string → pyval → Q * result pyval :=
  fun _ _ _ => (0.1%Q, Raise (ValueError "Expecting value")).

(** A network that fails twice and then answers. *)
Definition http_third_time : list event → string → pyval → Q * result pyval :=
  fun history _ _ =>
    if (count_gets history <? 2)%nat then
      (0.1%Q, Raise (RequestException "500 Server Error"))
    else (0.1%Q, Ok (PyDict [("result", PyStr "success")])).

(** Both providers answer: eight inches now, confirmed by the secondary
    source. *)
Definition http_eight_inches : list event → string → pyval → Q * result pyval :=
  fun _ url _ =>
    if String.eqb url "https://api.openweathermap.org/data/2.5/weather" then
      (0.2%Q, Ok (PyDict [("snow", PyDict [("1h", PyNum 8)])]))
    else if String.eqb url "https://api.openweathermap.org/data/2.5/forecast" then
      (0.2%Q, Ok forecast_nested_snow)
    else (0.3%Q, Ok (weatherapi_day (PyNum 20.32))).

Definition test_resort_data : pyval :=
  PyDict [("coordinates", PyList [PyNum 40; PyNum (-111)]);
          ("elevation", PyNum 9000);
          ("region", PyStr "Test Region")].

Definition test_processor : processor :=
  {| resorts := [("Test Resort 1", test_resort_data);
                 ("Test Resort 2", PyList [PyNum 41; PyNum (-112)])];
     last_alerts := ∅ |}.

(** A processor that alerted for the first test resort at time zero. *)
Definition alerted_processor : processor :=
  {| resorts := [("Test Resort 1", test_resort_data)];
     last_alerts := update_last_alert_time ∅ 0 "Test Resort 1" "moderate" |}.

(** WeatherAPI.com reports a snow depth of [cm] centimetres. *)
Definition http_snow_cm (cm : Q) : list event → string → pyval → Q * result pyval :=
  fun _ _ _ => (0.3%Q, Ok (weatherapi_day (PyNum cm))).

(** The default settings with another cooldown *)
Definition with_cooldown (hours : Z) : settings :=
  {| OPENWEATHER_API_KEY := "";
     WEATHERAPI_KEY := "";
     VERIFICATION_THRESHOLD := 2.0;
     ALERT_COOLDOWN_HOURS := hours;
     THRESHOLD_LIGHT := 2;
     THRESHOLD_MODERATE := 6;
     THRESHOLD_HEAVY := 12;
     CACHE_TTL := 300 |}.

(** * Properties *)

(** ** Comparisons on rationals *)

Lemma Qle_bool_false (x y : Q) : Qle_bool x y = false ↔ (y < x)%Q.
Proof.
  split; intros H.
  - apply Qnot_le_lt. intros Hle. apply Qle_bool_iff in Hle. congruence.
  - destruct (Qle_bool x y) eqn:E; [|done].
    apply Qle_bool_iff in E. exfalso. exact (Qlt_not_le _ _ H E).
Qed.

Lemma Qlt_bool_iff (x y : Q) : Qlt_bool x y = true ↔ (x < y)%Q.
Proof.
  unfold Qlt_bool. rewrite negb_true_iff. apply Qle_bool_false.
Qed.

Lemma Qlt_bool_false (x y : Q) : Qlt_bool x y = false ↔ (y <= x)%Q.
Proof.
  unfold Qlt_bool. rewrite negb_false_iff. apply Qle_bool_iff.
Qed.

(** ** Classification *)

Lemma determine_alert_category_heavy cfg a :
  (THRESHOLD_HEAVY cfg <= a)%Q → determine_alert_category cfg a = "heavy".
Proof.
  intros H. unfold determine_alert_category.
  apply Qle_bool_iff in H. by rewrite H.
Qed.

Lemma determine_alert_category_moderate cfg a :
  (a < THRESHOLD_HEAVY cfg)%Q → (THRESHOLD_MODERATE cfg <= a)%Q →
  determine_alert_category cfg a = "moderate".
Proof.
  intros Hh Hm. unfold determine_alert_category.
  apply Qle_bool_false in Hh. apply Qle_bool_iff in Hm. by rewrite Hh, Hm.
Qed.

Lemma determine_alert_category_light cfg a :
  (a < THRESHOLD_HEAVY cfg)%Q → (a < THRESHOLD_MODERATE cfg)%Q →
  (THRESHOLD_LIGHT cfg <= a)%Q →
  determine_alert_category cfg a = "light".
Proof.
  intros Hh Hm Hl. unfold determine_alert_category.
  apply Qle_bool_false in Hh, Hm. apply Qle_bool_iff in Hl.
  by rewrite Hh, Hm, Hl.
Qed.

Lemma determine_alert_category_none cfg a :
  (a < THRESHOLD_HEAVY cfg)%Q → (a < THRESHOLD_MODERATE cfg)%Q →
  (a < THRESHOLD_LIGHT cfg)%Q →
  determine_alert_category cfg a = "none".
Proof.
  intros Hh Hm Hl. unfold determine_alert_category.
  apply Qle_bool_false in Hh, Hm, Hl. by rewrite Hh, Hm, Hl.
Qed.

Lemma determine_alert_category_refines cfg a :
  determine_alert_category cfg a =
  classify_spec (THRESHOLD_HEAVY cfg) (THRESHOLD_MODERATE cfg)
    (THRESHOLD_LIGHT cfg) a.
Proof.
  unfold classify_spec.
  destruct (Qlt_le_dec a (THRESHOLD_HEAVY cfg)) as [Hh|Hh];
    [|by apply determine_alert_category_heavy].
  destruct (Qlt_le_dec a (THRESHOLD_MODERATE cfg)) as [Hm|Hm];
    [|by apply determine_alert_category_moderate].
  destruct (Qlt_le_dec a (THRESHOLD_LIGHT cfg)) as [Hl|Hl].
  - by apply determine_alert_category_none.
  - by apply determine_alert_category_light.
Qed.

Lemma determine_alert_category_monotone cfg a b :
  (a <= b)%Q →
  category_rank (determine_alert_category cfg a)
  ≤ category_rank (determine_alert_category cfg b).
Proof.
  intros Hab. unfold determine_alert_category.
  destruct (Qle_bool (THRESHOLD_HEAVY cfg) b) eqn:Hb.
  { repeat case_match; vm_compute; lia. }
  destruct (Qle_bool (THRESHOLD_HEAVY cfg) a) eqn:Ha.
  { apply Qle_bool_iff in Ha. apply Qle_bool_false in Hb.
    exfalso. apply (Qlt_not_le _ _ Hb). by apply (Qle_trans _ a). }
  destruct (Qle_bool (THRESHOLD_MODERATE cfg) b) eqn:Hb'.
  { repeat case_match; vm_compute; lia. }
  destruct (Qle_bool (THRESHOLD_MODERATE cfg) a) eqn:Ha'.
  { apply Qle_bool_iff in Ha'. apply Qle_bool_false in Hb'.
    exfalso. apply (Qlt_not_le _ _ Hb'). by apply (Qle_trans _ a). }
  destruct (Qle_bool (THRESHOLD_LIGHT cfg) b) eqn:Hb''.
  { repeat case_match; vm_compute; lia. }
  destruct (Qle_bool (THRESHOLD_LIGHT cfg) a) eqn:Ha''.
  { apply Qle_bool_iff in Ha''. apply Qle_bool_false in Hb''.
    exfalso. apply (Qlt_not_le _ _ Hb''). by apply (Qle_trans _ a). }
  vm_compute; lia.
Qed.

(** C2.  [determine_alert_category] is the piecewise rule of the
    specification (heavy from the heavy threshold up, else moderate from
    the moderate threshold up, else light from the light threshold up,
    else none); it never decreases when the amount grows; an amount equal
    to a threshold gets that threshold's category (the comparison is
    [>=]) when the thresholds are strictly ordered; the heavy threshold
    itself is heavy, and any amount [heavy - eps] with [eps > 0] is not
    heavy, being moderate when [eps <= heavy - moderate]. *)
Theorem determine_alert_category_correct (cfg : settings) :
  let heavy := THRESHOLD_HEAVY cfg in
  let moderate := THRESHOLD_MODERATE cfg in
  let light := THRESHOLD_LIGHT cfg in
  (∀ a, determine_alert_category cfg a = classify_spec heavy moderate light a)
  ∧ (∀ a b, (a <= b)%Q →
       category_rank (determine_alert_category cfg a)
       ≤ category_rank (determine_alert_category cfg b))
  ∧ (∀ a, (a == heavy)%Q → determine_alert_category cfg a = "heavy")
  ∧ ((moderate < heavy)%Q →
       ∀ a, (a == moderate)%Q → determine_alert_category cfg a = "moderate")
  ∧ ((light < moderate)%Q → (moderate < heavy)%Q →
       ∀ a, (a == light)%Q → determine_alert_category cfg a = "light")
  ∧ determine_alert_category cfg heavy = "heavy"
  ∧ (∀ eps, (0 < eps)%Q → determine_alert_category cfg (heavy - eps) ≠ "heavy")
  ∧ (∀ eps, (0 < eps)%Q → (eps <= heavy - moderate)%Q →
       determine_alert_category cfg (heavy - eps) = "moderate").
Proof.
  intros heavy moderate light. repeat split.
  - apply determine_alert_category_refines.
  - apply determine_alert_category_monotone.
  - intros a Ha. apply determine_alert_category_heavy.
    fold heavy. rewrite Ha. apply Qle_refl.
  - intros Hmh a Ha. apply determine_alert_category_moderate; fold heavy moderate.
    + by rewrite Ha.
    + rewrite Ha. apply Qle_refl.
  - intros Hlm Hmh a Ha.
    apply determine_alert_category_light; fold heavy moderate light.
    + rewrite Ha. by apply (Qlt_trans _ moderate).
    + by rewrite Ha.
    + rewrite Ha. apply Qle_refl.
  - apply determine_alert_category_heavy. apply Qle_refl.
  - intros eps Heps Hcat.
    unfold determine_alert_category in Hcat. fold heavy in Hcat.
    destruct (Qle_bool heavy (heavy - eps)) eqn:E.
    + apply Qle_bool_iff in E. lra.
    + repeat case_match; discriminate.
  - intros eps Heps Hle.
    apply determine_alert_category_moderate; fold heavy moderate; lra.
Qed.

(** ** The verification gate *)

(** C1.  When the current-24h amount of the snow data reaches the light
    threshold and verification has not succeeded, [should_trigger_alert]
    returns [(False, None)], whatever the amount's category and whatever
    alerts were sent before. *)
Theorem should_trigger_alert_unverified
    (cfg : settings) (last_alerts : gmap string (gmap string Q)) (now : Q)
    (resort_name : string) (snow_data current_24h : pyval) (amount : Q) :
  py_getitem snow_data "current_24h" = Ok current_24h →
  py_float current_24h = Ok amount →
  (THRESHOLD_LIGHT cfg <= amount)%Q →
  should_trigger_alert cfg last_alerts now resort_name snow_data false
  = Ok (false, None).
Proof.
  intros Hget Hnum Hle. unfold should_trigger_alert, py_ge.
  rewrite Hget. simpl. rewrite Hnum. simpl.
  apply Qle_bool_iff in Hle. by rewrite Hle.
Qed.

(** ** Cooldown *)

Lemma is_in_cooldown_stored cfg last_alerts now resort_name category last_time :
  last_alert_time last_alerts resort_name category = Some last_time →
  is_in_cooldown cfg last_alerts now resort_name category
  = (cooldown_end ← datetime_add last_time
                      (timedelta_hours (ALERT_COOLDOWN_HOURS cfg));
     Ok (Qlt_bool now cooldown_end)).
Proof.
  unfold is_in_cooldown, last_alert_time.
  destruct (last_alerts !! resort_name) as [per|]; simpl; [|done].
  by intros ->.
Qed.

Lemma is_in_cooldown_not_stored cfg last_alerts now resort_name category :
  last_alert_time last_alerts resort_name category = None →
  is_in_cooldown cfg last_alerts now resort_name category = Ok false.
Proof.
  unfold is_in_cooldown, last_alert_time.
  destruct (last_alerts !! resort_name) as [per|]; simpl; [|done].
  by intros ->.
Qed.

Lemma datetime_add_Ok t delta :
  is_datetime (t + delta) = true → datetime_add t delta = Ok (t + delta)%Q.
Proof. unfold datetime_add. by intros ->. Qed.

Lemma datetime_add_inv t delta r :
  datetime_add t delta = Ok r →
  is_datetime (t + delta) = true ∧ r = (t + delta)%Q.
Proof.
  unfold datetime_add. destruct (is_datetime (t + delta)); [|done].
  by intros [= <-].
Qed.

Lemma datetime_add_overflow t delta :
  is_datetime (t + delta) = false →
  ∃ msg, datetime_add t delta = Raise (OverflowError msg).
Proof. unfold datetime_add. intros ->. by eexists. Qed.

Lemma is_in_cooldown_spec cfg last_alerts now resort_name category :
  is_in_cooldown cfg last_alerts now resort_name category = Ok true ↔
  ∃ last_time,
    last_alert_time last_alerts resort_name category = Some last_time
    ∧ is_datetime (last_time + timedelta_hours (ALERT_COOLDOWN_HOURS cfg)) = true
    ∧ (now < last_time + timedelta_hours (ALERT_COOLDOWN_HOURS cfg))%Q.
Proof.
  destruct (last_alert_time last_alerts resort_name category) as [t|] eqn:Ht.
  - rewrite (is_in_cooldown_stored _ _ _ _ _ _ Ht). split.
    + destruct (datetime_add _ _) as [r|e] eqn:Hadd; [|done].
      apply datetime_add_inv in Hadd as [Hrange ->]. simpl.
      intros [= Hlt]. apply Qlt_bool_iff in Hlt. by exists t.
    + intros (t' & [= <-] & Hrange & Hlt).
      rewrite (datetime_add_Ok _ _ Hrange). simpl.
      apply Qlt_bool_iff in Hlt. by rewrite Hlt.
  - rewrite (is_in_cooldown_not_stored _ _ _ _ _ Ht).
    split; [done|]. by intros (t' & [=] & _).
Qed.

Lemma last_alert_time_update_same last_alerts now resort_name category :
  last_alert_time (update_last_alert_time last_alerts now resort_name category)
    resort_name category = Some now.
Proof.
  unfold last_alert_time, update_last_alert_time.
  rewrite lookup_insert_eq. simpl. by rewrite lookup_insert_eq.
Qed.

Lemma last_alert_time_update_other last_alerts now resort_name category
    resort_name' category' :
  (resort_name', category') ≠ (resort_name, category) →
  last_alert_time (update_last_alert_time last_alerts now resort_name category)
    resort_name' category'
  = last_alert_time last_alerts resort_name' category'.
Proof.
  intros Hne. unfold last_alert_time, update_last_alert_time.
  destruct (decide (resort_name = resort_name')) as [<-|Hr].
  - rewrite lookup_insert_eq. simpl.
    assert (category ≠ category') as Hc by congruence.
    rewrite lookup_insert_ne by done.
    destruct (last_alerts !! resort_name) as [per|] eqn:E; simpl.
    + by rewrite E.
    + by rewrite lookup_insert_eq.
  - rewrite lookup_insert_ne by done.
    destruct (last_alerts !! resort_name); [done|].
    by rewrite lookup_insert_ne.
Qed.

Lemma is_in_cooldown_last_alert_time cfg la1 la2 now resort_name category :
  last_alert_time la1 resort_name category = last_alert_time la2 resort_name category →
  is_in_cooldown cfg la1 now resort_name category
  = is_in_cooldown cfg la2 now resort_name category.
Proof.
  intros H.
  destruct (last_alert_time la2 resort_name category) as [t|] eqn:Ht.
  - by rewrite (is_in_cooldown_stored _ _ _ _ _ _ H),
      (is_in_cooldown_stored _ _ _ _ _ _ Ht).
  - by rewrite (is_in_cooldown_not_stored _ _ _ _ _ H),
      (is_in_cooldown_not_stored _ _ _ _ _ Ht).
Qed.

Lemma should_trigger_alert_eligible cfg last_alerts now resort_name snow_data
    current_24h amount is_verified :
  py_getitem snow_data "current_24h" = Ok current_24h →
  py_float current_24h = Ok amount →
  is_verified = true ∨ (amount < THRESHOLD_LIGHT cfg)%Q →
  determine_alert_category cfg amount ≠ "none" →
  should_trigger_alert cfg last_alerts now resort_name snow_data is_verified
  = (in_cooldown ← is_in_cooldown cfg last_alerts now resort_name
                     (determine_alert_category cfg amount);
     if in_cooldown : bool then Ok (false, None)
     else Ok (true, Some (determine_alert_category cfg amount))).
Proof.
  intros Hget Hnum Helig Hcat. unfold should_trigger_alert, py_ge.
  rewrite Hget. simpl. rewrite Hnum. simpl.
  assert (Qle_bool (THRESHOLD_LIGHT cfg) amount && negb is_verified = false) as ->.
  { destruct Helig as [->|Hlt].
    - apply andb_false_r.
    - apply Qle_bool_false in Hlt. by rewrite Hlt. }
  destruct (String.eqb_spec (determine_alert_category cfg amount) "none"); done.
Qed.

(** C3, as the code has it.  For a pair of a resort and a category whose
    recorded time plus the cooldown is a [datetime]: an alert of that
    category that passes the verification gate is suppressed by
    [should_trigger_alert] exactly when a last-alert time is stored for
    the pair and [now < last-alert time + cooldown]; otherwise it is
    triggered with that category.  Once [update_last_alert_time] has
    recorded time [t] for the pair, [is_in_cooldown] holds at a time
    [now'] exactly when [now' < t + cooldown]: it holds at [t] itself
    when [ALERT_COOLDOWN_HOURS] is positive, and no longer from
    [t + cooldown] on.  When [t + cooldown] is not a [datetime],
    [is_in_cooldown] raises [OverflowError]. *)
Theorem cooldown_gate (cfg : settings)
    (last_alerts : gmap string (gmap string Q)) (resort_name category : string) :
  let cooldown := timedelta_hours (ALERT_COOLDOWN_HOURS cfg) in
  (∀ now snow_data current_24h amount is_verified,
     py_getitem snow_data "current_24h" = Ok current_24h →
     py_float current_24h = Ok amount →
     is_verified = true ∨ (amount < THRESHOLD_LIGHT cfg)%Q →
     determine_alert_category cfg amount = category →
     category ≠ "none" →
     (∀ last_time,
        last_alert_time last_alerts resort_name category = Some last_time →
        is_datetime (last_time + cooldown) = true) →
     let suppressed :=
       ∃ last_time,
         last_alert_time last_alerts resort_name category = Some last_time
         ∧ (now < last_time + cooldown)%Q in
     (should_trigger_alert cfg last_alerts now resort_name snow_data is_verified
      = Ok (false, None) ↔ suppressed)
     ∧ (¬ suppressed →
        should_trigger_alert cfg last_alerts now resort_name snow_data is_verified
        = Ok (true, Some category)))
  ∧ (∀ t now',
       is_datetime (t + cooldown) = true →
       is_in_cooldown cfg
         (update_last_alert_time last_alerts t resort_name category)
         now' resort_name category = Ok true
       ↔ (now' < t + cooldown)%Q)
  ∧ ((0 < ALERT_COOLDOWN_HOURS cfg)%Z →
     ∀ t, is_datetime (t + cooldown) = true →
          is_in_cooldown cfg
            (update_last_alert_time last_alerts t resort_name category)
            t resort_name category = Ok true)
  ∧ (∀ t now',
       is_datetime (t + cooldown) = true →
       (t + cooldown <= now')%Q →
       is_in_cooldown cfg
         (update_last_alert_time last_alerts t resort_name category)
         now' resort_name category = Ok false)
  ∧ (∀ t now',
       is_datetime (t + cooldown) = false →
       ∃ msg,
         is_in_cooldown cfg
           (update_last_alert_time last_alerts t resort_name category)
           now' resort_name category = Raise (OverflowError msg)).
Proof.
  intros cooldown.
  assert (∀ t now',
    is_in_cooldown cfg
      (update_last_alert_time last_alerts t resort_name category)
      now' resort_name category
    = (cooldown_end ← datetime_add t cooldown;
       Ok (Qlt_bool now' cooldown_end))) as Hafter.
  { intros t now'. apply is_in_cooldown_stored, last_alert_time_update_same. }
  split; [|split; [|split; [|split]]].
  - intros now snow_data current_24h amount is_verified Hget Hnum Helig <- Hcat
      Hrange suppressed.
    rewrite (should_trigger_alert_eligible _ _ _ _ _ _ _ _ Hget Hnum Helig Hcat).
    subst suppressed.
    destruct (last_alert_time last_alerts resort_name
                (determine_alert_category cfg amount)) as [t|] eqn:Ht.
    + rewrite (is_in_cooldown_stored _ _ _ _ _ _ Ht). fold cooldown.
      rewrite (datetime_add_Ok _ _ (Hrange t eq_refl)). simpl.
      destruct (Qlt_bool now (t + cooldown)) eqn:Hlt.
      * apply Qlt_bool_iff in Hlt. split.
        -- split; [|done]. intros _. by exists t.
        -- intros Hnot. exfalso. apply Hnot. by exists t.
      * apply Qlt_bool_false in Hlt. split; [|done]. split; [done|].
        intros (t' & [= <-] & Hlt'). lra.
    + rewrite (is_in_cooldown_not_stored _ _ _ _ _ Ht). simpl.
      split; [|done]. split; [done|]. by intros (t' & [=] & _).
  - intros t now' Hrange. rewrite Hafter, (datetime_add_Ok _ _ Hrange). simpl.
    rewrite <- Qlt_bool_iff. split; [by intros [= ->]|by intros ->].
  - intros Hpos t Hrange. rewrite Hafter, (datetime_add_Ok _ _ Hrange). simpl.
    f_equal. apply Qlt_bool_iff. subst cooldown. unfold timedelta_hours.
    assert (0 < inject_Z (3600 * ALERT_COOLDOWN_HOURS cfg))%Q; [|lra].
    change 0%Q with (inject_Z 0). rewrite <- Zlt_Qlt. lia.
  - intros t now' Hrange Hle. rewrite Hafter, (datetime_add_Ok _ _ Hrange). simpl.
    f_equal. by apply Qlt_bool_false.
  - intros t now' Hrange. rewrite Hafter.
    destruct (datetime_add_overflow _ _ Hrange) as [msg ->]. by exists msg.
Qed.

(** C7.  [update_last_alert_time] for a pair of a resort and a category
    leaves the stored last-alert time of every other pair as it was --
    another category of the same resort as well as any category of
    another resort -- and so their cooldown status at any time; the
    entry of another resort is untouched as a whole.  A "light" alert
    does not start a cooldown for "moderate" on the same resort. *)
Theorem update_last_alert_time_frame
    (last_alerts : gmap string (gmap string Q)) (t : Q)
    (resort_name category : string) :
  (∀ resort_name' category',
     (resort_name', category') ≠ (resort_name, category) →
     last_alert_time (update_last_alert_time last_alerts t resort_name category)
       resort_name' category'
     = last_alert_time last_alerts resort_name' category'
     ∧ ∀ cfg now,
         is_in_cooldown cfg
           (update_last_alert_time last_alerts t resort_name category)
           now resort_name' category'
         = is_in_cooldown cfg last_alerts now resort_name' category')
  ∧ (∀ resort_name', resort_name' ≠ resort_name →
       update_last_alert_time last_alerts t resort_name category !! resort_name'
       = last_alerts !! resort_name')
  ∧ (∀ cfg now,
       is_in_cooldown cfg
         (update_last_alert_time last_alerts t resort_name "light")
         now resort_name "moderate"
       = is_in_cooldown cfg last_alerts now resort_name "moderate").
Proof.
  assert (∀ c r' c', (r', c') ≠ (resort_name, c) →
     last_alert_time (update_last_alert_time last_alerts t resort_name c) r' c'
     = last_alert_time last_alerts r' c'
     ∧ ∀ cfg now,
         is_in_cooldown cfg (update_last_alert_time last_alerts t resort_name c)
           now r' c'
         = is_in_cooldown cfg last_alerts now r' c') as Hframe.
  { intros c r' c' Hne.
    pose proof (last_alert_time_update_other last_alerts t _ _ _ _ Hne) as Heq.
    split; [exact Heq|]. intros cfg now.
    by apply is_in_cooldown_last_alert_time. }
  split; [apply Hframe|split].
  - intros r' Hne. unfold update_last_alert_time.
    rewrite lookup_insert_ne by done.
    destruct (last_alerts !! resort_name); [done|].
    by rewrite lookup_insert_ne.
  - intros cfg now. apply Hframe. intros [= H].
Qed.

(** ** The request loop *)

Lemma retry_schedule_count url params base_delay n :
  count_gets (retry_schedule url params base_delay n) = n.
Proof.
  unfold retry_schedule, count_gets.
  generalize 1%nat. induction n as [|n IH]; intros k; [done|].
  simpl. unfold attempt_events at 1.
  rewrite !filter_app, !length_app, IH.
  destruct (2 <=? k)%nat; done.
Qed.

Section RequestLoop.
Context (cfg : settings)
        (http_get : list event → string → pyval → Q * result pyval)
        (md5_hexdigest : string → string)
        (json_dumps_sorted : pyval → string).

Local Abbreviation loop := (request_loop cfg http_get md5_hexdigest json_dumps_sorted).
Local Abbreviation make_request := (_make_request cfg http_get md5_hexdigest json_dumps_sorted).
Local Abbreviation cache_key_of := (_get_cache_key md5_hexdigest json_dumps_sorted).

(** [time.sleep] on a delay it accepts, and what it does otherwise. *)
Lemma time_sleep_Ok seconds w :
  (0 <= seconds)%Q → (seconds <= sleep_limit)%Q →
  time_sleep seconds w
  = (Ok tt, {| w_now := w_now w + seconds;
               w_trace := w_trace w ++ [EvSleep seconds] |}).
Proof.
  intros H0 Hlimit. unfold time_sleep, sleep_overflows, sleep_limit in *.
  assert (Qle_bool (- inject_Z (2 ^ 63)) (seconds * 1000000000) = true) as ->.
  { apply Qle_bool_iff.
    change (inject_Z (2 ^ 63)) with 9223372036854775808%Q. lra. }
  assert (Qlt_bool (seconds * 1000000000) (inject_Z (2 ^ 63)) = true) as ->.
  { apply Qlt_bool_iff.
    change (inject_Z (2 ^ 63)) with 9223372036854775808%Q. lra. }
  simpl. by replace (Qlt_bool seconds 0) with false
    by (symmetry; by apply Qlt_bool_false).
Qed.

Lemma time_sleep_cases seconds w :
  time_sleep seconds w
  = (Ok tt, {| w_now := w_now w + seconds;
               w_trace := w_trace w ++ [EvSleep seconds] |})
  ∨ ∃ e, time_sleep seconds w = (Raise e, w).
Proof.
  unfold time_sleep. destruct (sleep_overflows seconds); [right; by eexists|].
  destruct (Qlt_bool seconds 0); [right; by eexists|by left].
Qed.

(** The delays of a schedule that stays within [sleep_limit] *)
Lemma py_mul_pow2_Ok retry_delay max_retries n :
  (0 <= retry_delay)%Q → (max_retries <= 1025)%Z →
  (retry_delay * inject_Z (2 ^ (max_retries - 2)) <= sleep_limit)%Q →
  (0 <= n <= max_retries - 2)%Z →
  py_mul_pow2 retry_delay n = Ok (retry_delay * inject_Z (2 ^ n))%Q
  ∧ (0 <= retry_delay * inject_Z (2 ^ n))%Q
  ∧ (retry_delay * inject_Z (2 ^ n) <= sleep_limit)%Q.
Proof.
  intros Hdelay Hmax Hlimit Hn. unfold py_mul_pow2.
  replace (1024 <=? n)%Z with false by (symmetry; apply Z.leb_gt; lia).
  assert (0 <= inject_Z (2 ^ n))%Q as Hpow.
  { change 0%Q with (inject_Z 0). rewrite <- Zle_Qle. apply Z.pow_nonneg. lia. }
  assert (inject_Z (2 ^ n) <= inject_Z (2 ^ (max_retries - 2)))%Q as Hmono.
  { rewrite <- Zle_Qle. apply Z.pow_le_mono_r; lia. }
  split; [done|split].
  - by apply Qmult_le_0_compat.
  - eapply Qle_trans; [|exact Hlimit].
    rewrite !(Qmult_comm retry_delay). by apply Qmult_le_compat_r.
Qed.

Lemma request_loop_all_fail url endpoint params max_retries retry_delay :
  network_down http_get → (0 <= retry_delay)%Q →
  (max_retries <= 1025)%Z →
  (retry_delay * inject_Z (2 ^ (max_retries - 2)) <= sleep_limit)%Q →
  ∀ k j last_exception c w,
    (Z.of_nat j + Z.of_nat (S k))%Z = max_retries →
    ∃ w',
      loop url endpoint params max_retries retry_delay
        (S k) (Z.of_nat j) last_exception (c, w)
      = (snd (http_get (removelast (w_trace w')) url params), (c, w'))
      ∧ w_trace w'
        = w_trace w ++ EvGet url params
            :: flat_map (attempt_events url params retry_delay) (seq (j + 2) k).
Proof.
  intros Hdown Hdelay Hmax Hlimit k.
  induction k as [|k IH]; intros j last c w Hsum.
  - destruct (Hdown (w_trace w) url params) as [msg Hmsg].
    destruct (http_get (w_trace w) url params) as [elapsed r] eqn:E.
    simpl in Hmsg. subst r.
    exists {| w_now := (w_now w + elapsed)%Q;
              w_trace := w_trace w ++ [EvGet url params] |}.
    split.
    + simpl. unfold try_except, mbind, M_bind, lift_world, session_get. simpl.
      rewrite E. simpl.
      replace (Z.of_nat j + 1 <? max_retries)%Z with false
        by (symmetry; apply Z.ltb_ge; lia).
      simpl. unfold raise. simpl.
      rewrite removelast_last, E. done.
    + simpl. done.
  - destruct (Hdown (w_trace w) url params) as [msg Hmsg].
    destruct (http_get (w_trace w) url params) as [elapsed r] eqn:E.
    simpl in Hmsg. subst r.
    set (w1 := {| w_now := (w_now w + elapsed)%Q;
                  w_trace := w_trace w ++ [EvGet url params] |}).
    set (d := (retry_delay * inject_Z (2 ^ (Z.of_nat j + 1 - 1)))%Q).
    set (w2 := {| w_now := (w_now w1 + d)%Q;
                  w_trace := w_trace w1 ++ [EvSleep d] |}).
    destruct (IH (S j) (Some (RequestException msg)) c w2) as (w' & Hrun & Htr).
    { lia. }
    destruct (py_mul_pow2_Ok retry_delay max_retries (Z.of_nat j + 1 - 1)
                Hdelay Hmax Hlimit) as (Hpow & Hd0 & Hdl); [lia|].
    fold d in Hpow, Hd0, Hdl.
    exists w'. split.
    + rewrite <- Hrun.
      change (loop url endpoint params max_retries retry_delay
                (S (S k)) (Z.of_nat j) last (c, w))
        with (try_except is_RequestException
                (data ← lift_world
                          (session_get http_get url params);
                 c0 ← self;
                 _ ← (if cache_enabled c0 then
                        _cache_response cfg (cache_key_of endpoint params) data
                      else mret tt);
                 mret data)
                (fun e =>
                   _ ← (if (Z.of_nat j + 1 <? max_retries)%Z then
                          sleep_time ← pure (py_mul_pow2 retry_delay
                                               (Z.of_nat j + 1 - 1));
                          lift_world (time_sleep sleep_time)
                        else mret tt);
                   loop url endpoint params max_retries retry_delay
                     (S k) (Z.of_nat j + 1)%Z (Some e))
                (c, w)).
      unfold try_except at 1.
      unfold mbind at 1, M_bind at 1, lift_world at 1, session_get.
      simpl fst; simpl snd. rewrite E.
      cbv beta iota. simpl is_RequestException. cbv iota.
      replace (Z.of_nat j + 1 <? max_retries)%Z with true
        by (symmetry; apply Z.ltb_lt; lia).
      unfold mbind at 1, M_bind at 1. unfold mbind at 1, M_bind at 1, pure at 1.
      rewrite Hpow. unfold lift_world at 1.
      simpl fst; simpl snd. fold w1.
      rewrite (time_sleep_Ok d w1 Hd0 Hdl). fold w2.
      replace (Z.of_nat j + 1)%Z with (Z.of_nat (S j)) by lia. done.
    + rewrite Htr. subst w2 w1. simpl w_trace.
      rewrite <- !app_assoc. simpl. do 2 f_equal.
    unfold attempt_events.
    replace (2 <=? j + 2)%nat with true by (symmetry; apply Nat.leb_le; lia).
    simpl. do 2 f_equal. subst d. unfold backoff_delay.
    do 3 f_equal. lia.
Qed.

Lemma _is_cache_valid_fresh cache_key c w :
  _is_cache_valid cache_key (c, w) = (Ok (cache_fresh c (w_now w) cache_key), (c, w)).
Proof.
  unfold _is_cache_valid, cache_fresh, mbind, M_bind, self. simpl.
  destruct (cache c !! cache_key); [|done].
  destruct (cache_expiry c !! cache_key); done.
Qed.

Lemma _make_request_miss endpoint params max_retries retry_delay c w :
  cache_enabled c
  && cache_fresh c (w_now w) (cache_key_of endpoint (params_or_empty params))
  = false →
  make_request endpoint params max_retries retry_delay (c, w)
  = loop (base_url c +:+ "/" +:+ endpoint) endpoint
      (params_or_empty params) max_retries retry_delay
      (Z.to_nat max_retries) 0 None (c, w).
Proof.
  intros Hmiss. unfold _make_request.
  unfold mbind at 1, M_bind at 1, self at 1. simpl fst.
  unfold mbind at 1, M_bind at 1.
  destruct (cache_enabled c).
  - rewrite _is_cache_valid_fresh. simpl in Hmiss. by rewrite Hmiss.
  - done.
Qed.


(** What [_cache_response] does: both entries are stored, or the payload
    alone when the expiry is not a [datetime]. *)
Lemma _cache_response_cases cache_key response c w :
  (is_datetime (w_now w + timedelta_seconds (CACHE_TTL cfg)) = true
   ∧ _cache_response cfg cache_key response (c, w)
     = (Ok tt, (store_response cfg c cache_key response (w_now w), w)))
  ∨ (is_datetime (w_now w + timedelta_seconds (CACHE_TTL cfg)) = false
     ∧ ∃ msg,
         _cache_response cfg cache_key response (c, w)
         = (Raise (OverflowError msg), (store_payload c cache_key response, w))).
Proof.
  unfold _cache_response, datetime_add. simpl.
  destruct (is_datetime _); [left|right]; split; try done. by eexists.
Qed.

(** One turn of the loop, by the outcome of its request. *)
Lemma request_loop_step url endpoint params max_retries retry_delay
    k retries last_exception c w :
  loop url endpoint params max_retries retry_delay
    (S k) retries last_exception (c, w)
  = let w1 := {| w_now := (w_now w + fst (http_get (w_trace w) url params))%Q;
                 w_trace := w_trace w ++ [EvGet url params] |} in
    match snd (http_get (w_trace w) url params) with
    | Ok data =>
        if cache_enabled c then
          match _cache_response cfg (cache_key_of endpoint params) data (c, w1)
          with
          | (Ok _, s1) => (Ok data, s1)
          | (Raise e, s1) => (Raise e, s1)
          end
        else (Ok data, (c, w1))
    | Raise e =>
        if is_RequestException e then
          if (retries + 1 <? max_retries)%Z then
            match py_mul_pow2 retry_delay (retries + 1 - 1) with
            | Ok d =>
                match time_sleep d w1 with
                | (Ok _, w2) =>
                    loop url endpoint params max_retries retry_delay
                      k (retries + 1)%Z (Some e) (c, w2)
                | (Raise e', w2) => (Raise e', (c, w2))
                end
            | Raise e' => (Raise e', (c, w1))
            end
          else
            loop url endpoint params max_retries retry_delay
              k (retries + 1)%Z (Some e) (c, w1)
        else (Raise e, (c, w1))
    end.
Proof.
  simpl. unfold try_except, mbind, M_bind, lift_world, session_get, self, pure.
  simpl.
  destruct (http_get (w_trace w) url params) as [elapsed [data|e]]; simpl.
  - destruct (cache_enabled c); [|done].
    by destruct (_cache_response_cases (cache_key_of endpoint params) data c
                   {| w_now := (w_now w + elapsed)%Q;
                      w_trace := w_trace w ++ [EvGet url params] |})
      as [[_ ->]|[_ [msg ->]]].
  - destruct (is_RequestException e); [|done].
    destruct (retries + 1 <? max_retries)%Z; [|done]. simpl.
    destruct (py_mul_pow2 _ _) as [d|e']; [|done]. simpl.
    by destruct (time_sleep d _) as [[[]|e'] w2].
Qed.

(** Whatever the loop returns is the answer to a request it sent itself,
    the last event of the trace, and is what it stored in the cache. *)
Lemma request_loop_ok url endpoint params max_retries retry_delay k :
  ∀ retries last_exception c w v c' w',
    loop url endpoint params max_retries retry_delay
      k retries last_exception (c, w) = (Ok v, (c', w')) →
    ∃ evs elapsed,
      http_get (w_trace w ++ evs) url params = (elapsed, Ok v)
      ∧ w_trace w' = (w_trace w ++ evs) ++ [EvGet url params]
      ∧ c' = (if cache_enabled c then
                store_response cfg c (cache_key_of endpoint params) v (w_now w')
              else c).
Proof.
  induction k as [|k IH]; intros retries last c w v c' w' Hrun.
  - simpl in Hrun. unfold raise in Hrun. by destruct last.
  - rewrite request_loop_step in Hrun. cbv zeta in Hrun.
    destruct (http_get (w_trace w) url params) as [elapsed [data|e]] eqn:E;
      simpl in Hrun.
    + exists [], elapsed. rewrite app_nil_r, E.
      destruct (cache_enabled c).
      * destruct (_cache_response_cases (cache_key_of endpoint params) data c
                    {| w_now := (w_now w + elapsed)%Q;
                       w_trace := w_trace w ++ [EvGet url params] |})
          as [[_ Hst]|[_ [msg Hst]]]; rewrite Hst in Hrun; [|done].
        by injection Hrun as <- <- <-.
      * by injection Hrun as <- <- <-.
    + destruct (is_RequestException e); [|done].
      destruct (retries + 1 <? max_retries)%Z.
      * destruct (py_mul_pow2 _ _) as [d|e']; [|done].
        destruct (time_sleep_cases d
                    {| w_now := (w_now w + elapsed)%Q;
                       w_trace := w_trace w ++ [EvGet url params] |})
          as [Hsl|[e' Hsl]]; rewrite Hsl in Hrun; [|done].
        apply IH in Hrun as (evs & el & Hget & Htr & Hc). simpl in *.
        eexists (EvGet url params :: EvSleep _ :: evs), el.
        rewrite <- !app_assoc in Hget. simpl in Hget.
        split; [exact Hget|split; [|exact Hc]].
        rewrite Htr. by rewrite <- !app_assoc.
      * apply IH in Hrun as (evs & el & Hget & Htr & Hc). simpl in *.
        exists (EvGet url params :: evs), el.
        rewrite <- !app_assoc in Hget. simpl in Hget.
        split; [exact Hget|split; [|exact Hc]].
        rewrite Htr. by rewrite <- !app_assoc.
Qed.

Lemma _make_request_hit endpoint params max_retries retry_delay c w payload expiry :
  cache_enabled c = true →
  cache c !! cache_key_of endpoint (params_or_empty params) = Some payload →
  cache_expiry c !! cache_key_of endpoint (params_or_empty params) = Some expiry →
  (w_now w < expiry)%Q →
  make_request endpoint params max_retries retry_delay (c, w) = (Ok payload, (c, w)).
Proof.
  intros Hen Hc He Hlt. unfold _make_request.
  unfold mbind at 1, M_bind at 1, self at 1. simpl fst.
  unfold mbind at 1, M_bind at 1. rewrite Hen, _is_cache_valid_fresh.
  unfold cache_fresh. rewrite Hc, He.
  apply Qlt_bool_iff in Hlt. by rewrite Hlt.
Qed.

(** C8.  With caching enabled: when an entry exists for the key of the
    request and the clock is strictly before its expiry, [_make_request]
    returns the cached payload and leaves the world as it was -- no
    request is sent, whatever the network would answer; when the expiry
    of the entry has passed, the call runs the request loop, and a value
    it returns is the answer to a request sent during this very call;
    and whenever the call fetches and returns, the entry of that key
    holds the returned payload with expiry [now + CACHE_TTL], [now] being
    the clock when the answer was stored, the other entries being
    untouched. *)
Theorem cache_policy
    (c : client) (w : world) (endpoint : string) (params : pyval)
    (max_retries : Z) (retry_delay : Q) :
  let params' := params_or_empty params in
  let url := base_url c +:+ "/" +:+ endpoint in
  let cache_key := cache_key_of endpoint params' in
  cache_enabled c = true →
  (∀ payload expiry,
     cache c !! cache_key = Some payload →
     cache_expiry c !! cache_key = Some expiry →
     (w_now w < expiry)%Q →
     make_request endpoint params max_retries retry_delay (c, w)
     = (Ok payload, (c, w)))
  ∧ (∀ expiry,
       cache_expiry c !! cache_key = Some expiry →
       (expiry <= w_now w)%Q →
       make_request endpoint params max_retries retry_delay (c, w)
       = loop url endpoint params' max_retries retry_delay
           (Z.to_nat max_retries) 0 None (c, w)
       ∧ ∀ v c' w',
           make_request endpoint params max_retries retry_delay (c, w)
           = (Ok v, (c', w')) →
           ∃ evs elapsed,
             http_get (w_trace w ++ evs) url params' = (elapsed, Ok v)
             ∧ w_trace w' = (w_trace w ++ evs) ++ [EvGet url params'])
  ∧ (cache_fresh c (w_now w) cache_key = false →
     ∀ v c' w',
       make_request endpoint params max_retries retry_delay (c, w)
       = (Ok v, (c', w')) →
       cache c' !! cache_key = Some v
       ∧ cache_expiry c' !! cache_key
         = Some (w_now w' + timedelta_seconds (CACHE_TTL cfg))%Q
       ∧ ∀ other, other ≠ cache_key →
           cache c' !! other = cache c !! other
           ∧ cache_expiry c' !! other = cache_expiry c !! other).
Proof.
  intros params' url cache_key Hen.
  assert (cache_fresh c (w_now w) cache_key = false →
          make_request endpoint params max_retries retry_delay (c, w)
          = loop url endpoint params' max_retries retry_delay
              (Z.to_nat max_retries) 0 None (c, w)) as Hmiss.
  { intros Hstale. apply _make_request_miss. fold params' cache_key.
    rewrite Hstale. apply andb_false_r. }
  split; [|split].
  - intros payload expiry Hc He Hlt. by eapply _make_request_hit.
  - intros expiry He Hle.
    assert (cache_fresh c (w_now w) cache_key = false) as Hstale.
    { unfold cache_fresh. rewrite He.
      destruct (cache c !! cache_key); [|done]. by apply Qlt_bool_false. }
    split; [by apply Hmiss|].
    intros v c' w' Hrun. rewrite (Hmiss Hstale) in Hrun.
    apply request_loop_ok in Hrun as (evs & el & Hget & Htr & _).
    by exists evs, el.
  - intros Hstale v c' w' Hrun. rewrite (Hmiss Hstale) in Hrun.
    apply request_loop_ok in Hrun as (evs & el & _ & _ & ->).
    rewrite Hen. simpl. fold cache_key.
    rewrite !lookup_insert_eq. split; [done|split; [done|]].
    intros other Hne. by rewrite !lookup_insert_ne.
Qed.

End RequestLoop.

(** ** Every call reaches the network *)

Section Traces.
Context {S : Type} `{Traced S}.

Lemma extends_ret {A} (a : A) : extends (mret a : M S A).
Proof. intros s r s' [= <- <-]. exists []. by rewrite app_nil_r. Qed.

Lemma extends_pure {A} (r : result A) : extends (pure r : M S A).
Proof. intros s r' s' [= <- <-]. exists []. by rewrite app_nil_r. Qed.

Lemma extends_raise {A} (e : exn) : extends (raise e : M S A).
Proof. intros s r' s' [= <- <-]. exists []. by rewrite app_nil_r. Qed.

Lemma extends_bind {A B} (m : M S A) (f : A → M S B) :
  extends m → (∀ a, extends (f a)) → extends (m ≫= f).
Proof.
  intros Hm Hf s r s' Hrun. unfold mbind, M_bind in Hrun.
  destruct (m s) as [[a|e] s1] eqn:E.
  - destruct (Hm _ _ _ E) as [evs1 H1]. destruct (Hf _ _ _ _ Hrun) as [evs2 H2].
    exists (evs1 ++ evs2). by rewrite H2, H1, app_assoc.
  - injection Hrun as <- <-. by eapply Hm.
Qed.

Lemma extends_try_except {A} catches (m : M S A) (h : exn → M S A) :
  extends m → (∀ e, extends (h e)) → extends (try_except catches m h).
Proof.
  intros Hm Hh s r s' Hrun. unfold try_except in Hrun.
  destruct (m s) as [[a|e] s1] eqn:E.
  - injection Hrun as <- <-. by eapply Hm.
  - destruct (Hm _ _ _ E) as [evs1 H1]. destruct (catches e).
    + destruct (Hh _ _ _ _ Hrun) as [evs2 H2].
      exists (evs1 ++ evs2). by rewrite H2, H1, app_assoc.
    + injection Hrun as <- <-. by exists evs1.
Qed.

Lemma starts_with_bind {A B} pre (m : M S A) (f : A → M S B) s :
  starts_with pre m s → (∀ a, extends (f a)) → starts_with pre (m ≫= f) s.
Proof.
  intros Hm Hf r s' Hrun. unfold mbind, M_bind in Hrun.
  destruct (m s) as [[a|e] s1] eqn:E.
  - destruct (Hm _ _ E) as [evs1 H1]. destruct (Hf _ _ _ _ Hrun) as [evs2 H2].
    exists (evs1 ++ evs2). by rewrite H2, H1, <- !app_assoc.
  - injection Hrun as <- <-. by eapply Hm.
Qed.

Lemma starts_with_try_except {A} pre catches (m : M S A) (h : exn → M S A) s :
  starts_with pre m s → (∀ e, extends (h e)) →
  starts_with pre (try_except catches m h) s.
Proof.
  intros Hm Hh r s' Hrun. unfold try_except in Hrun.
  destruct (m s) as [[a|e] s1] eqn:E.
  - injection Hrun as <- <-. by eapply Hm.
  - destruct (Hm _ _ E) as [evs1 H1]. destruct (catches e).
    + destruct (Hh _ _ _ _ Hrun) as [evs2 H2].
      exists (evs1 ++ evs2). by rewrite H2, H1, <- !app_assoc.
    + injection Hrun as <- <-. by exists evs1.
Qed.

End Traces.

Lemma extends_lift_world {A} (m : M world A) : extends m → extends (lift_world m).
Proof.
  intros Hm [c w] r [c' w'] Hrun. unfold lift_world in Hrun. simpl in Hrun.
  destruct (m w) as [r1 w1] eqn:E. injection Hrun as <- <- <-.
  by eapply Hm.
Qed.

Lemma extends_on_new_object {A} c (m : M (client * world) A) :
  extends m → extends (on_new_object c m).
Proof.
  intros Hm w r w' Hrun. unfold on_new_object in Hrun.
  destruct (m (c, w)) as [r1 [c1 w1]] eqn:E. injection Hrun as <- <-.
  by apply (Hm _ _ _ E).
Qed.

Lemma starts_with_on_new_object {A} pre c (m : M (client * world) A) w :
  starts_with pre m (c, w) → starts_with pre (on_new_object c m) w.
Proof.
  intros Hm r w' Hrun. unfold on_new_object in Hrun.
  destruct (m (c, w)) as [r1 [c1 w1]] eqn:E. injection Hrun as <- <-.
  by apply (Hm _ _ E).
Qed.

Lemma extends_self : extends self.
Proof. intros s r s' [= <- <-]. exists []. by rewrite app_nil_r. Qed.

Lemma extends_datetime_now : extends datetime_now.
Proof. intros s r s' [= <- <-]. exists []. by rewrite app_nil_r. Qed.

Lemma extends_time_sleep seconds : extends (time_sleep seconds).
Proof.
  intros w r w' Hrun.
  destruct (time_sleep_cases seconds w) as [Hsl|[e Hsl]]; rewrite Hsl in Hrun;
    injection Hrun as <- <-.
  - by eexists.
  - exists []. by rewrite app_nil_r.
Qed.

Create HintDb trace.
#[local] Hint Resolve extends_ret extends_pure extends_raise extends_self
  extends_datetime_now extends_time_sleep : trace.

(** Goals [extends m] for a computation made of the steps above. *)
Ltac extends_steps :=
  repeat first
    [ apply extends_bind; [|intros]
    | apply extends_try_except; [|intros]
    | apply extends_lift_world
    | apply extends_on_new_object
    | progress auto with trace
    | match goal with
      | |- extends (if ?b then _ else _) => destruct b
      | |- extends (match ?x with _ => _ end) => destruct x
      end ].

Section EntryPoints.
Context (cfg : settings)
        (http_get : list event → string → pyval → Q * result pyval)
        (md5_hexdigest : string → string)
        (json_dumps_sorted : pyval → string)
        (isoformat : Q → string)
        (py_format : pyval → string).

Local Abbreviation loop := (request_loop cfg http_get md5_hexdigest json_dumps_sorted).
Local Abbreviation make_request := (_make_request cfg http_get md5_hexdigest json_dumps_sorted).
Local Abbreviation cache_key_of := (_get_cache_key md5_hexdigest json_dumps_sorted).

Lemma extends_session_get url params : extends (session_get http_get url params).
Proof.
  intros w r w' Hrun. unfold session_get in Hrun.
  destruct (http_get (w_trace w) url params). injection Hrun as <- <-.
  by eexists.
Qed.

Lemma extends__is_cache_valid cache_key : extends (_is_cache_valid cache_key).
Proof.
  intros [c w] r s'. rewrite _is_cache_valid_fresh. intros [= <- <-].
  exists []. by rewrite app_nil_r.
Qed.

Lemma extends__cache_response cache_key response :
  extends (_cache_response cfg cache_key response).
Proof.
  intros [c w] r s' Hrun.
  destruct (_cache_response_cases cfg cache_key response c w)
    as [[_ Hst]|[_ [msg Hst]]]; rewrite Hst in Hrun; injection Hrun as <- <-;
    exists []; by rewrite app_nil_r.
Qed.

#[local] Hint Resolve extends_session_get extends__is_cache_valid
  extends__cache_response : trace.

Lemma extends_request_loop url endpoint params max_retries retry_delay k :
  ∀ retries last_exception,
    extends (loop url endpoint params max_retries retry_delay
               k retries last_exception).
Proof.
  induction k as [|k IH]; intros retries last; simpl.
  - auto with trace.
  - extends_steps.
Qed.

Lemma extends__make_request endpoint params max_retries retry_delay :
  extends (make_request endpoint params max_retries retry_delay).
Proof.
  unfold _make_request. extends_steps. apply extends_request_loop.
Qed.

#[local] Hint Resolve extends__make_request : trace.

(** A request that the cache does not answer goes out at once. *)
Lemma starts_with__make_request endpoint params max_retries retry_delay c w :
  cache_enabled c
  && cache_fresh c (w_now w) (cache_key_of endpoint (params_or_empty params))
  = false →
  (1 <= max_retries)%Z →
  starts_with [EvGet (base_url c +:+ "/" +:+ endpoint) (params_or_empty params)]
    (make_request endpoint params max_retries retry_delay) (c, w).
Proof.
  intros Hmiss Hmax r [c' w'].
  rewrite (_make_request_miss _ _ _ _ _ _ _ _ _ _ Hmiss).
  destruct (Z.to_nat max_retries) as [|k] eqn:Hk; [lia|].
  rewrite request_loop_step. cbv zeta.
  set (url := base_url c +:+ "/" +:+ endpoint).
  set (params' := params_or_empty params).
  set (w1 := {| w_now := _; w_trace := w_trace w ++ [EvGet url params'] |}).
  assert (∀ k' retries last (s1 : client * world),
            trace_of s1 = w_trace w1 ++ [] ∨
            (∃ d, trace_of s1 = w_trace w1 ++ [EvSleep d]) →
            loop url endpoint params' max_retries retry_delay k' retries last s1
            = (r, (c', w')) →
            ∃ evs, trace_of (c', w') = trace_of (c, w) ++ [EvGet url params'] ++ evs)
    as Hrest.
  { intros k' retries last s1 Hs1 Hrun.
    destruct (extends_request_loop _ _ _ _ _ _ _ _ _ _ _ Hrun) as [evs Hevs].
    rewrite Hevs. destruct Hs1 as [->|[d ->]]; subst w1; simpl;
      rewrite <- !app_assoc; by eexists. }
  destruct (snd (http_get (w_trace w) url params')) as [data|e].
  - destruct (cache_enabled c); [|intros [= <- <- <-]; by exists []].
    destruct (_cache_response_cases cfg (cache_key_of endpoint params') data c w1)
      as [[_ ->]|[_ [msg ->]]]; intros [= <- <- <-]; by exists [].
  - destruct (is_RequestException e).
    + destruct (0 + 1 <? max_retries)%Z.
      * destruct (py_mul_pow2 _ _) as [d|e'];
          [|intros [= <- <- <-]; by exists []].
        destruct (time_sleep_cases d w1) as [->|[e' ->]].
        -- apply Hrest. right. by eexists.
        -- intros [= <- <- <-]. by exists [].
      * apply Hrest. left. by rewrite app_nil_r.
    + intros [= <- <- <-]. exists []. done.
Qed.

Lemma extends_WeatherApiClient_get_snow_data lat lon :
  extends (WeatherApiClient_get_snow_data cfg http_get md5_hexdigest
             json_dumps_sorted isoformat py_format lat lon).
Proof.
  unfold WeatherApiClient_get_snow_data, WeatherApiClient_get_forecast.
  extends_steps.
Qed.

Lemma extends_OpenWeatherMapClient_get_snow_data lat lon :
  extends (OpenWeatherMapClient_get_snow_data cfg http_get md5_hexdigest
             json_dumps_sorted isoformat py_format lat lon).
Proof.
  pose proof (extends_WeatherApiClient_get_snow_data lat lon).
  unfold OpenWeatherMapClient_get_snow_data, get_snow_data_free_endpoints,
    get_snow_data_fallback, get_snow_data_default, fallback_fetch,
    OpenWeatherMapClient_get_current_weather, OpenWeatherMapClient_get_forecast.
  extends_steps.
Qed.

Lemma starts_with_after {S A B} `{Traced S} pre1 pre2
    (m : M S A) (f : A → M S B) s a s1 :
  m s = (Ok a, s1) → trace_of s1 = trace_of s ++ pre1 →
  starts_with pre2 (f a) s1 → starts_with (pre1 ++ pre2) (m ≫= f) s.
Proof.
  intros Hm Htr Hf r s' Hrun. unfold mbind, M_bind in Hrun. rewrite Hm in Hrun.
  destruct (Hf _ _ Hrun) as [evs Hevs]. exists evs.
  by rewrite Hevs, Htr, <- !app_assoc.
Qed.

Lemma cache_fresh_new api_key base_url cache_enabled now cache_key :
  cache_fresh (WeatherAPIClient__init__ api_key base_url cache_enabled)
    now cache_key = false.
Proof. unfold cache_fresh. simpl. by rewrite lookup_empty. Qed.

(** C9.  A client is created with both cache maps empty, so that no key
    is fresh in it at any time.  [get_resort_snow_data] and
    [verify_with_secondary_source] each work on a client created for the
    call and take no client from their caller: from any world, whatever
    was fetched before, the first thing [get_resort_snow_data] does is
    send the "weather" request, and [verify_with_secondary_source]
    sleeps one second and sends the "forecast.json" request.  No answer
    stored during an earlier call can be served. *)
Theorem entry_points_use_fresh_clients :
  (∀ api_key base_url cache_enabled,
     cache (WeatherAPIClient__init__ api_key base_url cache_enabled) = ∅
     ∧ cache_expiry (WeatherAPIClient__init__ api_key base_url cache_enabled) = ∅)
  ∧ (∀ api_key cache_enabled now cache_key,
       cache_fresh (OpenWeatherMapClient__init__ cfg api_key cache_enabled)
         now cache_key = false
       ∧ cache_fresh (WeatherApiClient__init__ cfg api_key cache_enabled)
           now cache_key = false)
  ∧ (∀ resort_name lat lon w r w',
       get_resort_snow_data cfg http_get md5_hexdigest json_dumps_sorted
         isoformat py_format resort_name lat lon w = (r, w') →
       ∃ evs,
         w_trace w'
         = w_trace w
           ++ [EvGet "https://api.openweathermap.org/data/2.5/weather"
                 (PyDict [("lat", lat); ("lon", lon);
                          ("units", PyStr "imperial");
                          ("appid", PyStr (key_or None (OPENWEATHER_API_KEY cfg)))])]
           ++ evs)
  ∧ (∀ resort_name lat lon primary_snow_amount w r w',
       verify_with_secondary_source cfg http_get md5_hexdigest json_dumps_sorted
         isoformat py_format resort_name lat lon primary_snow_amount w = (r, w') →
       ∃ evs,
         w_trace w'
         = w_trace w
           ++ [EvSleep 1;
               EvGet "https://api.weatherapi.com/v1/forecast.json"
                 (PyDict [("q", PyStr (py_format lat +:+ "," +:+ py_format lon));
                          ("days", PyNum (inject_Z 1));
                          ("key", PyStr (key_or None (WEATHERAPI_KEY cfg)))])]
           ++ evs).
Proof.
  split; [done|split; [|split]].
  - intros. split; apply cache_fresh_new.
  - intros resort_name lat lon w.
    pose proof (extends_OpenWeatherMapClient_get_snow_data lat lon) as Hext.
    pose proof (extends_WeatherApiClient_get_snow_data lat lon) as Hext'.
    unfold get_resort_snow_data.
    apply starts_with_try_except; [|intros; extends_steps].
    apply starts_with_bind; [|intros; extends_steps].
    apply starts_with_on_new_object.
    unfold OpenWeatherMapClient_get_snow_data.
    apply starts_with_try_except.
    2:{ intros. unfold get_snow_data_fallback, get_snow_data_default, fallback_fetch.
        extends_steps. }
    unfold get_snow_data_free_endpoints.
    apply starts_with_bind.
    2:{ intros. unfold OpenWeatherMapClient_get_forecast. extends_steps. }
    apply (starts_with__make_request "weather"); [|done].
    unfold OpenWeatherMapClient__init__.
    rewrite cache_fresh_new. apply andb_false_r.
  - intros resort_name lat lon primary w.
    pose proof (extends_WeatherApiClient_get_snow_data lat lon) as Hext'.
    unfold verify_with_secondary_source.
    apply starts_with_try_except; [|intros; extends_steps].
    unfold verify_try_block.
    apply (starts_with_after [EvSleep 1] [EvGet _ _] (time_sleep 1) _ w tt
             {| w_now := (w_now w + 1)%Q; w_trace := w_trace w ++ [EvSleep 1] |});
      [done|done|].
    apply starts_with_bind; [|intros; extends_steps].
    apply starts_with_on_new_object.
    unfold WeatherApiClient_get_snow_data.
    apply starts_with_bind; [|intros; extends_steps].
    apply (starts_with__make_request "forecast.json"); [|done].
    unfold WeatherApiClient__init__.
    rewrite cache_fresh_new. apply andb_false_r.
Qed.

Lemma py_truediv_inches a x :
  py_float a = Ok x → float_overflows x = false →
  py_truediv a 2.54 = Ok (PyNum (float_div x 2.54)).
Proof.
  intros Hx Hfits. unfold py_truediv. rewrite Hx. simpl. rewrite Hfits.
  by change (Qeq_bool (round_double 2.54) 0) with false.
Qed.

Lemma float_max_fits x : (Qabs x <= float_max)%Q → float_overflows x = false.
Proof.
  intros Hle. unfold float_overflows. apply Qle_bool_false.
  eapply Qle_lt_trans; [exact Hle|]. by vm_compute.
Qed.

(** What a fetch from WeatherAPI.com returns when it returns: the snow
    depth in inches is the float quotient of the number read in
    centimetres by 2.54. *)
Lemma WeatherApiClient_get_snow_data_ok lat lon s d s' :
  WeatherApiClient_get_snow_data cfg http_get md5_hexdigest json_dumps_sorted
    isoformat py_format lat lon s = (Ok d, s') →
  ∃ snow_cm x current_temp conditions,
    py_float snow_cm = Ok x
    ∧ d = PyDict [("snow_cm", snow_cm);
                  ("snow_inches", PyNum (float_div x 2.54));
                  ("current_temp", current_temp);
                  ("conditions", conditions);
                  ("timestamp", PyStr (isoformat (w_now (snd s'))));
                  ("source", PyStr "WeatherAPI.com")].
Proof.
  unfold WeatherApiClient_get_snow_data.
  unfold mbind at 1, M_bind at 1.
  destruct (WeatherApiClient_get_forecast _ _ _ _ _ _ _ _ s) as [[data|e] s1];
    [|done].
  unfold mbind at 1, M_bind at 1, pure at 1.
  match goal with |- match ?r with Ok _ => _ | Raise _ => _ end = _ → _ =>
    destruct r as [snow_cm|e] end; [|done].
  unfold mbind at 1, M_bind at 1, pure at 1.
  destruct (py_float snow_cm) as [x|e] eqn:Hx.
  2:{ unfold py_truediv. by rewrite Hx. }
  destruct (float_overflows x) eqn:Hfits.
  { unfold py_truediv. rewrite Hx. simpl. by rewrite Hfits. }
  rewrite (py_truediv_inches _ _ Hx Hfits).
  unfold mbind at 1, M_bind at 1, pure at 1.
  match goal with |- match ?r with Ok _ => _ | Raise _ => _ end = _ → _ =>
    destruct r as [current_temp|e] end; [|done].
  unfold mbind at 1, M_bind at 1, pure at 1.
  match goal with |- match ?r with Ok _ => _ | Raise _ => _ end = _ → _ =>
    destruct r as [conditions|e] end; [|done].
  unfold mbind, M_bind, lift_world, datetime_now, mret, M_ret. simpl.
  intros [= <- <-]. by exists snow_cm, x, current_temp, conditions.
Qed.

Lemma secondary_fetch_ok lat lon w d w' :
  secondary_fetch cfg http_get md5_hexdigest json_dumps_sorted isoformat py_format
    lat lon w = (Ok d, w') →
  ∃ snow_cm x current_temp conditions,
    py_float snow_cm = Ok x
    ∧ d = PyDict [("snow_cm", snow_cm);
                  ("snow_inches", PyNum (float_div x 2.54));
                  ("current_temp", current_temp);
                  ("conditions", conditions);
                  ("timestamp", PyStr (isoformat (w_now w')));
                  ("source", PyStr "WeatherAPI.com")].
Proof.
  unfold secondary_fetch, on_new_object.
  destruct (WeatherApiClient_get_snow_data _ _ _ _ _ _ _ _ _) as [r s'] eqn:E.
  intros [= -> <-]. by apply WeatherApiClient_get_snow_data_ok in E.
Qed.

Lemma time_sleep_1 w :
  time_sleep 1 w
  = (Ok tt, {| w_now := (w_now w + 1)%Q; w_trace := w_trace w ++ [EvSleep 1] |}).
Proof. apply time_sleep_Ok; unfold sleep_limit; lra. Qed.

(** C5, as the code has it.  [verify_with_secondary_source] always
    returns: whenever its [try] block raises -- in particular when the
    secondary fetch (request and parsing) raises -- the result is
    [(False, None)]; when the secondary fetch succeeds and the primary
    amount is a number a float can hold, the result is the secondary
    observation, with the resort name added, and a flag that is true
    exactly when the difference [primary - snow_inches] as the floats
    give it, rounded to the nearest double, is within
    [VERIFICATION_THRESHOLD] in absolute value. *)
Theorem verify_with_secondary_source_silent
    (resort_name : string) (lat lon primary_snow_amount : pyval) (w : world) :
  let verify :=
    verify_with_secondary_source cfg http_get md5_hexdigest json_dumps_sorted
      isoformat py_format resort_name lat lon primary_snow_amount in
  let fetch :=
    secondary_fetch cfg http_get md5_hexdigest json_dumps_sorted
      isoformat py_format lat lon in
  let slept := {| w_now := (w_now w + 1)%Q; w_trace := w_trace w ++ [EvSleep 1] |} in
  (∃ verified data w', verify w = (Ok (verified, data), w'))
  ∧ (∀ e w',
       verify_try_block cfg http_get md5_hexdigest json_dumps_sorted
         isoformat py_format resort_name lat lon primary_snow_amount w
       = (Raise e, w') →
       verify w = (Ok (false, None), w'))
  ∧ (∀ e w', fetch slept = (Raise e, w') → verify w = (Ok (false, None), w'))
  ∧ (∀ secondary w' primary,
       fetch slept = (Ok secondary, w') →
       py_float primary_snow_amount = Ok primary →
       (Qabs primary <= float_max)%Q →
       ∃ snow_inches observation,
         py_getitem secondary "snow_inches" = Ok (PyNum snow_inches)
         ∧ py_setitem secondary "resort" (PyStr resort_name) = Ok observation
         ∧ verify w
           = (Ok (Qle_bool (Qabs (float_sub primary snow_inches))
                    (VERIFICATION_THRESHOLD cfg),
                  Some observation), w')
         ∧ (Qle_bool (Qabs (float_sub primary snow_inches))
              (VERIFICATION_THRESHOLD cfg) = true
            ↔ (Qabs (float_sub primary snow_inches)
               <= VERIFICATION_THRESHOLD cfg)%Q)).
Proof.
  intros verify fetch slept. subst verify.
  unfold verify_with_secondary_source, try_except. simpl any_Exception.
  split; [|split; [|split]].
  - destruct (verify_try_block _ _ _ _ _ _ _ _ _ _ w) as [[[b d]|e] w'];
      by eexists _, _, _.
  - intros e w' ->. done.
  - intros e w' Hfetch. unfold verify_try_block.
    unfold mbind at 1, M_bind at 1.
    rewrite time_sleep_1. fold slept.
    unfold mbind at 1, M_bind at 1. fold fetch. by rewrite Hfetch.
  - intros secondary w' primary Hfetch Hprimary Hfits.
    apply float_max_fits in Hfits.
    destruct (secondary_fetch_ok _ _ _ _ _ Hfetch)
      as (snow_cm & x & temp & cond & Hx & ->).
    exists (float_div x 2.54). eexists. split; [done|]. split; [done|].
    split; [|apply Qle_bool_iff].
    unfold verify_try_block.
    unfold mbind at 1, M_bind at 1.
    rewrite time_sleep_1. fold slept.
    unfold mbind at 1, M_bind at 1. fold fetch. rewrite Hfetch.
    unfold mbind, M_bind, pure, py_sub, py_abs, py_le. simpl py_setitem.
    simpl py_getitem. rewrite Hprimary. simpl. rewrite Hfits. simpl.
    by destruct (Qle_bool _ (VERIFICATION_THRESHOLD cfg)).
Qed.

(** C10.  When the [try] block of [get_snow_data] raises and the fetch
    of the fallback succeeds, [get_snow_data] returns an observation
    whose ["forecast_snow"] is [0] and whose ["source"] is the fallback
    label; the time windows computed from it -- also once the resort
    name, the elevation and the region have been stored in it -- have a
    48-hour total of the current amount plus zero, which is the current
    amount. *)
Theorem fallback_observation_has_no_forecast
    (lat lon : pyval) (s s1 : client * world) (e : exn)
    (secondary : pyval) (w2 : world) :
  get_snow_data_free_endpoints cfg http_get md5_hexdigest json_dumps_sorted
    isoformat lat lon s = (Raise e, s1) →
  fallback_fetch cfg http_get md5_hexdigest json_dumps_sorted isoformat py_format
    lat lon (snd s1) = (Ok secondary, w2) →
  ∃ current_snow current_temp conditions,
    let observation :=
      PyDict [("current_snow", PyNum current_snow);
              ("forecast_snow", PyNum 0);
              ("current_temp", current_temp);
              ("conditions", conditions);
              ("timestamp", PyStr (isoformat (w_now w2)));
              ("source", PyStr "Fallback: WeatherAPI.com")] in
    let windows :=
      PyDict [("current_24h", PyNum current_snow);
              ("forecast_24h", PyNum 0);
              ("total_48h", PyNum (current_snow + 0))] in
    OpenWeatherMapClient_get_snow_data cfg http_get md5_hexdigest
      json_dumps_sorted isoformat py_format lat lon s
    = (Ok observation, (fst s1, w2))
    ∧ calculate_time_window_data observation None = Ok windows
    ∧ (∀ resort_name elevation region o1 o2 o3,
         py_setitem observation "resort" (PyStr resort_name) = Ok o1 →
         py_setitem o1 "elevation" elevation = Ok o2 →
         py_setitem o2 "region" region = Ok o3 →
         calculate_time_window_data o3 None = Ok windows)
    ∧ (current_snow + 0 == current_snow)%Q.
Proof.
  intros Hfree Hfetch.
  destruct (secondary_fetch_ok _ _ _ _ _ Hfetch)
    as (snow_cm & x & temp & cond & Hx & ->).
  exists (float_div x 2.54), temp, cond. cbv zeta.
  split; [|split; [done|split]].
  - unfold OpenWeatherMapClient_get_snow_data.
    unfold try_except at 1. rewrite Hfree. simpl any_Exception. cbv iota.
    unfold try_except, get_snow_data_fallback.
    unfold mbind at 1, M_bind at 1, lift_world at 1. rewrite Hfetch.
    reflexivity.
  - intros resort_name elevation region o1 o2 o3 [= <-] [= <-] [= <-].
    reflexivity.
  - apply Qplus_0_r.
Qed.

End EntryPoints.

(** ** Reading the provider's payloads *)

Lemma current_snow_of_nested current_data kvs v :
  py_get current_data "snow" (PyDict []) = Ok (PyDict kvs) →
  dict_lookup "1h" kvs = Some v → py_truthy v = true →
  current_snow_of current_data = Ok v.
Proof.
  intros Hsnow Hv Ht. unfold current_snow_of. rewrite Hsnow. simpl.
  rewrite Hv. simpl. by rewrite Ht.
Qed.

Lemma current_snow_of_missing kvs :
  dict_lookup "snow" kvs = None → current_snow_of (PyDict kvs) = Ok (PyNum 0).
Proof. intros Hnone. unfold current_snow_of. simpl. by rewrite Hnone. Qed.

(** C6, on the code.  A payload that reports snowfall as a plain number
    (["snow": 2.5]) is not read through the generic field: the lookup of
    the nested key on the number raises [AttributeError], for the current
    conditions and for a forecast period alike, so the check of the
    generic field after it is never reached with a number.  A payload
    whose nested field has another hour key makes [current_snow] the
    whole dictionary, which is not a number.  With such answers from
    OpenWeatherMap and WeatherAPI.com down, [get_snow_data] reports the
    zeroed default observation, although 2.5 inches were reported. *)
Theorem scalar_snow_is_not_read :
  current_snow_of weather_scalar_snow
  = Raise (AttributeError "object has no attribute 'get'")
  ∧ forecast_snow_of forecast_scalar_snow
    = Raise (AttributeError "object has no attribute 'get'")
  ∧ current_snow_of weather_three_hour_snow = Ok (PyDict [("3h", PyNum 1.2)])
  ∧ py_is_number (PyDict [("3h", PyNum 1.2)]) = false
  ∧ current_snow_of weather_nested_snow = Ok (PyNum 2)
  ∧ forecast_snow_of forecast_nested_snow = Ok (PyNum (0 + 1.5 + 1 + 0))
  ∧ fst (OpenWeatherMapClient_get_snow_data default_settings http_scalar_snow
           stub_md5 stub_json_dumps stub_isoformat stub_format
           (PyNum 40) (PyNum (-111))
           (OpenWeatherMapClient__init__ default_settings (Some "test_key") false,
            noon))
    = Ok (PyDict [("current_snow", PyNum 0);
                  ("forecast_snow", PyNum 0);
                  ("current_temp", PyNum 0);
                  ("conditions", PyStr "Error fetching data");
                  ("timestamp", PyStr "2025-03-21T12:34:56");
                  ("source", PyStr "Default values (API errors)")]).
Proof. repeat split; vm_compute; reflexivity. Qed.

(** ** The retry policy on an instance *)


(** ** The cooldown and the agreement flag on instances *)

(** C3, as stated, fails: [ALERT_COOLDOWN_HOURS] may be zero, and then the
    pair is not in cooldown immediately after its alert, so that the same
    alert is triggered again at once; and with a cooldown of [10^8]
    hours, whose end is not a [datetime], [is_in_cooldown] gives no
    answer after an alert: it raises [OverflowError]. *)
Lemma cooldown_can_be_empty :
  is_in_cooldown (with_cooldown 0)
    (update_last_alert_time ∅ 43200 "Test Resort" "light")
    43200 "Test Resort" "light" = Ok false
  ∧ should_trigger_alert (with_cooldown 0)
      (update_last_alert_time ∅ 43200 "Test Resort" "light")
      43200 "Test Resort" snow_data_5 true
    = Ok (true, Some "light")
  ∧ ∃ msg,
      is_in_cooldown (with_cooldown 100000000)
        (update_last_alert_time ∅ 43200 "Test Resort" "light")
        43200 "Test Resort" "light" = Raise (OverflowError msg).
Proof.
  split; [vm_compute; reflexivity|]. split; [vm_compute; reflexivity|].
  eexists. vm_compute. reflexivity.
Qed.

(** C5, as stated, fails at the threshold: the flag compares the
    difference of the two floats after it has been rounded.  When
    WeatherAPI.com reports 0.254 centimetres the secondary reading is the
    float 0.1; against a primary reading of the float 2.1 the two differ
    by more than the threshold of 2.0, and yet the flag is true, their
    difference being rounded to 2.0. *)
Lemma agreement_flag_rounds_the_difference :
  ∃ observation snow_inches w',
    verify_with_secondary_source default_settings (http_snow_cm 0.254) stub_md5
      stub_json_dumps stub_isoformat stub_format
      "Test Resort" (PyNum 40) (PyNum (-111)) (PyNum (round_double 2.1)) noon
    = (Ok (true, Some observation), w')
    ∧ py_getitem observation "snow_inches" = Ok (PyNum snow_inches)
    ∧ snow_inches = round_double 0.1
    ∧ ¬ (Qabs (round_double 2.1 - snow_inches)
         <= VERIFICATION_THRESHOLD default_settings)%Q.
Proof.
  assert (∃ observation w',
            verify_with_secondary_source default_settings (http_snow_cm 0.254)
              stub_md5 stub_json_dumps stub_isoformat stub_format
              "Test Resort" (PyNum 40) (PyNum (-111)) (PyNum (round_double 2.1))
              noon
            = (Ok (true, Some observation), w')
            ∧ py_getitem observation "snow_inches"
              = Ok (PyNum (3602879701896397 # 36028797018963968)))
    as (observation & w' & Hrun & Hget)
    by (vm_compute; eexists _, _; split; reflexivity).
  exists observation, (3602879701896397 # 36028797018963968)%Q, w'.
  split; [exact Hrun|]. split; [exact Hget|]. split; [by vm_compute|].
  intros Hle. vm_compute in Hle. by apply Hle.
Qed.

(** ** The theorems on the inputs of the test suite *)

Lemma should_trigger_alert_unverified_witness :
  py_getitem snow_data_5 "current_24h" = Ok (PyNum 5)
  ∧ py_float (PyNum 5) = Ok 5%Q
  ∧ (THRESHOLD_LIGHT default_settings <= 5)%Q
  ∧ should_trigger_alert default_settings ∅ 0 "Test Resort" snow_data_5 false
    = Ok (false, None).
Proof.
  assert (THRESHOLD_LIGHT default_settings <= 5)%Q as Hle
    by (unfold Qle; simpl; lia).
  split; [reflexivity|]. split; [reflexivity|]. split; [exact Hle|].
  exact (should_trigger_alert_unverified default_settings ∅ 0 "Test Resort"
           snow_data_5 (PyNum 5) 5 eq_refl eq_refl Hle).
Defined.

Lemma determine_alert_category_correct_witness :
  determine_alert_category default_settings 6 = "moderate"
  ∧ determine_alert_category default_settings 2 = "light"
  ∧ determine_alert_category default_settings (12 - 1) = "moderate"
  ∧ category_rank (determine_alert_category default_settings 5)
    ≤ category_rank (determine_alert_category default_settings 8).
Proof.
  destruct (determine_alert_category_correct default_settings)
    as (_ & Hmono & _ & Hmoderate & Hlight & _ & _ & Heps).
  split; [|split; [|split]].
  - apply Hmoderate; reflexivity.
  - apply Hlight; reflexivity.
  - apply Heps; [reflexivity|]. unfold Qle; simpl; lia.
  - apply Hmono. unfold Qle; simpl; lia.
Defined.

Lemma cooldown_gate_witness :
  should_trigger_alert default_settings
    (update_last_alert_time ∅ 0 "Test Resort" "light")
    43200 "Test Resort" snow_data_5 true
  = Ok (true, Some "light")
  ∧ is_in_cooldown default_settings
      (update_last_alert_time ∅ 0 "Test Resort" "light")
      0 "Test Resort" "light" = Ok true
  ∧ is_in_cooldown default_settings
      (update_last_alert_time ∅ 0 "Test Resort" "light")
      43200 "Test Resort" "light" = Ok false.
Proof.
  split; [|split].
  - destruct (cooldown_gate default_settings
                (update_last_alert_time ∅ 0 "Test Resort" "light")
                "Test Resort" "light") as (Hgate & _).
    destruct (Hgate 43200%Q snow_data_5 (PyNum 5) 5%Q true eq_refl eq_refl
                (or_introl eq_refl) eq_refl) as [_ Htrigger].
    + discriminate.
    + intros t Ht. vm_compute in Ht. injection Ht as <-. reflexivity.
    + apply Htrigger. intros (t & Ht & Hlt).
      vm_compute in Ht. injection Ht as <-. vm_compute in Hlt. discriminate.
  - destruct (cooldown_gate default_settings ∅ "Test Resort" "light")
      as (_ & _ & Hnow & _).
    apply Hnow; [reflexivity|reflexivity].
  - destruct (cooldown_gate default_settings ∅ "Test Resort" "light")
      as (_ & _ & _ & Hlater & _).
    apply Hlater; [reflexivity|]. unfold Qle; simpl; lia.
Defined.

Lemma update_last_alert_time_frame_witness :
  ("Test Resort", "moderate") ≠ ("Test Resort", "light")
  ∧ last_alert_time (update_last_alert_time ∅ 0 "Test Resort" "light")
      "Test Resort" "moderate"
    = last_alert_time ∅ "Test Resort" "moderate".
Proof.
  assert (("Test Resort", "moderate") ≠ ("Test Resort", "light")) as Hne
    by discriminate.
  split; [exact Hne|].
  destruct (update_last_alert_time_frame ∅ 0 "Test Resort" "light") as (Hframe & _).
  exact (proj1 (Hframe "Test Resort" "moderate" Hne)).
Defined.

Lemma cache_policy_witness :
  cache_enabled (warm_client 50000) = true
  ∧ (w_now noon < 50000)%Q
  ∧ _make_request default_settings http_500 stub_md5 stub_json_dumps
      "test" test_params 3 1.0 (warm_client 50000, noon)
    = (Ok (PyDict [("result", PyStr "cached")]), (warm_client 50000, noon)).
Proof.
  split; [reflexivity|]. split; [reflexivity|].
  apply (proj1 (cache_policy default_settings http_500 stub_md5 stub_json_dumps
                  (warm_client 50000) noon "test" test_params 3 1.0 eq_refl)
           (PyDict [("result", PyStr "cached")]) 50000%Q).
  - vm_compute. reflexivity.
  - vm_compute. reflexivity.
  - reflexivity.
Defined.


Lemma entry_points_use_fresh_clients_witness :
  ∃ evs,
    w_trace (snd (get_resort_snow_data default_settings http_500 stub_md5
                    stub_json_dumps stub_isoformat stub_format
                    "Test Resort" (PyNum 40) (PyNum (-111)) noon))
    = w_trace noon
      ++ [EvGet "https://api.openweathermap.org/data/2.5/weather"
            (PyDict [("lat", PyNum 40); ("lon", PyNum (-111));
                     ("units", PyStr "imperial");
                     ("appid",
                      PyStr (key_or None (OPENWEATHER_API_KEY default_settings)))])]
      ++ evs.
Proof.
  destruct (entry_points_use_fresh_clients default_settings http_500 stub_md5
              stub_json_dumps stub_isoformat stub_format) as (_ & _ & Hfetch & _).
  eapply Hfetch. apply surjective_pairing.
Defined.

Lemma verify_with_secondary_source_silent_witness :
  ∃ secondary w' snow_inches observation,
    secondary_fetch default_settings http_fallback_only stub_md5 stub_json_dumps
      stub_isoformat stub_format (PyNum 40) (PyNum (-111))
      {| w_now := (w_now noon + 1)%Q; w_trace := w_trace noon ++ [EvSleep 1] |}
    = (Ok secondary, w')
    ∧ py_float (PyNum 5) = Ok 5%Q
    ∧ (Qabs 5 <= float_max)%Q
    ∧ py_getitem secondary "snow_inches" = Ok (PyNum snow_inches)
    ∧ py_setitem secondary "resort" (PyStr "Test Resort") = Ok observation
    ∧ verify_with_secondary_source default_settings http_fallback_only stub_md5
        stub_json_dumps stub_isoformat stub_format
        "Test Resort" (PyNum 40) (PyNum (-111)) (PyNum 5) noon
      = (Ok (Qle_bool (Qabs (float_sub 5 snow_inches))
               (VERIFICATION_THRESHOLD default_settings),
             Some observation), w')
    ∧ (Qle_bool (Qabs (float_sub 5 snow_inches))
         (VERIFICATION_THRESHOLD default_settings) = true
       ↔ (Qabs (float_sub 5 snow_inches)
          <= VERIFICATION_THRESHOLD default_settings)%Q).
Proof.
  destruct (verify_with_secondary_source_silent default_settings
              http_fallback_only stub_md5 stub_json_dumps stub_isoformat
              stub_format "Test Resort" (PyNum 40) (PyNum (-111)) (PyNum 5) noon)
    as (_ & _ & _ & Hok).
  assert (∃ secondary w',
            secondary_fetch default_settings http_fallback_only stub_md5
              stub_json_dumps stub_isoformat stub_format (PyNum 40) (PyNum (-111))
              {| w_now := (w_now noon + 1)%Q;
                 w_trace := w_trace noon ++ [EvSleep 1] |}
            = (Ok secondary, w')) as (secondary & w' & Hfetch)
    by (vm_compute; eexists _, _; reflexivity).
  assert (Qabs 5 <= float_max)%Q as Hmax by (vm_compute; discriminate).
  destruct (Hok secondary w' 5%Q Hfetch eq_refl Hmax)
    as (snow_inches & observation & H1 & H2 & H3 & H4).
  exists secondary, w', snow_inches, observation.
  split; [exact Hfetch|]. split; [reflexivity|]. split; [exact Hmax|].
  split; [exact H1|]. split; [exact H2|]. split; [exact H3|exact H4].
Defined.

Lemma fallback_observation_has_no_forecast_witness :
  ∃ s1 e secondary w2 current_snow current_temp conditions,
    get_snow_data_free_endpoints default_settings http_fallback_only stub_md5
      stub_json_dumps stub_isoformat (PyNum 40) (PyNum (-111))
      (OpenWeatherMapClient__init__ default_settings None true, noon)
    = (Raise e, s1)
    ∧ fallback_fetch default_settings http_fallback_only stub_md5 stub_json_dumps
        stub_isoformat stub_format (PyNum 40) (PyNum (-111)) (snd s1)
      = (Ok secondary, w2)
    ∧ OpenWeatherMapClient_get_snow_data default_settings http_fallback_only
        stub_md5 stub_json_dumps stub_isoformat stub_format
        (PyNum 40) (PyNum (-111))
        (OpenWeatherMapClient__init__ default_settings None true, noon)
      = (Ok (PyDict [("current_snow", PyNum current_snow);
                     ("forecast_snow", PyNum 0);
                     ("current_temp", current_temp);
                     ("conditions", conditions);
                     ("timestamp", PyStr (stub_isoformat (w_now w2)));
                     ("source", PyStr "Fallback: WeatherAPI.com")]),
         (fst s1, w2))
    ∧ (current_snow + 0 == current_snow)%Q.
Proof.
  assert (∃ e s1,
            get_snow_data_free_endpoints default_settings http_fallback_only
              stub_md5 stub_json_dumps stub_isoformat (PyNum 40) (PyNum (-111))
              (OpenWeatherMapClient__init__ default_settings None true, noon)
            = (Raise e, s1)) as (e & s1 & Hfree)
    by (vm_compute; eexists _, _; reflexivity).
  assert (∃ secondary w2,
            fallback_fetch default_settings http_fallback_only stub_md5
              stub_json_dumps stub_isoformat stub_format (PyNum 40) (PyNum (-111))
              (snd s1)
            = (Ok secondary, w2)) as (secondary & w2 & Hfetch).
  { vm_compute in Hfree. injection Hfree as _ <-.
    vm_compute. eexists _, _. reflexivity. }
  destruct (fallback_observation_has_no_forecast default_settings
              http_fallback_only stub_md5 stub_json_dumps stub_isoformat
              stub_format (PyNum 40) (PyNum (-111)) _ s1 e secondary w2
              Hfree Hfetch)
    as (current_snow & current_temp & conditions & Hrun & _ & _ & Hzero).
  exists s1, e, secondary, w2, current_snow, current_temp, conditions.
  split; [exact Hfree|]. split; [exact Hfetch|].
  split; [exact Hrun|exact Hzero].
Defined.

(** * Further properties *)

(** ** Counting the events of a run *)

Lemma count_gets_app evs1 evs2 :
  count_gets (evs1 ++ evs2) = count_gets evs1 + count_gets evs2.
Proof. unfold count_gets. by rewrite filter_app, length_app. Qed.

Lemma count_sleeps_app evs1 evs2 :
  count_sleeps (evs1 ++ evs2) = count_sleeps evs1 + count_sleeps evs2.
Proof. unfold count_sleeps. by rewrite filter_app, length_app. Qed.

Lemma count_gets_cons ev evs :
  count_gets (ev :: evs) = (if is_get ev then 1 else 0) + count_gets evs.
Proof. change (ev :: evs) with ([ev] ++ evs). rewrite count_gets_app. by destruct ev. Qed.

Lemma count_sleeps_cons ev evs :
  count_sleeps (ev :: evs) = (if is_get ev then 0 else 1) + count_sleeps evs.
Proof. change (ev :: evs) with ([ev] ++ evs). rewrite count_sleeps_app. by destruct ev. Qed.

Lemma retry_schedule_S url params base_delay n :
  retry_schedule url params base_delay (S n)
  = before_attempt url params base_delay (S n) ++ [EvGet url params].
Proof.
  unfold before_attempt, retry_schedule. simpl pred.
  rewrite seq_S, flat_map_app. simpl. rewrite app_nil_r.
  unfold attempt_events at 2. by rewrite <- app_assoc.
Qed.

Lemma count_gets_nil : count_gets [] = 0.
Proof. done. Qed.

Lemma count_sleeps_nil : count_sleeps [] = 0.
Proof. done. Qed.

Ltac count_events :=
  rewrite ?count_gets_app, ?count_sleeps_app, ?count_gets_cons,
    ?count_sleeps_cons, ?count_gets_nil, ?count_sleeps_nil;
  simpl is_get; cbv iota; lia.

Section RequestBudget.
Context (cfg : settings)
        (http_get : list event → string → pyval → Q * result pyval)
        (md5_hexdigest : string → string)
        (json_dumps_sorted : pyval → string).

Local Abbreviation loop := (request_loop cfg http_get md5_hexdigest json_dumps_sorted).
Local Abbreviation make_request := (_make_request cfg http_get md5_hexdigest json_dumps_sorted).
Local Abbreviation cache_key_of := (_get_cache_key md5_hexdigest json_dumps_sorted).

(** What a run of the loop does, whatever the network answers. *)
Lemma request_loop_run url endpoint params max_retries retry_delay k :
  ∀ retries last_exception c w r c' w',
    k = Z.to_nat (max_retries - retries) →
    loop url endpoint params max_retries retry_delay
      k retries last_exception (c, w) = (r, (c', w')) →
    ∃ evs,
      w_trace w' = w_trace w ++ evs
      ∧ count_gets evs ≤ k
      ∧ (1 ≤ k → 1 ≤ count_gets evs)
      ∧ count_sleeps evs ≤ pred (count_gets evs)
      ∧ (c' = c
         ∨ (cache_enabled c = true
            ∧ ∃ v, r = Ok v
                   ∧ c' = store_response cfg c (cache_key_of endpoint params) v
                            (w_now w'))
         ∨ (cache_enabled c = true
            ∧ is_datetime (w_now w' + timedelta_seconds (CACHE_TTL cfg)) = false
            ∧ ∃ v msg, r = Raise (OverflowError msg)
                       ∧ c' = store_payload c (cache_key_of endpoint params) v)).
Proof.
  induction k as [|k IH]; intros retries last c w r c' w' Hk Hrun.
  - simpl in Hrun. unfold raise in Hrun. injection Hrun as <- <- <-.
    exists []. rewrite app_nil_r. split_and!; try done; try count_events. by left.
  - rewrite request_loop_step in Hrun. cbv zeta in Hrun.
    set (w1 := {| w_now := (w_now w + fst (http_get (w_trace w) url params))%Q;
                  w_trace := w_trace w ++ [EvGet url params] |}) in *.
    destruct (snd (http_get (w_trace w) url params)) as [data|e].
    { exists [EvGet url params].
      destruct (cache_enabled c) eqn:Hen.
      - destruct (_cache_response_cases cfg (cache_key_of endpoint params) data
                    c w1) as [[_ Hst]|[Hrange [msg Hst]]];
          rewrite Hst in Hrun; injection Hrun as <- <- <-;
          split_and!; try done; try count_events.
        + right; left. split; [done|]. by exists data.
        + right; right. split; [done|]. split; [done|]. by exists data, msg.
      - injection Hrun as <- <- <-.
        split_and!; try done; try count_events. by left. }
    destruct (is_RequestException e).
    2:{ injection Hrun as <- <- <-. exists [EvGet url params].
        split_and!; try done; try count_events. by left. }
    destruct (retries + 1 <? max_retries)%Z eqn:Hlt.
    + destruct (py_mul_pow2 _ _) as [d|e'].
      2:{ injection Hrun as <- <- <-. exists [EvGet url params].
          split_and!; try done; try count_events. by left. }
      destruct (time_sleep_cases d w1) as [Hsl|[e' Hsl]]; rewrite Hsl in Hrun.
      2:{ injection Hrun as <- <- <-. exists [EvGet url params].
          split_and!; try done; try count_events. by left. }
      apply Z.ltb_lt in Hlt.
      apply IH in Hrun as (evs & Htr & Hle & Hge & Hsl' & Hc); [|lia].
      simpl in Htr. eexists (EvGet url params :: EvSleep _ :: evs).
      split; [by rewrite Htr, <- !app_assoc|].
      rewrite !count_gets_cons, !count_sleeps_cons. simpl is_get. cbv iota.
      assert (1 ≤ count_gets evs) by (apply Hge; lia).
      split_and!; try lia. exact Hc.
    + apply Z.ltb_ge in Hlt.
      apply IH in Hrun as (evs & Htr & Hle & Hge & Hsl & Hc); [|lia].
      simpl in Htr. exists (EvGet url params :: evs).
      split; [by rewrite Htr, <- !app_assoc|].
      rewrite !count_gets_cons, !count_sleeps_cons. simpl is_get. cbv iota.
      assert (k = 0) as -> by lia.
      assert (count_gets evs = 0) as Hz by lia. rewrite Hz in *.
      split_and!; try lia. exact Hc.
Qed.

Lemma _make_request_run endpoint params max_retries retry_delay c w r c' w' :
  make_request endpoint params max_retries retry_delay (c, w) = (r, (c', w')) →
  ∃ evs,
    w_trace w' = w_trace w ++ evs
    ∧ count_gets evs ≤ Z.to_nat max_retries
    ∧ count_sleeps evs ≤ pred (count_gets evs)
    ∧ (c' = c
       ∨ (cache_enabled c = true
          ∧ ∃ v, r = Ok v
                 ∧ c' = store_response cfg c
                          (cache_key_of endpoint (params_or_empty params)) v
                          (w_now w'))
       ∨ (cache_enabled c = true
          ∧ is_datetime (w_now w' + timedelta_seconds (CACHE_TTL cfg)) = false
          ∧ ∃ v msg, r = Raise (OverflowError msg)
                     ∧ c' = store_payload c
                              (cache_key_of endpoint (params_or_empty params)) v)).
Proof.
  destruct (cache_enabled c
            && cache_fresh c (w_now w)
                 (cache_key_of endpoint (params_or_empty params))) eqn:Hhit.
  - apply andb_true_iff in Hhit as [Hen Hfresh].
    unfold _make_request.
    unfold mbind at 1, M_bind at 1, self at 1. simpl fst.
    unfold mbind at 1, M_bind at 1. rewrite Hen, _is_cache_valid_fresh, Hfresh.
    unfold pure. intros [= <- <- <-]. exists []. rewrite app_nil_r.
    split_and!; try done; try count_events. by left.
  - rewrite (_make_request_miss _ _ _ _ _ _ _ _ _ _ Hhit). intros Hrun.
    apply request_loop_run in Hrun as (evs & Htr & Hle & _ & Hsl & Hc); [|lia].
    by exists evs.
Qed.

(** X1.  [_make_request] sends at most [max_retries] requests, none when
    [max_retries] is zero or negative, and sleeps only between two of its
    requests: fewer times than it sends. *)
Theorem make_request_budget
    (c : client) (w : world) (endpoint : string) (params : pyval)
    (max_retries : Z) (retry_delay : Q) :
  let out := make_request endpoint params max_retries retry_delay (c, w) in
  ∃ evs,
    w_trace (snd (snd out)) = w_trace w ++ evs
    ∧ count_gets evs ≤ Z.to_nat max_retries
    ∧ count_sleeps evs ≤ pred (count_gets evs).
Proof.
  intros out. destruct out as [r [c' w']] eqn:E. subst out. simpl.
  apply _make_request_run in E as (evs & Htr & Hle & Hsl & _). by exists evs.
Qed.

(** X2.  The only change [_make_request] ever makes to its client is to
    store a payload under the key of the request, and only with caching
    enabled: the payload it returns, with its expiry; or, when the
    expiry [now + CACHE_TTL] is not a [datetime], a payload alone, the
    call raising [OverflowError].  Any other call, returning or raising,
    leaves the client as it was. *)
Theorem make_request_only_stores_its_answer
    (c : client) (w : world) (endpoint : string) (params : pyval)
    (max_retries : Z) (retry_delay : Q) :
  let out := make_request endpoint params max_retries retry_delay (c, w) in
  let c' := fst (snd out) in
  let cache_key := cache_key_of endpoint (params_or_empty params) in
  c' = c
  ∨ (cache_enabled c = true
     ∧ ∃ v, fst out = Ok v
            ∧ c' = store_response cfg c cache_key v (w_now (snd (snd out))))
  ∨ (cache_enabled c = true
     ∧ is_datetime (w_now (snd (snd out)) + timedelta_seconds (CACHE_TTL cfg))
       = false
     ∧ ∃ v msg, fst out = Raise (OverflowError msg)
                ∧ c' = store_payload c cache_key v).
Proof.
  intros out c' cache_key. subst c' cache_key.
  destruct out as [r [c' w']] eqn:E. subst out. simpl.
  by apply _make_request_run in E as (evs & _ & _ & _ & Hc).
Qed.

(** X3.  An error of the request that is not a [RequestException] is not
    retried: it leaves [_make_request] after the one request, with no
    sleep and nothing stored. *)
Theorem other_errors_are_not_retried
    (c : client) (w : world) (endpoint : string) (params : pyval)
    (max_retries : Z) (retry_delay : Q) (e : exn) :
  let params' := params_or_empty params in
  let url := base_url c +:+ "/" +:+ endpoint in
  cache_enabled c && cache_fresh c (w_now w) (cache_key_of endpoint params')
  = false →
  (1 <= max_retries)%Z →
  snd (http_get (w_trace w) url params') = Raise e →
  is_RequestException e = false →
  make_request endpoint params max_retries retry_delay (c, w)
  = (Raise e,
     (c, {| w_now := (w_now w + fst (http_get (w_trace w) url params'))%Q;
            w_trace := w_trace w ++ [EvGet url params'] |})).
Proof.
  intros params' url Hmiss Hmax Hget He.
  rewrite (_make_request_miss _ _ _ _ _ _ _ _ _ _ Hmiss). fold params' url.
  destruct (Z.to_nat max_retries) as [|k] eqn:Hk; [lia|].
  rewrite request_loop_step. cbv zeta. by rewrite Hget, He.
Qed.

(** X4.  With [max_retries] zero or negative and no fresh cache entry,
    [_make_request] sends nothing and raises a plain [Exception] that
    names the URL. *)
Theorem make_request_without_attempts
    (c : client) (w : world) (endpoint : string) (params : pyval)
    (max_retries : Z) (retry_delay : Q) :
  let params' := params_or_empty params in
  let url := base_url c +:+ "/" +:+ endpoint in
  cache_enabled c && cache_fresh c (w_now w) (cache_key_of endpoint params')
  = false →
  (max_retries <= 0)%Z →
  make_request endpoint params max_retries retry_delay (c, w)
  = (Raise (Exception ("Request to " +:+ url +:+ " failed for unknown reason")),
     (c, w)).
Proof.
  intros params' url Hmiss Hmax.
  rewrite (_make_request_miss _ _ _ _ _ _ _ _ _ _ Hmiss).
  by replace (Z.to_nat max_retries) with 0 by lia.
Qed.

Lemma time_sleep_negative seconds w :
  (- sleep_limit <= seconds)%Q → (seconds < 0)%Q →
  time_sleep seconds w
  = (Raise (ValueError "sleep length must be non-negative"), w).
Proof.
  intros Hlimit Hneg. unfold time_sleep, sleep_overflows, sleep_limit in *.
  assert (Qle_bool (- inject_Z (2 ^ 63)) (seconds * 1000000000) = true) as ->.
  { apply Qle_bool_iff.
    change (inject_Z (2 ^ 63)) with 9223372036854775808%Q. lra. }
  assert (Qlt_bool (seconds * 1000000000) (inject_Z (2 ^ 63)) = true) as ->.
  { apply Qlt_bool_iff.
    change (inject_Z (2 ^ 63)) with 9223372036854775808%Q. lra. }
  simpl. by replace (Qlt_bool seconds 0) with true
    by (symmetry; by apply Qlt_bool_iff).
Qed.

(** X5.  A negative [retry_delay], of at most [sleep_limit] seconds in
    absolute value, makes the first retry fail in [time.sleep]: after one
    failed request the call raises [ValueError] and sends nothing more. *)
Theorem negative_delay_aborts
    (c : client) (w : world) (endpoint : string) (params : pyval)
    (max_retries : Z) (retry_delay : Q) (msg : string) :
  let params' := params_or_empty params in
  let url := base_url c +:+ "/" +:+ endpoint in
  cache_enabled c && cache_fresh c (w_now w) (cache_key_of endpoint params')
  = false →
  (2 <= max_retries)%Z →
  (retry_delay < 0)%Q →
  (- sleep_limit <= retry_delay)%Q →
  snd (http_get (w_trace w) url params') = Raise (RequestException msg) →
  make_request endpoint params max_retries retry_delay (c, w)
  = (Raise (ValueError "sleep length must be non-negative"),
     (c, {| w_now := (w_now w + fst (http_get (w_trace w) url params'))%Q;
            w_trace := w_trace w ++ [EvGet url params'] |})).
Proof.
  intros params' url Hmiss Hmax Hneg Hlimit Hget.
  rewrite (_make_request_miss _ _ _ _ _ _ _ _ _ _ Hmiss). fold params' url.
  destruct (Z.to_nat max_retries) as [|k] eqn:Hk; [lia|].
  rewrite request_loop_step. cbv zeta. rewrite Hget. simpl is_RequestException.
  cbv iota. replace (0 + 1 <? max_retries)%Z with true
    by (symmetry; apply Z.ltb_lt; lia).
  change (py_mul_pow2 retry_delay (0 + 1 - 1)) with (Ok (retry_delay * 1)%Q).
  cbv iota. rewrite time_sleep_negative; [done| |]; lra.
Qed.

(** The loop from attempt [i + 1] on, when the attempts up to [j] fail
    and attempt [j + 1] is answered: that answer is what the call ends
    with, once it is stored. *)
Lemma request_loop_recovers url endpoint params max_retries retry_delay
    T0 j v elapsed :
  (0 <= retry_delay)%Q → (Z.of_nat j < max_retries)%Z →
  (Z.of_nat j <= 1024)%Z →
  (retry_delay * inject_Z (2 ^ (Z.of_nat j - 1)) <= sleep_limit)%Q →
  (∀ k, 1 ≤ k ≤ j →
     ∃ msg, snd (http_get (T0 ++ before_attempt url params retry_delay k)
                   url params)
            = Raise (RequestException msg)) →
  http_get (T0 ++ before_attempt url params retry_delay (S j)) url params
  = (elapsed, Ok v) →
  ∀ m i last_exception c w,
    i + m = j →
    w_trace w = T0 ++ before_attempt url params retry_delay (S i) →
    ∃ w',
      loop url endpoint params max_retries retry_delay
        (Z.to_nat max_retries - i) (Z.of_nat i) last_exception (c, w)
      = (if cache_enabled c then
           match _cache_response cfg (cache_key_of endpoint params) v (c, w')
           with
           | (Ok _, s1) => (Ok v, s1)
           | (Raise e, s1) => (Raise e, s1)
           end
         else (Ok v, (c, w')))
      ∧ w_trace w' = T0 ++ retry_schedule url params retry_delay (S j).
Proof.
  intros Hdelay Hj Hj' Hlimit Hfail Hok m.
  induction m as [|m IH]; intros i last c w Him Htr.
  - assert (i = j) as -> by lia.
    destruct (Z.to_nat max_retries - j) as [|k] eqn:Hk; [lia|].
    rewrite request_loop_step. cbv zeta. rewrite Htr, Hok. simpl.
    exists {| w_now := (w_now w + elapsed)%Q;
              w_trace := (T0 ++ before_attempt url params retry_delay (S j))
                         ++ [EvGet url params] |}.
    split; [done|]. simpl.
    by rewrite retry_schedule_S, app_assoc.
  - destruct (Z.to_nat max_retries - i) as [|k] eqn:Hk; [lia|].
    destruct (Hfail (S i)) as [msg Hmsg]; [lia|].
    rewrite request_loop_step. cbv zeta. rewrite Htr, Hmsg.
    simpl is_RequestException. cbv iota.
    replace (Z.of_nat i + 1 <? max_retries)%Z with true
      by (symmetry; apply Z.ltb_lt; lia).
    destruct (py_mul_pow2_Ok retry_delay (Z.of_nat j + 1) (Z.of_nat i + 1 - 1)
                Hdelay) as (Hpow & Hd0 & Hdl).
    { lia. }
    { by replace (Z.of_nat j + 1 - 2)%Z with (Z.of_nat j - 1)%Z by lia. }
    { lia. }
    rewrite Hpow. rewrite (time_sleep_Ok _ _ Hd0 Hdl).
    replace k with (Z.to_nat max_retries - S i) by lia.
    replace (Z.of_nat i + 1)%Z with (Z.of_nat (S i)) by lia.
    apply IH; [lia|]. simpl w_trace.
    rewrite <- !app_assoc. f_equal.
    rewrite (app_assoc _ [EvGet url params]), <- retry_schedule_S.
    unfold before_attempt at 1. simpl pred.
    replace (2 <=? S (S i))%nat with true by done.
    do 2 f_equal. unfold backoff_delay. do 4 f_equal. lia.
Qed.

(** X6.  When the first [j] attempts fail with a transport or HTTP error
    and attempt [j+1] is answered, [j] being less than [max_retries], the
    base delay not negative and the delays slept ones that [time.sleep]
    accepts: [_make_request] sends exactly [j+1] requests, having slept
    [retry_delay * 2^(k-2)] before each attempt [k >= 2], and returns
    that answer -- unchanged client without caching; the answer stored
    with caching, provided its expiry is a [datetime], the call raising
    [OverflowError] otherwise. *)
Theorem make_request_recovers
    (c : client) (w : world) (endpoint : string) (params : pyval)
    (max_retries : Z) (retry_delay : Q) (j : nat) (v : pyval) (elapsed : Q) :
  let params' := params_or_empty params in
  let url := base_url c +:+ "/" +:+ endpoint in
  cache_enabled c && cache_fresh c (w_now w) (cache_key_of endpoint params')
  = false →
  (0 <= retry_delay)%Q →
  (Z.of_nat j < max_retries)%Z →
  (Z.of_nat j <= 1024)%Z →
  (retry_delay * inject_Z (2 ^ (Z.of_nat j - 1)) <= sleep_limit)%Q →
  (∀ k, 1 ≤ k ≤ j →
     ∃ msg, snd (http_get (w_trace w ++ before_attempt url params' retry_delay k)
                   url params')
            = Raise (RequestException msg)) →
  http_get (w_trace w ++ before_attempt url params' retry_delay (S j)) url params'
  = (elapsed, Ok v) →
  ∃ r c' w',
    make_request endpoint params max_retries retry_delay (c, w) = (r, (c', w'))
    ∧ w_trace w' = w_trace w ++ retry_schedule url params' retry_delay (S j)
    ∧ count_gets (retry_schedule url params' retry_delay (S j)) = S j
    ∧ (cache_enabled c = false → r = Ok v ∧ c' = c)
    ∧ (cache_enabled c = true →
       is_datetime (w_now w' + timedelta_seconds (CACHE_TTL cfg)) = true →
       r = Ok v
       ∧ c' = store_response cfg c (cache_key_of endpoint params') v (w_now w'))
    ∧ (cache_enabled c = true →
       is_datetime (w_now w' + timedelta_seconds (CACHE_TTL cfg)) = false →
       ∃ msg, r = Raise (OverflowError msg)).
Proof.
  intros params' url Hmiss Hdelay Hj Hj' Hlimit Hfail Hok.
  rewrite (_make_request_miss _ _ _ _ _ _ _ _ _ _ Hmiss). fold params' url.
  destruct (request_loop_recovers url endpoint params' max_retries retry_delay
              (w_trace w) j v elapsed Hdelay Hj Hj' Hlimit Hfail Hok j 0 None c w)
    as (w' & Hrun & Htr); [done|by rewrite app_nil_r|].
  rewrite Nat.sub_0_r in Hrun. change (Z.of_nat 0) with 0%Z in Hrun.
  rewrite Hrun.
  destruct (cache_enabled c) eqn:Hen.
  - destruct (_cache_response_cases cfg (cache_key_of endpoint params') v c w')
      as [[Hrange ->]|[Hrange [msg ->]]].
    + eexists _, _, w'. split; [done|]. split; [exact Htr|].
      split; [apply retry_schedule_count|]. split; [done|].
      split; [done|]. intros _ Hno. congruence.
    + eexists _, _, w'. split; [done|]. split; [exact Htr|].
      split; [apply retry_schedule_count|]. split; [done|].
      split; [intros _ Hyes; congruence|]. intros _ _. by exists msg.
  - eexists _, _, w'. split; [done|]. split; [exact Htr|].
    split; [apply retry_schedule_count|]. done.
Qed.

(** X7.  An answer fetched with caching enabled is served again: until
    [CACHE_TTL] seconds after it was stored, a call for the same endpoint
    and parameters on that client returns the same payload and leaves
    client and world as they are, so it sends nothing. *)
Theorem cached_answer_is_served
    (c : client) (w : world) (endpoint : string) (params : pyval)
    (max_retries : Z) (retry_delay : Q) (v : pyval) (c' : client) (w' : world) :
  cache_enabled c = true →
  cache_fresh c (w_now w) (cache_key_of endpoint (params_or_empty params))
  = false →
  make_request endpoint params max_retries retry_delay (c, w) = (Ok v, (c', w')) →
  ∀ w2 max_retries2 retry_delay2,
    (w_now w2 < w_now w' + timedelta_seconds (CACHE_TTL cfg))%Q →
    make_request endpoint params max_retries2 retry_delay2 (c', w2)
    = (Ok v, (c', w2)).
Proof.
  intros Hen Hstale Hrun w2 max2 delay2 Hlt.
  rewrite _make_request_miss in Hrun by (rewrite Hstale; apply andb_false_r).
  apply request_loop_ok in Hrun as (evs & el & _ & _ & ->). rewrite Hen.
  eapply _make_request_hit; [done| | |exact Hlt]; simpl;
    by rewrite lookup_insert_eq.
Qed.

End RequestBudget.

(** *** On the inputs of the test suite *)

Lemma other_errors_are_not_retried_witness :
  _make_request default_settings http_other_error stub_md5 stub_json_dumps
    "test" test_params 3 1 (test_client, noon)
  = (Raise (ValueError "Expecting value"),
     (test_client,
      {| w_now := (w_now noon + 0.1)%Q;
         w_trace := [EvGet "https://api.example.com/test" test_params] |})).
Proof.
  apply (other_errors_are_not_retried default_settings http_other_error
           stub_md5 stub_json_dumps test_client noon "test" test_params 3 1
           (ValueError "Expecting value")).
  - vm_compute. reflexivity.
  - lia.
  - reflexivity.
  - reflexivity.
Defined.

Lemma make_request_without_attempts_witness :
  _make_request default_settings http_500 stub_md5 stub_json_dumps
    "test" test_params 0 1 (test_client, noon)
  = (Raise (Exception
              "Request to https://api.example.com/test failed for unknown reason"),
     (test_client, noon)).
Proof.
  apply (make_request_without_attempts default_settings http_500
           stub_md5 stub_json_dumps test_client noon "test" test_params 0 1).
  - vm_compute. reflexivity.
  - lia.
Defined.

Lemma negative_delay_aborts_witness :
  _make_request default_settings http_500 stub_md5 stub_json_dumps
    "test" test_params 3 (-1) (test_client, noon)
  = (Raise (ValueError "sleep length must be non-negative"),
     (test_client,
      {| w_now := (w_now noon + 0)%Q;
         w_trace := [EvGet "https://api.example.com/test" test_params] |})).
Proof.
  apply (negative_delay_aborts default_settings http_500
           stub_md5 stub_json_dumps test_client noon "test" test_params 3 (-1)
           "500 Server Error").
  - vm_compute. reflexivity.
  - lia.
  - reflexivity.
  - unfold Qle; simpl; lia.
  - reflexivity.
Defined.

Lemma make_request_recovers_witness :
  ∃ c' w',
    _make_request default_settings http_third_time stub_md5 stub_json_dumps
      "test" test_params 3 1 (test_client, noon)
    = (Ok (PyDict [("result", PyStr "success")]), (c', w'))
    ∧ c' = store_response default_settings test_client
             (stub_md5 ("test" +:+ ":" +:+ stub_json_dumps test_params))
             (PyDict [("result", PyStr "success")]) (w_now w')
    ∧ w_trace w'
      = w_trace noon
        ++ retry_schedule "https://api.example.com/test" test_params 1 3
    ∧ count_gets (retry_schedule "https://api.example.com/test" test_params 1 3)
      = 3.
Proof.
  destruct (make_request_recovers default_settings http_third_time
              stub_md5 stub_json_dumps test_client noon "test" test_params 3 1
              2 (PyDict [("result", PyStr "success")]) 0.1%Q)
    as (r & c' & w' & Hrun & Htr & Hcount & _ & Hstored & _).
  - vm_compute. reflexivity.
  - unfold Qle; simpl; lia.
  - lia.
  - lia.
  - unfold Qle; simpl; lia.
  - intros k Hk. exists "500 Server Error".
    assert (k = 1 ∨ k = 2) as [-> | ->] by lia; vm_compute; reflexivity.
  - vm_compute. reflexivity.
  - destruct Hstored as [Hr Hc]; [reflexivity| |].
    + vm_compute in Hrun. injection Hrun as _ _ <-. reflexivity.
    + subst r. exists c', w'.
      split; [exact Hrun|]. split; [exact Hc|]. split; [exact Htr|exact Hcount].
Defined.

Lemma cached_answer_is_served_witness :
  let fetch :=
    _make_request default_settings http_eight_inches stub_md5 stub_json_dumps
      "test" test_params in
  ∃ v c' w',
    fetch 3%Z 1%Q (test_client, noon) = (Ok v, (c', w'))
    ∧ count_gets (w_trace w') = 1
    ∧ fetch 3%Z 1%Q (c', {| w_now := (w_now w' + 299)%Q; w_trace := w_trace w' |})
      = (Ok v, (c', {| w_now := (w_now w' + 299)%Q; w_trace := w_trace w' |})).
Proof.
  intros fetch.
  set (v := weatherapi_day (PyNum 20.32)).
  set (w' := {| w_now := (w_now noon + 0.3)%Q;
                w_trace := [EvGet "https://api.example.com/test" test_params] |}).
  set (c' := store_response default_settings test_client
               (stub_md5 ("test" +:+ ":" +:+ stub_json_dumps test_params))
               v (w_now w')).
  assert (fetch 3%Z 1%Q (test_client, noon) = (Ok v, (c', w'))) as Hrun
    by (vm_compute; reflexivity).
  exists v, c', w'. split; [exact Hrun|]. split; [reflexivity|].
  apply (cached_answer_is_served default_settings http_eight_inches
           stub_md5 stub_json_dumps test_client noon "test" test_params 3 1%Q
           v c' w' eq_refl).
  - vm_compute. reflexivity.
  - exact Hrun.
  - reflexivity.
Defined.

(** ** Reading the forecast *)



(** ** Running a computation step by step *)

Lemma bind_Ok {S A B} (m : M S A) (f : A → M S B) s b s' :
  (m ≫= f) s = (Ok b, s') →
  ∃ a s1, m s = (Ok a, s1) ∧ f a s1 = (Ok b, s').
Proof.
  unfold mbind, M_bind. destruct (m s) as [[a|e] s1]; [|done].
  intros Hrun. by exists a, s1.
Qed.

Lemma bind_run {S A B} (m : M S A) (f : A → M S B) s a s1 :
  m s = (Ok a, s1) → (m ≫= f) s = f a s1.
Proof. intros Hm. unfold mbind, M_bind. by rewrite Hm. Qed.

Lemma bind_raise {S A B} (m : M S A) (f : A → M S B) s e s1 :
  m s = (Raise e, s1) → (m ≫= f) s = (Raise e, s1).
Proof. intros Hm. unfold mbind, M_bind. by rewrite Hm. Qed.

Lemma pure_Ok {S A} (r : result A) (s : S) a s' :
  pure r s = (Ok a, s') → r = Ok a ∧ s' = s.
Proof. by intros [= -> <-]. Qed.

(** ** The secondary source *)

Section Secondary.
Context (cfg : settings)
        (http_get : list event → string → pyval → Q * result pyval)
        (md5_hexdigest : string → string)
        (json_dumps_sorted : pyval → string)
        (isoformat : Q → string)
        (py_format : pyval → string).

(** X10.  An answer of WeatherAPI.com whose list of forecast days is empty
    makes the adapter raise [IndexError]. *)
Theorem weatherapi_without_days
    (lat lon : pyval) (s s1 : client * world)
    (kvs forecast : list (string * pyval)) :
  WeatherApiClient_get_forecast cfg http_get md5_hexdigest json_dumps_sorted
    py_format lat lon 1 s = (Ok (PyDict kvs), s1) →
  dict_lookup "forecast" kvs = Some (PyDict forecast) →
  dict_lookup "forecastday" forecast = Some (PyList []) →
  WeatherApiClient_get_snow_data cfg http_get md5_hexdigest json_dumps_sorted
    isoformat py_format lat lon s
  = (Raise (IndexError "list index out of range"), s1).
Proof.
  intros Hrun Hforecast Hdays. unfold WeatherApiClient_get_snow_data.
  rewrite (bind_run _ _ _ _ _ Hrun).
  apply bind_raise. unfold pure. simpl. rewrite Hforecast. simpl.
  by rewrite Hdays.
Qed.

End Secondary.

Lemma weatherapi_without_days_witness :
  ∃ s1,
    WeatherApiClient_get_snow_data default_settings http_no_days stub_md5
      stub_json_dumps stub_isoformat stub_format (PyNum 40) (PyNum (-111))
      (WeatherApiClient__init__ default_settings None true, noon)
    = (Raise (IndexError "list index out of range"), s1).
Proof.
  assert (∃ s1,
            WeatherApiClient_get_forecast default_settings http_no_days
              stub_md5 stub_json_dumps stub_format (PyNum 40) (PyNum (-111)) 1
              (WeatherApiClient__init__ default_settings None true, noon)
            = (Ok (PyDict [("forecast", PyDict [("forecastday", PyList [])])]),
               s1)) as (s1 & Hrun)
    by (vm_compute; eexists; reflexivity).
  exists s1.
  apply (weatherapi_without_days default_settings http_no_days stub_md5
           stub_json_dumps stub_isoformat stub_format _ _ _ _ _
           [("forecastday", PyList [])] Hrun);
    reflexivity.
Defined.

(** ** How many requests a call can send *)

Section Budget.
Context {S : Type} `{Traced S}.

Lemma sends_weaken {A} n n' (m : M S A) :
  sends_at_most n m → n ≤ n' → sends_at_most n' m.
Proof.
  intros Hm Hle s r s' Hrun. destruct (Hm _ _ _ Hrun) as (evs & Htr & Hn).
  exists evs. split; [done|lia].
Qed.

Lemma sends_ret {A} (a : A) : sends_at_most 0 (mret a : M S A).
Proof. intros s r s' [= <- <-]. exists []. by rewrite app_nil_r. Qed.

Lemma sends_pure {A} (r : result A) : sends_at_most 0 (pure r : M S A).
Proof. intros s r' s' [= <- <-]. exists []. by rewrite app_nil_r. Qed.

Lemma sends_raise {A} (e : exn) : sends_at_most 0 (raise e : M S A).
Proof. intros s r' s' [= <- <-]. exists []. by rewrite app_nil_r. Qed.

Lemma sends_bind {A B} n1 n2 (m : M S A) (f : A → M S B) :
  sends_at_most n1 m → (∀ a, sends_at_most n2 (f a)) →
  sends_at_most (n1 + n2) (m ≫= f).
Proof.
  intros Hm Hf s r s' Hrun. unfold mbind, M_bind in Hrun.
  destruct (m s) as [[a|e] s1] eqn:E.
  - destruct (Hm _ _ _ E) as (evs1 & H1 & Hn1).
    destruct (Hf _ _ _ _ Hrun) as (evs2 & H2 & Hn2).
    exists (evs1 ++ evs2). rewrite H2, H1, app_assoc, count_gets_app.
    split; [done|lia].
  - injection Hrun as <- <-. destruct (Hm _ _ _ E) as (evs1 & H1 & Hn1).
    exists evs1. split; [done|lia].
Qed.

Lemma sends_bind_free {A B} n (m : M S A) (f : A → M S B) :
  sends_at_most 0 m → (∀ a, sends_at_most n (f a)) →
  sends_at_most n (m ≫= f).
Proof. intros Hm Hf. by apply (sends_bind 0 n). Qed.

Lemma sends_try_except {A} n1 n2 catches (m : M S A) (h : exn → M S A) :
  sends_at_most n1 m → (∀ e, sends_at_most n2 (h e)) →
  sends_at_most (n1 + n2) (try_except catches m h).
Proof.
  intros Hm Hh s r s' Hrun. unfold try_except in Hrun.
  destruct (m s) as [[a|e] s1] eqn:E.
  - injection Hrun as <- <-. destruct (Hm _ _ _ E) as (evs1 & H1 & Hn1).
    exists evs1. split; [done|lia].
  - destruct (Hm _ _ _ E) as (evs1 & H1 & Hn1). destruct (catches e).
    + destruct (Hh _ _ _ _ Hrun) as (evs2 & H2 & Hn2).
      exists (evs1 ++ evs2). rewrite H2, H1, app_assoc, count_gets_app.
      split; [done|lia].
    + injection Hrun as <- <-. exists evs1. split; [done|lia].
Qed.

End Budget.

Lemma sends_lift_world {A} n (m : M world A) :
  sends_at_most n m → sends_at_most n (lift_world m).
Proof.
  intros Hm [c w] r [c' w'] Hrun. unfold lift_world in Hrun. simpl in Hrun.
  destruct (m w) as [r1 w1] eqn:E. injection Hrun as <- <- <-.
  by eapply Hm.
Qed.

Lemma sends_on_new_object {A} n c (m : M (client * world) A) :
  sends_at_most n m → sends_at_most n (on_new_object c m).
Proof.
  intros Hm w r w' Hrun. unfold on_new_object in Hrun.
  destruct (m (c, w)) as [r1 [c1 w1]] eqn:E. injection Hrun as <- <-.
  by apply (Hm _ _ _ E).
Qed.

Lemma sends_in_world {A} n (m : M world A) :
  sends_at_most n m → sends_at_most n (in_world (X := processor) m).
Proof.
  intros Hm [p w] r [p' w'] Hrun. unfold in_world in Hrun. simpl in Hrun.
  destruct (m w) as [r1 w1] eqn:E. injection Hrun as <- <- <-.
  by eapply Hm.
Qed.

Lemma sends_in_object {A} n (m : M (processor * world) A) :
  sends_at_most n m
  → sends_at_most n (in_object (L := list (string * pyval)) m).
Proof.
  intros Hm [l s] r [l' s'] Hrun. unfold in_object in Hrun. simpl in Hrun.
  destruct (m s) as [r1 s1] eqn:E. injection Hrun as <- <- <-.
  by eapply Hm.
Qed.

Lemma sends_self : sends_at_most 0 self.
Proof. intros s r s' [= <- <-]. exists []. by rewrite app_nil_r. Qed.

Lemma sends_datetime_now : sends_at_most 0 datetime_now.
Proof. intros s r s' [= <- <-]. exists []. by rewrite app_nil_r. Qed.

Lemma sends_time_sleep seconds : sends_at_most 0 (time_sleep seconds).
Proof.
  intros w r w' Hrun.
  destruct (time_sleep_cases seconds w) as [Hsl|[e Hsl]]; rewrite Hsl in Hrun;
    injection Hrun as <- <-.
  - by eexists.
  - exists []. by rewrite app_nil_r.
Qed.

Lemma sends_result_set k v :
  sends_at_most 0 (result_set (S := processor * world) k v).
Proof. intros [l s] r s' [= <- <-]. exists []. by rewrite app_nil_r. Qed.

Create HintDb budget.
#[local] Hint Resolve sends_ret sends_pure sends_raise sends_self
  sends_datetime_now sends_time_sleep : budget.
#[local] Hint Extern 1 (sends_at_most 0 (lift_world _)) =>
  apply sends_lift_world : budget.
#[local] Hint Extern 1 (sends_at_most 0 (in_world _)) =>
  apply sends_in_world : budget.
#[local] Hint Extern 1 (sends_at_most 0 (in_object _)) =>
  apply sends_in_object : budget.
#[local] Hint Resolve sends_result_set : budget.

(** The steps that send nothing are skipped; what is left is a step that
    may send, or the end. *)
Ltac free_steps :=
  repeat match goal with
    | |- sends_at_most _ (_ ≫= _) =>
        apply sends_bind_free; [solve [auto with budget]|intros; cbv beta zeta]
    | |- sends_at_most _ (let '(_, _) := ?x in _) => destruct x
    end.

Ltac sends_nothing :=
  eapply sends_weaken; [solve [auto with budget]|lia].

Section EntryPointBudgets.
Context (cfg : settings)
        (http_get : list event → string → pyval → Q * result pyval)
        (md5_hexdigest : string → string)
        (json_dumps_sorted : pyval → string)
        (isoformat : Q → string)
        (py_format : pyval → string).

Lemma sends__make_request endpoint params max_retries retry_delay :
  sends_at_most (Z.to_nat max_retries)
    (_make_request cfg http_get md5_hexdigest json_dumps_sorted
       endpoint params max_retries retry_delay).
Proof.
  intros [c w] r [c' w'] Hrun.
  apply _make_request_run in Hrun as (evs & Htr & Hle & _).
  by exists evs.
Qed.

Lemma sends_default_request endpoint params :
  sends_at_most 3
    (_make_request cfg http_get md5_hexdigest json_dumps_sorted
       endpoint params max_retries_default retry_delay_default).
Proof. apply (sends__make_request endpoint params max_retries_default). Qed.

(** X11.  Each method that asks a provider sends at most three requests, the
    default of [max_retries]. *)
Theorem endpoint_methods_budget (lat lon : pyval) (exclude : string) (days : Z) :
  sends_at_most 3
    (OpenWeatherMapClient_get_current_weather cfg http_get md5_hexdigest
       json_dumps_sorted lat lon)
  ∧ sends_at_most 3
      (OpenWeatherMapClient_get_forecast cfg http_get md5_hexdigest
         json_dumps_sorted lat lon)
  ∧ sends_at_most 3
      (OpenWeatherMapClient_get_one_call_data cfg http_get md5_hexdigest
         json_dumps_sorted lat lon exclude)
  ∧ sends_at_most 3
      (WeatherApiClient_get_current_weather cfg http_get md5_hexdigest
         json_dumps_sorted py_format lat lon)
  ∧ sends_at_most 3
      (WeatherApiClient_get_forecast cfg http_get md5_hexdigest
         json_dumps_sorted py_format lat lon days).
Proof.
  split_and!;
    unfold OpenWeatherMapClient_get_current_weather,
      OpenWeatherMapClient_get_forecast, OpenWeatherMapClient_get_one_call_data,
      WeatherApiClient_get_current_weather, WeatherApiClient_get_forecast;
    free_steps; apply sends_default_request.
Qed.

Lemma sends_WeatherApiClient_get_snow_data lat lon :
  sends_at_most 3
    (WeatherApiClient_get_snow_data cfg http_get md5_hexdigest
       json_dumps_sorted isoformat py_format lat lon).
Proof.
  unfold WeatherApiClient_get_snow_data, WeatherApiClient_get_forecast.
  apply (sends_bind 3 0).
  - free_steps. apply sends_default_request.
  - intros data. free_steps. sends_nothing.
Qed.

Lemma sends_OpenWeatherMapClient_get_snow_data lat lon :
  sends_at_most 9
    (OpenWeatherMapClient_get_snow_data cfg http_get md5_hexdigest
       json_dumps_sorted isoformat py_format lat lon).
Proof.
  unfold OpenWeatherMapClient_get_snow_data.
  apply (sends_try_except 6 3).
  - unfold get_snow_data_free_endpoints.
    apply (sends_bind 3 3).
    { unfold OpenWeatherMapClient_get_current_weather. free_steps.
      apply sends_default_request. }
    intros current_data. apply (sends_bind 3 0).
    { unfold OpenWeatherMapClient_get_forecast. free_steps.
      apply sends_default_request. }
    intros forecast_data. free_steps. sends_nothing.
  - intros e. apply (sends_try_except 3 0).
    + unfold get_snow_data_fallback. apply (sends_bind 3 0).
      { apply sends_lift_world. unfold fallback_fetch.
        apply sends_on_new_object, sends_WeatherApiClient_get_snow_data. }
      intros secondary_data. free_steps. sends_nothing.
    + intros fallback_error. unfold get_snow_data_default.
      free_steps. sends_nothing.
Qed.

Lemma sends_get_resort_snow_data resort_name lat lon :
  sends_at_most 9
    (get_resort_snow_data cfg http_get md5_hexdigest json_dumps_sorted
       isoformat py_format resort_name lat lon).
Proof.
  unfold get_resort_snow_data. apply (sends_try_except 9 0).
  - apply (sends_bind 9 0).
    { apply sends_on_new_object, sends_OpenWeatherMapClient_get_snow_data. }
    intros snow_data. free_steps. sends_nothing.
  - intros e. sends_nothing.
Qed.

Lemma sends_verify_with_secondary_source resort_name lat lon primary :
  sends_at_most 3
    (verify_with_secondary_source cfg http_get md5_hexdigest json_dumps_sorted
       isoformat py_format resort_name lat lon primary).
Proof.
  unfold verify_with_secondary_source. apply (sends_try_except 3 0).
  - unfold verify_try_block. free_steps. apply (sends_bind 3 0).
    { unfold secondary_fetch.
      apply sends_on_new_object, sends_WeatherApiClient_get_snow_data. }
    intros secondary_data. free_steps.
    match goal with |- sends_at_most _ (if ?b then _ else _) => destruct b end;
      sends_nothing.
  - intros e. sends_nothing.
Qed.

(** X12.  Whatever the providers answer, [get_resort_snow_data] sends at most
    nine requests and [verify_with_secondary_source] at most three. *)
Theorem entry_points_budget
    (resort_name : string) (lat lon primary_snow_amount : pyval) :
  sends_at_most 9
    (get_resort_snow_data cfg http_get md5_hexdigest json_dumps_sorted
       isoformat py_format resort_name lat lon)
  ∧ sends_at_most 3
      (verify_with_secondary_source cfg http_get md5_hexdigest json_dumps_sorted
         isoformat py_format resort_name lat lon primary_snow_amount).
Proof.
  split.
  - apply sends_get_resort_snow_data.
  - apply sends_verify_with_secondary_source.
Qed.

End EntryPointBudgets.

(** ** The primary source always gives an observation *)

Section Primary.
Context (cfg : settings)
        (http_get : list event → string → pyval → Q * result pyval)
        (md5_hexdigest : string → string)
        (json_dumps_sorted : pyval → string)
        (isoformat : Q → string)
        (py_format : pyval → string).

Lemma lift_world_datetime_now_Ok (s s' : client * world) now :
  lift_world datetime_now s = (Ok now, s') → now = w_now (snd s) ∧ s' = s.
Proof. destruct s. by intros [= <- <-]. Qed.

Lemma get_snow_data_free_endpoints_ok lat lon s d s' :
  get_snow_data_free_endpoints cfg http_get md5_hexdigest json_dumps_sorted
    isoformat lat lon s = (Ok d, s') →
  ∃ current_snow forecast_snow current_temp conditions,
    d = PyDict [("current_snow", current_snow);
                ("forecast_snow", forecast_snow);
                ("current_temp", current_temp);
                ("conditions", conditions);
                ("timestamp", PyStr (isoformat (w_now (snd s'))));
                ("source", PyStr "OpenWeatherMap (Free API)")].
Proof.
  unfold get_snow_data_free_endpoints. intros Hrun.
  apply bind_Ok in Hrun as (current_data & s1 & _ & Hrun).
  apply bind_Ok in Hrun as (forecast_data & s2 & _ & Hrun).
  apply bind_Ok in Hrun as (current_snow & s3 & [_ ->]%pure_Ok & Hrun).
  apply bind_Ok in Hrun as (forecast_snow & s4 & [_ ->]%pure_Ok & Hrun).
  apply bind_Ok in Hrun as (current_temp & s5 & [_ ->]%pure_Ok & Hrun).
  apply bind_Ok in Hrun as (conditions & s6 & [_ ->]%pure_Ok & Hrun).
  apply bind_Ok in Hrun
    as (now & s7 & [-> ->]%lift_world_datetime_now_Ok & Hrun).
  injection Hrun as <- <-.
  by exists current_snow, forecast_snow, current_temp, conditions.
Qed.

Lemma get_snow_data_fallback_ok lat lon s d s' :
  get_snow_data_fallback cfg http_get md5_hexdigest json_dumps_sorted
    isoformat py_format lat lon s = (Ok d, s') →
  ∃ current_snow current_temp conditions,
    d = PyDict [("current_snow", current_snow);
                ("forecast_snow", PyNum 0);
                ("current_temp", current_temp);
                ("conditions", conditions);
                ("timestamp", PyStr (isoformat (w_now (snd s'))));
                ("source", PyStr "Fallback: WeatherAPI.com")].
Proof.
  unfold get_snow_data_fallback. intros Hrun.
  apply bind_Ok in Hrun as (secondary_data & s1 & _ & Hrun).
  apply bind_Ok in Hrun as (current_snow & s3 & [_ ->]%pure_Ok & Hrun).
  apply bind_Ok in Hrun as (current_temp & s5 & [_ ->]%pure_Ok & Hrun).
  apply bind_Ok in Hrun as (conditions & s6 & [_ ->]%pure_Ok & Hrun).
  apply bind_Ok in Hrun
    as (now & s7 & [-> ->]%lift_world_datetime_now_Ok & Hrun).
  injection Hrun as <- <-.
  by exists current_snow, current_temp, conditions.
Qed.

Lemma OpenWeatherMapClient_get_snow_data_total lat lon s :
  ∃ current_snow forecast_snow current_temp conditions label s',
    OpenWeatherMapClient_get_snow_data cfg http_get md5_hexdigest
      json_dumps_sorted isoformat py_format lat lon s
    = (Ok (PyDict [("current_snow", current_snow);
                   ("forecast_snow", forecast_snow);
                   ("current_temp", current_temp);
                   ("conditions", conditions);
                   ("timestamp", PyStr (isoformat (w_now (snd s'))));
                   ("source", PyStr label)]), s')
    ∧ In label source_labels
    ∧ (label ≠ "OpenWeatherMap (Free API)" → forecast_snow = PyNum 0).
Proof.
  unfold OpenWeatherMapClient_get_snow_data, try_except.
  destruct (get_snow_data_free_endpoints _ _ _ _ _ _ _ s) as [[d|e] s1] eqn:E1.
  { apply get_snow_data_free_endpoints_ok in E1 as (cs & fs & ct & cond & ->).
    exists cs, fs, ct, cond, "OpenWeatherMap (Free API)", s1.
    split; [done|]. split; [by left|done]. }
  simpl any_Exception. cbv iota.
  destruct (get_snow_data_fallback _ _ _ _ _ _ _ _ s1) as [[d|e2] s2] eqn:E2.
  { apply get_snow_data_fallback_ok in E2 as (cs & ct & cond & ->).
    exists cs, (PyNum 0), ct, cond, "Fallback: WeatherAPI.com", s2.
    split; [done|]. split; [right; by left|done]. }
  destruct s2 as [c2 w2].
  exists (PyNum 0), (PyNum 0), (PyNum 0), (PyStr "Error fetching data"),
    "Default values (API errors)", (c2, w2).
  split; [done|]. split; [right; right; by left|done].
Qed.

(** X13.  [get_resort_snow_data] never raises: whatever the providers answer,
    it returns an observation with the current and the forecast amount,
    the resort name and one of the three source labels, and the forecast
    is zero unless the label is that of the primary provider. *)
Theorem get_resort_snow_data_total
    (resort_name : string) (lat lon : pyval) (w : world) :
  ∃ current_snow forecast_snow current_temp conditions label w',
    get_resort_snow_data cfg http_get md5_hexdigest json_dumps_sorted
      isoformat py_format resort_name lat lon w
    = (Ok (PyDict [("current_snow", current_snow);
                   ("forecast_snow", forecast_snow);
                   ("current_temp", current_temp);
                   ("conditions", conditions);
                   ("timestamp", PyStr (isoformat (w_now w')));
                   ("source", PyStr label);
                   ("resort", PyStr resort_name)]), w')
    ∧ In label source_labels
    ∧ (label ≠ "OpenWeatherMap (Free API)" → forecast_snow = PyNum 0).
Proof.
  destruct (OpenWeatherMapClient_get_snow_data_total lat lon
              (OpenWeatherMapClient__init__ cfg None true, w))
    as (cs & fs & ct & cond & label & [c' w'] & Hrun & Hlabel & Hfs).
  exists cs, fs, ct, cond, label, w'. split; [|done].
  unfold get_resort_snow_data, try_except, on_new_object.
  unfold mbind at 1, M_bind at 1. by rewrite Hrun.
Qed.

(** ** A total outage *)

Lemma _make_request_down endpoint params max_retries retry_delay c w :
  network_down http_get →
  (1 <= max_retries)%Z →
  (max_retries <= 1025)%Z →
  (0 <= retry_delay)%Q →
  (retry_delay * inject_Z (2 ^ (max_retries - 2)) <= sleep_limit)%Q →
  cache c = ∅ →
  ∃ w' msg,
    _make_request cfg http_get md5_hexdigest json_dumps_sorted
      endpoint params max_retries retry_delay (c, w)
    = (Raise (RequestException msg), (c, w'))
    ∧ w_trace w'
      = w_trace w
        ++ retry_schedule (base_url c +:+ "/" +:+ endpoint)
             (params_or_empty params) retry_delay (Z.to_nat max_retries).
Proof.
  intros Hdown Hmax Hmax' Hdelay Hlimit Hempty.
  rewrite _make_request_miss.
  2:{ unfold cache_fresh. rewrite Hempty, lookup_empty. apply andb_false_r. }
  destruct (Z.to_nat max_retries) as [|k] eqn:Hk; [lia|].
  destruct (request_loop_all_fail cfg http_get md5_hexdigest json_dumps_sorted
              (base_url c +:+ "/" +:+ endpoint) endpoint
              (params_or_empty params) max_retries retry_delay
              Hdown Hdelay Hmax' Hlimit k 0%nat None c w)
    as (w' & Hrun & Htr); [lia|].
  destruct (Hdown (removelast (w_trace w')) (base_url c +:+ "/" +:+ endpoint)
              (params_or_empty params)) as [msg Hmsg].
  exists w', msg. change (Z.of_nat 0) with 0%Z in Hrun.
  by rewrite Hrun, Hmsg.
Qed.

Lemma get_resort_snow_data_down resort_name lat lon w :
  network_down http_get →
  ∃ w',
    get_resort_snow_data cfg http_get md5_hexdigest json_dumps_sorted
      isoformat py_format resort_name lat lon w
    = (Ok (PyDict [("current_snow", PyNum 0);
                   ("forecast_snow", PyNum 0);
                   ("current_temp", PyNum 0);
                   ("conditions", PyStr "Error fetching data");
                   ("timestamp", PyStr (isoformat (w_now w')));
                   ("source", PyStr "Default values (API errors)");
                   ("resort", PyStr resort_name)]), w')
    ∧ w_trace w'
      = w_trace w
        ++ retry_schedule "https://api.openweathermap.org/data/2.5/weather"
             (PyDict [("lat", lat); ("lon", lon); ("units", PyStr "imperial");
                      ("appid", PyStr (OPENWEATHER_API_KEY cfg))])
             retry_delay_default 3
        ++ retry_schedule "https://api.weatherapi.com/v1/forecast.json"
             (PyDict [("q", PyStr (py_format lat +:+ "," +:+ py_format lon));
                      ("days", PyNum 1);
                      ("key", PyStr (WEATHERAPI_KEY cfg))])
             retry_delay_default 3.
Proof.
  intros Hdown.
  set (c1 := OpenWeatherMapClient__init__ cfg None true).
  set (c2 := WeatherApiClient__init__ cfg None true).
  destruct (_make_request_down "weather"
              (PyDict [("lat", lat); ("lon", lon); ("units", PyStr "imperial");
                       ("appid", PyStr (api_key c1))])
              max_retries_default retry_delay_default c1 w Hdown)
    as (w1 & msg1 & Hrun1 & Htr1); [done|done|done|done|done|].
  destruct (_make_request_down "forecast.json"
              (PyDict [("q", PyStr (py_format lat +:+ "," +:+ py_format lon));
                       ("days", PyNum (inject_Z 1));
                       ("key", PyStr (api_key c2))])
              max_retries_default retry_delay_default c2 w1 Hdown)
    as (w2 & msg2 & Hrun2 & Htr2); [done|done|done|done|done|].
  exists w2. split.
  - unfold get_resort_snow_data, try_except at 1, on_new_object. fold c1.
    unfold mbind at 1, M_bind at 1.
    assert (OpenWeatherMapClient_get_snow_data cfg http_get md5_hexdigest
              json_dumps_sorted isoformat py_format lat lon (c1, w)
            = (Ok (PyDict [("current_snow", PyNum 0);
                           ("forecast_snow", PyNum 0);
                           ("current_temp", PyNum 0);
                           ("conditions", PyStr "Error fetching data");
                           ("timestamp", PyStr (isoformat (w_now w2)));
                           ("source", PyStr "Default values (API errors)")]),
               (c1, w2))) as ->; [|done].
    unfold OpenWeatherMapClient_get_snow_data, try_except at 1.
    assert (get_snow_data_free_endpoints cfg http_get md5_hexdigest
              json_dumps_sorted isoformat lat lon (c1, w)
            = (Raise (RequestException msg1), (c1, w1))) as ->.
    { unfold get_snow_data_free_endpoints. apply bind_raise.
      unfold OpenWeatherMapClient_get_current_weather.
      by rewrite (bind_run self _ (c1, w) c1 (c1, w) eq_refl). }
    simpl any_Exception. cbv iota. unfold try_except.
    assert (get_snow_data_fallback cfg http_get md5_hexdigest
              json_dumps_sorted isoformat py_format lat lon (c1, w1)
            = (Raise (RequestException msg2), (c1, w2))) as ->; [|done].
    unfold get_snow_data_fallback. apply bind_raise.
    unfold lift_world, fallback_fetch, on_new_object. simpl snd. fold c2.
    assert (WeatherApiClient_get_snow_data cfg http_get md5_hexdigest
              json_dumps_sorted isoformat py_format lat lon (c2, w1)
            = (Raise (RequestException msg2), (c2, w2))) as ->; [|done].
    unfold WeatherApiClient_get_snow_data. apply bind_raise.
    unfold WeatherApiClient_get_forecast.
    by rewrite (bind_run self _ (c2, w1) c2 (c2, w1) eq_refl).
  - rewrite Htr2, Htr1. by rewrite <- app_assoc.
Qed.

(** X14.  When every request fails with a transport or HTTP error,
    [get_resort_snow_data] still returns: zeros labelled as default
    values, after three requests to each provider, six in all, with four
    sleeps between them. *)
Theorem outage_gives_default_observation
    (resort_name : string) (lat lon : pyval) (w : world) :
  network_down http_get →
  ∃ w' evs,
    get_resort_snow_data cfg http_get md5_hexdigest json_dumps_sorted
      isoformat py_format resort_name lat lon w
    = (Ok (PyDict [("current_snow", PyNum 0);
                   ("forecast_snow", PyNum 0);
                   ("current_temp", PyNum 0);
                   ("conditions", PyStr "Error fetching data");
                   ("timestamp", PyStr (isoformat (w_now w')));
                   ("source", PyStr "Default values (API errors)");
                   ("resort", PyStr resort_name)]), w')
    ∧ w_trace w' = w_trace w ++ evs
    ∧ count_gets evs = 6
    ∧ count_sleeps evs = 4.
Proof.
  intros Hdown.
  destruct (get_resort_snow_data_down resort_name lat lon w Hdown)
    as (w' & Hrun & Htr).
  eexists w', _. split; [exact Hrun|]. split; [exact Htr|].
  rewrite count_gets_app, count_sleeps_app, !retry_schedule_count.
  split; [done|]. reflexivity.
Qed.

End Primary.

Lemma outage_gives_default_observation_witness :
  network_down http_500
  ∧ ∃ w' evs,
      get_resort_snow_data default_settings http_500 stub_md5 stub_json_dumps
        stub_isoformat stub_format "Test Resort 1" (PyNum 40) (PyNum (-111)) noon
      = (Ok (PyDict [("current_snow", PyNum 0);
                     ("forecast_snow", PyNum 0);
                     ("current_temp", PyNum 0);
                     ("conditions", PyStr "Error fetching data");
                     ("timestamp", PyStr (stub_isoformat (w_now w')));
                     ("source", PyStr "Default values (API errors)");
                     ("resort", PyStr "Test Resort 1")]), w')
      ∧ w_trace w' = w_trace noon ++ evs
      ∧ count_gets evs = 6
      ∧ count_sleeps evs = 4.
Proof.
  assert (network_down http_500) as Hdown.
  { intros history url params. exists "500 Server Error". reflexivity. }
  split; [exact Hdown|].
  apply (outage_gives_default_observation default_settings http_500 stub_md5
           stub_json_dumps stub_isoformat stub_format
           "Test Resort 1" (PyNum 40) (PyNum (-111)) noon Hdown).
Defined.

(** ** Dictionaries *)

Lemma dict_lookup_store_eq k v l : dict_lookup k (dict_store k v l) = Some v.
Proof.
  induction l as [|[k' v'] l IH]; simpl.
  - by rewrite String.eqb_refl.
  - destruct (String.eqb k k') eqn:E; simpl.
    + by rewrite String.eqb_refl.
    + by rewrite E.
Qed.

Lemma dict_lookup_store_ne k k' v l :
  k' ≠ k → dict_lookup k' (dict_store k v l) = dict_lookup k' l.
Proof.
  intros Hne. apply String.eqb_neq in Hne.
  induction l as [|[k0 v0] l IH]; simpl.
  - by rewrite Hne.
  - destruct (String.eqb k k0) eqn:E; simpl.
    + apply String.eqb_eq in E as <-. by rewrite Hne.
    + by rewrite IH.
Qed.

(** ** The resorts that are enabled *)

Lemma enable_each_lookup RESORTS name names :
  ∀ enabled,
    dict_lookup name (enable_each RESORTS names enabled)
    = if name_in name names && dict_has name RESORTS
      then dict_lookup name RESORTS
      else dict_lookup name enabled.
Proof.
  induction names as [|n names IH]; intros enabled; [done|].
  simpl. unfold name_in in *.
  destruct (dict_lookup n RESORTS) as [data|] eqn:Hn; rewrite IH.
  - destruct (String.eqb_spec name n) as [->|Hne]; simpl.
    + unfold dict_has. rewrite Hn, dict_lookup_store_eq.
      by rewrite andb_true_r, Tauto.if_same.
    + by rewrite dict_lookup_store_ne.
  - destruct (String.eqb_spec name n) as [->|Hne]; simpl; [|done].
    unfold dict_has. rewrite Hn. by rewrite andb_false_r.
Qed.

(** X15.  With no list of enabled resorts, or an empty one, every configured
    resort is used; otherwise a resort is used exactly when it is both
    listed and configured, with the data it is configured with, and a
    listed name that is not configured is passed over. *)
Theorem get_enabled_resorts_lookup
    (RESORTS : list (string * pyval)) (ENABLED_RESORTS : option (list string))
    (name : string) :
  dict_lookup name (get_enabled_resorts RESORTS ENABLED_RESORTS)
  = match ENABLED_RESORTS with
    | None | Some [] => dict_lookup name RESORTS
    | Some names =>
        if name_in name names then dict_lookup name RESORTS else None
    end.
Proof.
  unfold get_enabled_resorts.
  destruct ENABLED_RESORTS as [[|n names]|]; [done| |done].
  rewrite enable_each_lookup. unfold dict_has.
  destruct (name_in name (n :: names)); [|done].
  by destruct (dict_lookup name RESORTS).
Qed.

(** ** What an alert needs *)

Lemma determine_alert_category_cases cfg a :
  determine_alert_category cfg a = "none"
  ∨ In (determine_alert_category cfg a) alert_categories.
Proof.
  unfold determine_alert_category, alert_categories.
  destruct (Qle_bool (THRESHOLD_HEAVY cfg) a); [right; simpl; tauto|].
  destruct (Qle_bool (THRESHOLD_MODERATE cfg) a); [right; simpl; tauto|].
  destruct (Qle_bool (THRESHOLD_LIGHT cfg) a); [right; simpl; tauto|].
  by left.
Qed.

Lemma determine_alert_category_reached cfg a :
  (THRESHOLD_LIGHT cfg <= THRESHOLD_MODERATE cfg)%Q →
  (THRESHOLD_LIGHT cfg <= THRESHOLD_HEAVY cfg)%Q →
  determine_alert_category cfg a ≠ "none" →
  (THRESHOLD_LIGHT cfg <= a)%Q.
Proof.
  intros HM HH. unfold determine_alert_category.
  destruct (Qle_bool (THRESHOLD_HEAVY cfg) a) eqn:E1.
  { intros _. apply Qle_bool_iff in E1. by apply (Qle_trans _ (THRESHOLD_HEAVY cfg)). }
  destruct (Qle_bool (THRESHOLD_MODERATE cfg) a) eqn:E2.
  { intros _. apply Qle_bool_iff in E2.
    by apply (Qle_trans _ (THRESHOLD_MODERATE cfg)). }
  destruct (Qle_bool (THRESHOLD_LIGHT cfg) a) eqn:E3; [|done].
  intros _. by apply Qle_bool_iff in E3.
Qed.

Lemma should_trigger_alert_inv cfg last_alerts now resort_name snow_data
    is_verified should_alert category :
  should_trigger_alert cfg last_alerts now resort_name snow_data is_verified
  = Ok (should_alert, category) →
  (should_alert = false ∧ category = None)
  ∨ (should_alert = true
     ∧ ∃ current_24h amount,
         py_getitem snow_data "current_24h" = Ok current_24h
         ∧ py_float current_24h = Ok amount
         ∧ category = Some (determine_alert_category cfg amount)
         ∧ determine_alert_category cfg amount ≠ "none"
         ∧ ((THRESHOLD_LIGHT cfg <= amount)%Q → is_verified = true)
         ∧ is_in_cooldown cfg last_alerts now resort_name
             (determine_alert_category cfg amount) = Ok false).
Proof.
  unfold should_trigger_alert, py_ge.
  destruct (py_getitem snow_data "current_24h") as [current|e]; [|done]. simpl.
  destruct (py_float current) as [amount|e] eqn:Hnum; [|done]. simpl.
  destruct (Qle_bool (THRESHOLD_LIGHT cfg) amount && negb is_verified) eqn:Hgate.
  { intros [= <- <-]. by left. }
  destruct (String.eqb (determine_alert_category cfg amount) "none") eqn:Hnone.
  { intros [= <- <-]. by left. }
  destruct (is_in_cooldown _ _ _ _ _) as [[|]|e] eqn:Hcool; simpl; [| |done].
  { intros [= <- <-]. by left. }
  intros [= <- <-]. right. split; [done|]. exists current, amount.
  split_and!; try done.
  - by apply String.eqb_neq.
  - intros Hle. apply Qle_bool_iff in Hle. rewrite Hle in Hgate.
    by destruct is_verified.
Qed.

(** X16.  When the light threshold is the lowest of the three, an alert is
    decided only on verified data: [should_trigger_alert] returns true
    only with [is_verified] true, and then the category is the one of the
    current amount, one of light, moderate and heavy, and not in
    cooldown. *)
Theorem alerts_need_verification
    (cfg : settings) (last_alerts : gmap string (gmap string Q)) (now : Q)
    (resort_name : string) (snow_data : pyval) (is_verified : bool)
    (category : option string) :
  (THRESHOLD_LIGHT cfg <= THRESHOLD_MODERATE cfg)%Q →
  (THRESHOLD_LIGHT cfg <= THRESHOLD_HEAVY cfg)%Q →
  should_trigger_alert cfg last_alerts now resort_name snow_data is_verified
  = Ok (true, category) →
  is_verified = true
  ∧ ∃ c, category = Some c
         ∧ In c alert_categories
         ∧ is_in_cooldown cfg last_alerts now resort_name c = Ok false.
Proof.
  intros HM HH Hrun.
  apply should_trigger_alert_inv in Hrun
    as [[? _]|(_ & current & amount & _ & _ & -> & Hnone & Hver & Hcool)];
    [done|].
  split.
  - apply Hver. by apply determine_alert_category_reached.
  - eexists. split; [done|]. split; [|done].
    by destruct (determine_alert_category_cases cfg amount).
Qed.

Lemma alerts_need_verification_witness :
  should_trigger_alert default_settings ∅ 43200 "Test Resort" snow_data_5 true
  = Ok (true, Some "light")
  ∧ In "light" alert_categories.
Proof.
  destruct (alerts_need_verification default_settings ∅ 43200%Q "Test Resort"
              snow_data_5 true (Some "light"))
    as (_ & c & [= <-] & Hin & _).
  - unfold Qle; simpl; lia.
  - unfold Qle; simpl; lia.
  - vm_compute. reflexivity.
  - split; [vm_compute; reflexivity|exact Hin].
Defined.

(** ** Processing one resort *)

Lemma bind_cases {S A B} (m : M S A) (f : A → M S B) s r s' :
  (m ≫= f) s = (r, s') →
  (∃ e, m s = (Raise e, s') ∧ r = Raise e)
  ∨ (∃ a s1, m s = (Ok a, s1) ∧ f a s1 = (r, s')).
Proof.
  unfold mbind, M_bind. destruct (m s) as [[a|e] s1].
  - intros Hrun. right. by exists a, s1.
  - intros [= <- <-]. left. by exists e.
Qed.

Lemma pure_inv {S A} (r r' : result A) (s s' : S) :
  pure r s = (r', s') → r' = r ∧ s' = s.
Proof. by intros [= <- <-]. Qed.

Create HintDb keeps.

Section Keeps.
Context (keys : list string).

Lemma keeps_refl s : keeps keys s s.
Proof. by split. Qed.

Lemma keeps_trans s1 s2 s3 : keeps keys s1 s2 → keeps keys s2 s3 → keeps keys s1 s3.
Proof.
  intros [Hp1 Hk1] [Hp2 Hk2]. split; [by rewrite Hp2|].
  intros k Hk. by rewrite Hk2, Hk1.
Qed.

Lemma keeps_ret {A} (a : A) : respects (keeps keys) (mret a).
Proof. intros s r s' [= <- <-]. apply keeps_refl. Qed.

Lemma keeps_pure {A} (r : result A) : respects (keeps keys) (pure r).
Proof. intros s r' s' [= <- <-]. apply keeps_refl. Qed.

Lemma keeps_bind {A B} (m : M _ A) (f : A → M _ B) :
  respects (keeps keys) m → (∀ a, respects (keeps keys) (f a)) →
  respects (keeps keys) (m ≫= f).
Proof.
  intros Hm Hf s r s' Hrun.
  apply bind_cases in Hrun as [(e & Hrun & _)|(a & s1 & Hrun1 & Hrun2)].
  - by eapply Hm.
  - eapply keeps_trans; [by eapply Hm|by eapply Hf].
Qed.

Lemma keeps_in_world {A} (m : M world A) :
  respects (keeps keys) (in_object (in_world m)).
Proof.
  intros [l [p w]] r s' Hrun. unfold in_object, in_world in Hrun.
  simpl in Hrun. destruct (m w) as [r1 w1]. injection Hrun as <- <-.
  by split.
Qed.

Lemma keeps_result_set k v :
  ¬ In k keys → respects (keeps keys) (result_set k v).
Proof.
  intros Hk [l s] r s' [= <- <-]. split; [done|]. simpl.
  intros k' Hk'. apply dict_lookup_store_ne. by intros ->.
Qed.

End Keeps.

Lemma keeps_weaken keys keys' s s' :
  (∀ k, In k keys' → In k keys) → keeps keys s s' → keeps keys' s s'.
Proof. intros Hsub [Hp Hk]. split; [done|]. intros k Hin. by apply Hk, Hsub. Qed.

#[local] Hint Resolve keeps_ret keeps_pure keeps_in_world : keeps.
#[local] Hint Extern 1 (respects (keeps _) (result_set _ _)) =>
  apply keeps_result_set; simpl; intuition discriminate : keeps.

Ltac keeps_steps :=
  repeat match goal with
    | |- respects (keeps _) (_ ≫= _) =>
        apply keeps_bind; [|intros; cbv beta zeta]
    | |- respects (keeps _) (let '(_, _) := ?x in _) => destruct x
    | |- respects (keeps _) (if ?b then _ else _) => destruct b
    | |- respects (keeps _) (match ?x with Some _ => _ | None => _ end) =>
        destruct x
    | |- respects (keeps _) _ => solve [auto with keeps]
    end.

Section ProcessResort.
Context (cfg : settings)
        (http_get : list event → string → pyval → Q * result pyval)
        (md5_hexdigest : string → string)
        (json_dumps_sorted : pyval → string)
        (isoformat : Q → string)
        (py_format : pyval → string).

Lemma observe_resort_keeps resort_name resort_data :
  respects (keeps initial_fields)
    (observe_resort cfg http_get md5_hexdigest json_dumps_sorted isoformat
       py_format resort_name resort_data).
Proof. unfold observe_resort. keeps_steps. Qed.

Lemma verify_if_significant_keeps resort_name lat lon time_window_data :
  respects (keeps alert_fields)
    (verify_if_significant cfg http_get md5_hexdigest json_dumps_sorted
       isoformat py_format resort_name lat lon time_window_data).
Proof. unfold verify_if_significant. keeps_steps. Qed.

(** The field "verified" is what the verification step returns. *)
Lemma verify_if_significant_verified resort_name lat lon time_window_data
    result s is_verified result' s' :
  dict_lookup "verified" result = Some (PyBool false) →
  verify_if_significant cfg http_get md5_hexdigest json_dumps_sorted
    isoformat py_format resort_name lat lon time_window_data (result, s)
  = (Ok is_verified, (result', s')) →
  dict_lookup "verified" result' = Some (PyBool is_verified).
Proof.
  intros Hinit. unfold verify_if_significant. intros Hrun.
  apply bind_Ok in Hrun as (current_24h & s1 & [_ ->]%pure_Ok & Hrun).
  apply bind_Ok in Hrun as (significant & s2 & [_ ->]%pure_Ok & Hrun).
  destruct significant.
  2:{ by injection Hrun as <- <- <-. }
  apply bind_Ok in Hrun as ([v secondary] & [result1 s1] & Hverify & Hrun).
  unfold in_object in Hverify. simpl in Hverify.
  destruct (in_world _ s) as [r1 s1'] eqn:E. injection Hverify as -> <- <-.
  apply bind_Ok in Hrun as ([] & [result2 s2] & Hset & Hrun).
  injection Hset as <- <-.
  apply bind_Ok in Hrun as ([] & [result3 s3] & Hsecond & Hrun).
  injection Hrun as <- <- <-.
  assert (dict_lookup "verified" result3
          = dict_lookup "verified" (dict_store "verified" (PyBool v) result))
    as ->; [|apply dict_lookup_store_eq].
  destruct secondary as [d|]; [destruct (py_truthy d)|];
    injection Hsecond as <- <-; [|done|done].
  by apply dict_lookup_store_ne.
Qed.

Lemma alert_if_due_run resort_name time_window_data is_verified result p w :
  alert_if_due cfg resort_name time_window_data is_verified (result, (p, w))
  = match should_trigger_alert cfg (last_alerts p) (w_now w) resort_name
            time_window_data is_verified with
    | Raise e => (Raise e, (result, (p, w)))
    | Ok (true, Some category) =>
        (Ok tt,
         (dict_store "alert_category" (PyStr category)
            (dict_store "alert_triggered" (PyBool true) result),
          ({| resorts := resorts p;
              last_alerts :=
                update_last_alert_time (last_alerts p) (w_now w)
                  resort_name category |}, w)))
    | Ok (true, None) =>
        (Ok tt,
         (dict_store "alert_category" PyNone
            (dict_store "alert_triggered" (PyBool true) result), (p, w)))
    | Ok (false, _) => (Ok tt, (result, (p, w)))
    end.
Proof.
  unfold alert_if_due, mbind, M_bind, in_object, decide_alert. simpl.
  by destruct (should_trigger_alert _ _ _ _ _ _) as [[[|] [category|]]|e].
Qed.

(** What the [try] block of [process_resort] leaves behind: either no
    alert, the processor being as it was, or an alert that
    [should_trigger_alert] decided at the clock of the end, reported in
    [result] and recorded in the processor. *)
Lemma process_resort_try_run resort_name resort_data result p w r result' p' w' :
  dict_lookup "alert_triggered" result = Some (PyBool false) →
  dict_lookup "alert_category" result = Some PyNone →
  dict_lookup "error" result = Some PyNone →
  dict_lookup "verified" result = Some (PyBool false) →
  process_resort_try cfg http_get md5_hexdigest json_dumps_sorted isoformat
    py_format resort_name resort_data (result, (p, w))
  = (r, (result', (p', w'))) →
  (p' = p
   ∧ dict_lookup "alert_triggered" result' = Some (PyBool false)
   ∧ dict_lookup "alert_category" result' = Some PyNone)
  ∨ (r = Ok tt
     ∧ ∃ time_window_data is_verified category,
         should_trigger_alert cfg (last_alerts p) (w_now w') resort_name
           time_window_data is_verified = Ok (true, Some category)
         ∧ p' = {| resorts := resorts p;
                   last_alerts :=
                     update_last_alert_time (last_alerts p) (w_now w')
                       resort_name category |}
         ∧ dict_lookup "alert_triggered" result' = Some (PyBool true)
         ∧ dict_lookup "alert_category" result' = Some (PyStr category)
         ∧ dict_lookup "error" result' = Some PyNone
         ∧ dict_lookup "verified" result' = Some (PyBool is_verified)).
Proof.
  intros Htriggered Hcategory Herror Hverified. unfold process_resort_try.
  intros Hrun.
  apply bind_cases in Hrun as [(e & Hhas & _)|(has & s1 & Hhas & Hrun)].
  { apply pure_inv in Hhas as [_ [= <- <- <-]]. left. by split_and!. }
  apply pure_Ok in Hhas as [_ ->]. destruct (negb has).
  { injection Hrun as <- <- <- <-. left. split; [done|].
    by rewrite !dict_lookup_store_ne. }
  apply bind_cases in Hrun
    as [(e & Hobserve & _)|([[lat lon] twd] & [result1 [p1 w1]] & Hobserve & Hrun)].
  { apply observe_resort_keeps in Hobserve as [Hp Hk]. simpl in Hp, Hk.
    left. split; [done|].
    rewrite !Hk by (simpl; tauto). by split. }
  apply observe_resort_keeps in Hobserve as [Hp1 Hk1]. simpl in Hp1, Hk1.
  subst p1.
  apply bind_cases in Hrun
    as [(e & Hverify & _)|(is_verified & [result2 [p2 w2]] & Hverify & Hrun)].
  { apply verify_if_significant_keeps in Hverify as [Hp Hk]. simpl in Hp, Hk.
    left. split; [done|].
    rewrite !Hk, !Hk1 by (simpl; tauto). by split. }
  pose proof Hverify as Hflag.
  apply verify_if_significant_verified in Hflag;
    [|by rewrite Hk1 by (simpl; tauto)].
  apply verify_if_significant_keeps in Hverify as [Hp2 Hk2]. simpl in Hp2, Hk2.
  subst p2. rewrite alert_if_due_run in Hrun.
  destruct (should_trigger_alert _ _ _ _ _ _)
    as [[[|] [category|]]|e] eqn:Hdecide.
  - injection Hrun as <- <- <- <-. right. split; [done|].
    exists twd, is_verified, category. split; [done|]. split; [done|].
    rewrite dict_lookup_store_eq.
    rewrite (dict_lookup_store_ne "alert_category" "alert_triggered") by done.
    rewrite dict_lookup_store_eq.
    rewrite !(dict_lookup_store_ne _ "error") by done.
    rewrite !(dict_lookup_store_ne _ "verified") by done.
    rewrite Hk2, Hk1 by (simpl; tauto). by split_and!.
  - apply should_trigger_alert_inv in Hdecide
      as [[? _]|(_ & ? & ? & _ & _ & ? & _)]; done.
  - injection Hrun as <- <- <- <-. left. split; [done|].
    rewrite !Hk2, !Hk1 by (simpl; tauto). by split.
  - injection Hrun as <- <- <- <-. left. split; [done|].
    rewrite !Hk2, !Hk1 by (simpl; tauto). by split.
  - injection Hrun as <- <- <- <-. left. split; [done|].
    rewrite !Hk2, !Hk1 by (simpl; tauto). by split.
Qed.

Lemma process_resort_run resort_name resort_data p w :
  ∃ result p' w',
    process_resort cfg http_get md5_hexdigest json_dumps_sorted isoformat
      py_format resort_name resort_data (p, w)
    = (Ok (PyDict result), (p', w'))
    ∧ ((p' = p
        ∧ dict_lookup "alert_triggered" result = Some (PyBool false)
        ∧ dict_lookup "alert_category" result = Some PyNone)
       ∨ (∃ time_window_data is_verified category,
            should_trigger_alert cfg (last_alerts p) (w_now w') resort_name
              time_window_data is_verified = Ok (true, Some category)
            ∧ p' = {| resorts := resorts p;
                      last_alerts :=
                        update_last_alert_time (last_alerts p) (w_now w')
                          resort_name category |}
            ∧ dict_lookup "alert_triggered" result = Some (PyBool true)
            ∧ dict_lookup "alert_category" result = Some (PyStr category)
            ∧ dict_lookup "error" result = Some PyNone
            ∧ dict_lookup "verified" result = Some (PyBool is_verified))).
Proof.
  unfold process_resort. cbv zeta.
  destruct (process_resort_try _ _ _ _ _ _ _ _ _) as [r [result' [p' w']]] eqn:E.
  apply process_resort_try_run in E; [|done..].
  destruct r as [[]|e].
  - exists result', p', w'. split; [done|].
    destruct E as [E|(_ & E)]; [by left|by right].
  - exists (dict_store "error" (PyStr (str_exn e)) result'), p', w'.
    split; [done|]. destruct E as [(-> & Ht & Hc)|(? & _)]; [|done].
    left. split; [done|]. by rewrite !dict_lookup_store_ne.
Qed.

End ProcessResort.

(** ** What [process_resort] reports *)

Lemma is_in_cooldown_recorded cfg last_alerts now resort_name category t :
  last_alert_time last_alerts resort_name category = Some t →
  is_in_cooldown cfg last_alerts now resort_name category = Ok false →
  (t + timedelta_hours (ALERT_COOLDOWN_HOURS cfg) <= now)%Q.
Proof.
  intros Ht. rewrite (is_in_cooldown_stored _ _ _ _ _ _ Ht).
  destruct (datetime_add _ _) as [r|e] eqn:Hadd; [|done].
  apply datetime_add_inv in Hadd as [_ ->]. simpl.
  intros [= Hlt]. by apply Qlt_bool_false.
Qed.

Section Reports.
Context (cfg : settings)
        (http_get : list event → string → pyval → Q * result pyval)
        (md5_hexdigest : string → string)
        (json_dumps_sorted : pyval → string)
        (isoformat : Q → string)
        (py_format : pyval → string).

(** X17.  [process_resort] reports an alert exactly when it records one.  It
    always returns a result, and either that result shows no alert and
    the processor is as it was, or it shows an alert of one of the three
    categories and no error, the pair of resort and category was not in
    cooldown, and the alert is recorded for the pair at the clock of the
    end of the call.  The resorts of the processor never change. *)
Theorem process_resort_accounting
    (resort_name : string) (resort_data : pyval) (p : processor) (w : world) :
  ∃ result p' w',
    process_resort cfg http_get md5_hexdigest json_dumps_sorted isoformat
      py_format resort_name resort_data (p, w)
    = (Ok (PyDict result), (p', w'))
    ∧ resorts p' = resorts p
    ∧ ((dict_lookup "alert_triggered" result = Some (PyBool false)
        ∧ dict_lookup "alert_category" result = Some PyNone
        ∧ p' = p)
       ∨ (∃ category,
            dict_lookup "alert_triggered" result = Some (PyBool true)
            ∧ dict_lookup "alert_category" result = Some (PyStr category)
            ∧ In category alert_categories
            ∧ dict_lookup "error" result = Some PyNone
            ∧ is_in_cooldown cfg (last_alerts p) (w_now w') resort_name category
              = Ok false
            ∧ last_alerts p'
              = update_last_alert_time (last_alerts p) (w_now w')
                  resort_name category)).
Proof.
  destruct (process_resort_run cfg http_get md5_hexdigest json_dumps_sorted
              isoformat py_format resort_name resort_data p w)
    as (result & p' & w' & Hrun
        & [(-> & Ht & Hc)
          |(twd & v & category & Hdecide & -> & Ht & Hc & He & Hv)]).
  - exists result, p, w'. split; [done|]. split; [done|]. by left.
  - eexists result, _, w'. split; [exact Hrun|]. split; [done|]. right.
    exists category.
    apply should_trigger_alert_inv in Hdecide
      as [[? _]|(_ & current & amount & _ & _ & [= ->] & Hnone & _ & Hcool)];
      [done|].
    split_and!; try done.
    by destruct (determine_alert_category_cases cfg amount).
Qed.

(** X18.  When the light threshold is the lowest of the three, a result that
    reports an alert also reports that the data were verified. *)
Theorem reported_alerts_are_verified
    (resort_name : string) (resort_data : pyval) (p : processor) (w : world)
    (result : list (string * pyval)) (s' : processor * world) :
  (THRESHOLD_LIGHT cfg <= THRESHOLD_MODERATE cfg)%Q →
  (THRESHOLD_LIGHT cfg <= THRESHOLD_HEAVY cfg)%Q →
  process_resort cfg http_get md5_hexdigest json_dumps_sorted isoformat
    py_format resort_name resort_data (p, w)
  = (Ok (PyDict result), s') →
  dict_lookup "alert_triggered" result = Some (PyBool true) →
  dict_lookup "verified" result = Some (PyBool true).
Proof.
  intros HM HH Hrun Htriggered.
  destruct (process_resort_run cfg http_get md5_hexdigest json_dumps_sorted
              isoformat py_format resort_name resort_data p w)
    as (result1 & p' & w' & Hrun1
        & [(_ & Ht & _)
          |(twd & v & category & Hdecide & _ & _ & _ & _ & Hv)]);
    rewrite Hrun1 in Hrun; injection Hrun as -> <-; [congruence|].
  apply should_trigger_alert_inv in Hdecide
    as [[? _]|(_ & current & amount & _ & _ & _ & Hnone & Hver & _)]; [done|].
  rewrite Hv, Hver; [done|]. by apply determine_alert_category_reached.
Qed.

(** X19.  [process_resort] reports no alert for a resort and a category while
    the alert recorded for them is less than the cooldown old: when it
    does report one, the clock has reached the recorded time plus
    [ALERT_COOLDOWN_HOURS]. *)
Theorem no_alert_during_cooldown
    (resort_name category : string) (resort_data : pyval)
    (p p' : processor) (w w' : world) (result : list (string * pyval)) (t : Q) :
  last_alert_time (last_alerts p) resort_name category = Some t →
  process_resort cfg http_get md5_hexdigest json_dumps_sorted isoformat
    py_format resort_name resort_data (p, w)
  = (Ok (PyDict result), (p', w')) →
  dict_lookup "alert_category" result = Some (PyStr category) →
  (t + timedelta_hours (ALERT_COOLDOWN_HOURS cfg) <= w_now w')%Q.
Proof.
  intros Ht Hrun Hcategory.
  destruct (process_resort_run cfg http_get md5_hexdigest json_dumps_sorted
              isoformat py_format resort_name resort_data p w)
    as (result1 & p1 & w1 & Hrun1
        & [(_ & _ & Hc)
          |(twd & v & category1 & Hdecide & _ & _ & Hc & _ & _)]);
    rewrite Hrun1 in Hrun; injection Hrun as -> <- <-; [congruence|].
  assert (category1 = category) as -> by congruence.
  apply should_trigger_alert_inv in Hdecide
    as [[? _]|(_ & current & amount & _ & _ & [= ->] & _ & _ & Hcool)]; [done|].
  by eapply is_in_cooldown_recorded.
Qed.

(** X20.  Resort data without coordinates are reported as the error
    "Missing coordinates": nothing is fetched, and the processor and the
    world are as they were. *)
Theorem process_resort_missing_coordinates
    (resort_name : string) (resort_data : pyval) (p : processor) (w : world) :
  py_contains "coordinates" resort_data = Ok false →
  process_resort cfg http_get md5_hexdigest json_dumps_sorted isoformat
    py_format resort_name resort_data (p, w)
  = (Ok (PyDict [("resort", PyStr resort_name);
                 ("resort_data", resort_data);
                 ("timestamp", PyStr (isoformat (w_now w)));
                 ("alert_triggered", PyBool false);
                 ("alert_category", PyNone);
                 ("verified", PyBool false);
                 ("error", PyStr "Missing coordinates")]), (p, w)).
Proof.
  intros Hmissing. unfold process_resort, process_resort_try. cbv zeta.
  unfold mbind at 1, M_bind at 1, pure at 1. by rewrite Hmissing.
Qed.

End Reports.

Lemma reported_alerts_are_verified_witness :
  ∃ result s',
    process_resort default_settings http_eight_inches stub_md5 stub_json_dumps
      stub_isoformat stub_format "Test Resort 1" test_resort_data
      (test_processor, noon)
    = (Ok (PyDict result), s')
    ∧ dict_lookup "alert_triggered" result = Some (PyBool true)
    ∧ dict_lookup "verified" result = Some (PyBool true).
Proof.
  assert (∃ result s',
            process_resort default_settings http_eight_inches stub_md5
              stub_json_dumps stub_isoformat stub_format
              "Test Resort 1" test_resort_data (test_processor, noon)
            = (Ok (PyDict result), s')
            ∧ dict_lookup "alert_triggered" result = Some (PyBool true))
    as (result & s' & Hrun & Htriggered)
    by (vm_compute; eexists _, _; split; reflexivity).
  exists result, s'. split; [exact Hrun|]. split; [exact Htriggered|].
  apply (reported_alerts_are_verified default_settings http_eight_inches
           stub_md5 stub_json_dumps stub_isoformat stub_format
           "Test Resort 1" test_resort_data test_processor noon result s').
  - unfold Qle; simpl; lia.
  - unfold Qle; simpl; lia.
  - exact Hrun.
  - exact Htriggered.
Defined.

Lemma no_alert_during_cooldown_witness :
  ∃ result p' w',
    process_resort default_settings http_eight_inches stub_md5 stub_json_dumps
      stub_isoformat stub_format "Test Resort 1" test_resort_data
      (alerted_processor, noon)
    = (Ok (PyDict result), (p', w'))
    ∧ dict_lookup "alert_category" result = Some (PyStr "moderate")
    ∧ (0 + timedelta_hours (ALERT_COOLDOWN_HOURS default_settings) <= w_now w')%Q.
Proof.
  assert (∃ result p' w',
            process_resort default_settings http_eight_inches stub_md5
              stub_json_dumps stub_isoformat stub_format
              "Test Resort 1" test_resort_data (alerted_processor, noon)
            = (Ok (PyDict result), (p', w'))
            ∧ dict_lookup "alert_category" result = Some (PyStr "moderate"))
    as (result & p' & w' & Hrun & Hcategory)
    by (vm_compute; eexists _, _, _; split; reflexivity).
  exists result, p', w'. split; [exact Hrun|]. split; [exact Hcategory|].
  apply (no_alert_during_cooldown default_settings http_eight_inches
           stub_md5 stub_json_dumps stub_isoformat stub_format
           "Test Resort 1" "moderate" test_resort_data
           alerted_processor p' noon w' result 0%Q).
  - vm_compute. reflexivity.
  - exact Hrun.
  - exact Hcategory.
Defined.

Lemma process_resort_missing_coordinates_witness :
  process_resort default_settings http_500 stub_md5 stub_json_dumps
    stub_isoformat stub_format "Test Resort 2"
    (PyList [PyNum 41; PyNum (-112)]) (test_processor, noon)
  = (Ok (PyDict [("resort", PyStr "Test Resort 2");
                 ("resort_data", PyList [PyNum 41; PyNum (-112)]);
                 ("timestamp", PyStr (stub_isoformat (w_now noon)));
                 ("alert_triggered", PyBool false);
                 ("alert_category", PyNone);
                 ("verified", PyBool false);
                 ("error", PyStr "Missing coordinates")]),
     (test_processor, noon)).
Proof.
  apply (process_resort_missing_coordinates default_settings http_500
           stub_md5 stub_json_dumps stub_isoformat stub_format
           "Test Resort 2" (PyList [PyNum 41; PyNum (-112)])
           test_processor noon).
  reflexivity.
Defined.

(** ** A total outage, seen from the processor *)


Section Outage.
Context (cfg : settings)
        (http_get : list event → string → pyval → Q * result pyval)
        (md5_hexdigest : string → string)
        (json_dumps_sorted : pyval → string)
        (isoformat : Q → string)
        (py_format : pyval → string).


End Outage.


(** ** How many requests a pass sends *)

Lemma sends_decide_alert cfg resort_name snow_data is_verified :
  sends_at_most 0 (decide_alert cfg resort_name snow_data is_verified).
Proof. intros s r s' [= <- <-]. exists []. by rewrite app_nil_r. Qed.

Lemma sends_record_alert resort_name category :
  sends_at_most 0 (record_alert resort_name category).
Proof. intros s r s' [= <- <-]. exists []. by rewrite app_nil_r. Qed.

#[local] Hint Resolve sends_decide_alert sends_record_alert : budget.
#[local] Hint Extern 1 (sends_at_most _ (in_object _)) =>
  apply sends_in_object : budget.

Section Passes.
Context (cfg : settings)
        (http_get : list event → string → pyval → Q * result pyval)
        (md5_hexdigest : string → string)
        (json_dumps_sorted : pyval → string)
        (isoformat : Q → string)
        (py_format : pyval → string).

Lemma sends_process_resort_try resort_name resort_data :
  sends_at_most 12
    (process_resort_try cfg http_get md5_hexdigest json_dumps_sorted isoformat
       py_format resort_name resort_data).
Proof.
  unfold process_resort_try. free_steps.
  match goal with |- sends_at_most _ (if ?b then _ else _) => destruct b end;
    [sends_nothing|].
  apply (sends_bind 9 3).
  { unfold observe_resort. free_steps. apply (sends_bind 9 0).
    - apply sends_in_object, sends_in_world, sends_get_resort_snow_data.
    - intros primary_data. free_steps. sends_nothing. }
  intros [[lat lon] time_window_data]. apply (sends_bind 3 0).
  { unfold verify_if_significant. free_steps.
    match goal with |- sends_at_most _ (if ?b then _ else _) => destruct b end;
      [|sends_nothing].
    apply (sends_bind 3 0).
    - apply sends_in_object, sends_in_world, sends_verify_with_secondary_source.
    - intros [is_verified [d|]]; [destruct (py_truthy d)|];
        free_steps; sends_nothing. }
  intros is_verified. unfold alert_if_due. free_steps.
  match goal with |- sends_at_most _ (if ?b then _ else _) => destruct b end;
    [|sends_nothing].
  free_steps.
  match goal with |- sends_at_most _ (match ?c with _ => _ end) => destruct c end;
    free_steps; sends_nothing.
Qed.

Lemma sends_process_resort resort_name resort_data :
  sends_at_most 12
    (process_resort cfg http_get md5_hexdigest json_dumps_sorted isoformat
       py_format resort_name resort_data).
Proof.
  intros [p w] r s' Hrun. unfold process_resort in Hrun. cbv zeta in Hrun.
  destruct (process_resort_try _ _ _ _ _ _ _ _ _) as [r1 [result1 s1]] eqn:E.
  apply sends_process_resort_try in E as (evs & Htr & Hn).
  exists evs. split; [|done]. by destruct r1; injection Hrun as <- <-.
Qed.

Lemma sends_process_each items :
  ∀ results resorts_processed alerts_triggered errors,
    sends_at_most (12 * length items)
      (process_each cfg http_get md5_hexdigest json_dumps_sorted isoformat
         py_format items results resorts_processed alerts_triggered errors).
Proof.
  induction items as [|[resort_name resort_data] items IH];
    intros results n a e.
  - simpl. sends_nothing.
  - simpl process_each. eapply sends_weaken.
    + apply (sends_bind 12 (12 * length items)).
      * apply sends_process_resort.
      * intros resort_result. free_steps. apply IH.
    + simpl. lia.
Qed.

(** X22.  [process_resort] sends at most twelve requests, nine for the primary
    observation and three for the verification, and a pass over the
    resorts at most twelve for each resort. *)
Theorem processing_budget
    (resort_name : string) (resort_data : pyval) (p : processor) (w : world) :
  sends_at_most 12
    (process_resort cfg http_get md5_hexdigest json_dumps_sorted isoformat
       py_format resort_name resort_data)
  ∧ ∃ evs,
      w_trace (snd (snd (process_all_resorts cfg http_get md5_hexdigest
                           json_dumps_sorted isoformat py_format (p, w))))
      = w_trace w ++ evs
      ∧ count_gets evs ≤ 12 * length (resorts p).
Proof.
  split; [apply sends_process_resort|].
  destruct (process_all_resorts _ _ _ _ _ _ (p, w)) as [r s'] eqn:Hrun.
  unfold process_all_resorts in Hrun.
  unfold mbind at 1, M_bind at 1, in_world, datetime_now in Hrun.
  simpl in Hrun. unfold mbind at 1, M_bind at 1 in Hrun. simpl in Hrun.
  apply bind_cases in Hrun as [(e & Hrun & _)|(counts & s1 & Hrun & Hret)].
  - by apply sends_process_each in Hrun.
  - apply sends_process_each in Hrun as (evs & Htr & Hn).
    destruct counts as [[[results n] a] e]. injection Hret as <- <-.
    by exists evs.
Qed.

(** ** The summary of a pass *)

Lemma process_each_run items :
  ∀ results resorts_processed alerts_triggered errors p w,
    ∃ results' alerts_triggered' errors' p' w',
      process_each cfg http_get md5_hexdigest json_dumps_sorted isoformat
        py_format items results resorts_processed alerts_triggered errors (p, w)
      = (Ok (results', (resorts_processed + Z.of_nat (length items))%Z,
             alerts_triggered', errors'), (p', w'))
      ∧ resorts p' = resorts p
      ∧ (alerts_triggered <= alerts_triggered')%Z
      ∧ (errors <= errors')%Z
      ∧ (alerts_triggered' - alerts_triggered + (errors' - errors)
         <= Z.of_nat (length items))%Z
      ∧ ∀ name,
          dict_has name results = true ∨ In name (map fst items) →
          dict_has name results' = true.
Proof.
  induction items as [|[resort_name resort_data] items IH];
    intros results n a e p w.
  - exists results, a, e, p, w. split_and!; try lia.
    + simpl. by rewrite Z.add_0_r.
    + done.
    + by intros name [H|[]].
  - destruct (process_resort_run cfg http_get md5_hexdigest json_dumps_sorted
                isoformat py_format resort_name resort_data p w)
      as (result & p1 & w1 & Hrun & Hcases).
    simpl process_each. rewrite (bind_run _ _ _ _ _ Hrun).
    unfold mbind at 1, M_bind at 1, pure at 1. simpl py_get.
    unfold mbind at 1, M_bind at 1, pure at 1.
    set (a1 := if py_truthy (default (PyBool false)
                               (dict_lookup "alert_triggered" result))
               then (a + 1)%Z else a).
    set (e1 := if py_truthy (default PyNone (dict_lookup "error" result))
               then (e + 1)%Z else e).
    destruct (IH (dict_store resort_name (PyDict result) results)
                (n + 1)%Z a1 e1 p1 w1)
      as (results' & a' & e' & p' & w' & Hrest & Hres & Ha & He & Hsum & Hhas).
    exists results', a', e', p', w'.
    assert (resorts p1 = resorts p ∧ (a <= a1)%Z ∧ (e <= e1)%Z
            ∧ (a1 - a + (e1 - e) <= 1)%Z) as (Hres1 & Ha1 & He1 & Hsum1).
    { subst a1 e1.
      destruct Hcases
        as [(-> & -> & _)|(twd & v & category & _ & -> & -> & _ & -> & _)];
        simpl.
      - split; [done|].
        destruct (py_truthy (default PyNone (dict_lookup "error" result))); lia.
      - split; [done|]. lia. }
    split.
    { rewrite Hrest. simpl length.
      by replace (n + Z.of_nat (S (length items)))%Z
        with (n + 1 + Z.of_nat (length items))%Z by lia. }
    split; [congruence|]. split; [lia|]. split; [lia|].
    split; [simpl length; lia|].
    intros name Hname. apply Hhas.
    destruct (String.eqb_spec name resort_name) as [->|Hne].
    { left. unfold dict_has. by rewrite dict_lookup_store_eq. }
    destruct Hname as [H|[H|H]].
    + left. unfold dict_has in *. by rewrite dict_lookup_store_ne.
    + simpl in H. by subst.
    + by right.
Qed.

(** X23.  A pass over the resorts always returns its summary: every resort of
    the processor is processed and has its result under its name, and a
    resort is counted as an alert or as an error but never as both, so
    that the two counts together do not exceed the number of resorts.
    The resorts of the processor are as they were. *)
Theorem process_all_resorts_summary (p : processor) (w : world) :
  ∃ results alerts_triggered errors p' w',
    process_all_resorts cfg http_get md5_hexdigest json_dumps_sorted isoformat
      py_format (p, w)
    = (Ok (PyDict
             [("timestamp", PyStr (isoformat (w_now w)));
              ("resorts_processed",
               PyNum (inject_Z (Z.of_nat (length (resorts p)))));
              ("alerts_triggered", PyNum (inject_Z alerts_triggered));
              ("errors", PyNum (inject_Z errors));
              ("results", PyDict results)]), (p', w'))
    ∧ (0 <= alerts_triggered)%Z
    ∧ (0 <= errors)%Z
    ∧ (alerts_triggered + errors <= Z.of_nat (length (resorts p)))%Z
    ∧ (∀ name, In name (map fst (resorts p)) → dict_has name results = true)
    ∧ resorts p' = resorts p.
Proof.
  destruct (process_each_run (resorts p) [] 0 0 0 p w)
    as (results & a & e & p' & w' & Hrun & Hres & Ha & He & Hsum & Hhas).
  exists results, a, e, p', w'. split_and!; try done; try lia.
  - unfold process_all_resorts.
    unfold mbind at 1, M_bind at 1, in_world, datetime_now. simpl.
    unfold mbind at 1, M_bind at 1. simpl.
    by rewrite (bind_run _ _ _ _ _ Hrun).
  - intros name Hname. apply Hhas. by right.
Qed.

End Passes.
